(** * shrike-guard: scan orchestration and verdict sanitization

    A shallow embedding of the Python package [shrike_guard]
    (sanitizer.py, scanner.py, config.py, exceptions.py,
    anthropic_client.py, async_client.py) and the properties of its
    natural-language specification.

    Conventions of the embedding.
    - A Python [str] is a Rocq [string] whose characters are the code
      points U+0000..U+00FF; [len] is [String.length].
    - A JSON value (what [response.json()] returns, what a message dict
      holds) is a [pyval]; a Python [dict] with string keys is a
      [gmap string pyval]; [d.get(k, v)] is [default v (d !! k)].
    - A Python [float] is a primitive binary64 [float]; [0.9] and [0.7]
      are the same literals, rounded the same way.
    - Code that can raise returns a [result]; code that talks to the
      network, the logger or the wrapped provider client runs in the
      writer monad [M], whose trace lists these effects in order.
    - An [async def] is embedded like its synchronous twin: within one
      call every [await] is sequential. *)

From Stdlib Require Import ZArith String Ascii Bool List Lia.
From Stdlib Require Import Floats.PrimFloat Floats.FloatOps Floats.SpecFloat Floats.FloatAxioms.
From stdpp Require Import gmap strings list fin_maps pretty.

#[local] Set Warnings "-inexact-float,-register-all,-abstract-large-number".
#[local] Open Scope Z_scope.

(* ===================================================================== *)
(** * Python values and primitives *)
(* ===================================================================== *)

Module Py.

Inductive pyval : Type :=
| PNone
| PBool (b : bool)
| PInt (z : Z)
| PFloat (f : float)
| PStr (s : string)
| PList (l : list pyval)
| PDict (d : gmap string pyval).

(** [type(v).__name__], as interpreter messages print it. *)
Definition type_name (v : pyval) : string :=
  match v with
  | PNone => "NoneType"
  | PBool _ => "bool"
  | PInt _ => "int"
  | PFloat _ => "float"
  | PStr _ => "str"
  | PList _ => "list"
  | PDict _ => "dict"
  end.

(** [bool(v)]: what [if v:] and [not v] test. *)
Definition truthy (v : pyval) : bool :=
  match v with
  | PNone => false
  | PBool b => b
  | PInt z => negb (z =? 0)
  | PFloat f => negb (f =? 0)%float
  | PStr s => negb (String.length s =? 0)%nat
  | PList l => match l with [] => false | _ => true end
  | PDict d => negb (bool_decide (d = ∅))
  end.

(** [v == s] for a string literal [s]. *)
Definition eq_str (v : pyval) (s : string) : bool :=
  match v with
  | PStr s' => String.eqb s' s
  | _ => false
  end.

(** Exceptions of the interpreter and of httpx, by the three classes the
    [except] clauses of the adapters tell apart. *)
Inductive py_exn : Type :=
| TimeoutException (msg : string)
| HTTPStatusError (status_code : Z)
| Exception (cls : string) (msg : string).

(** Exceptions that leave the package: a foreign exception, or one of the
    two classes of exceptions.py. [ShrikeBlockedError] holds the
    attributes its [__init__] stores. *)
Inductive exn : Type :=
| Raised (e : py_exn)
| ShrikeScanError (message : string)
| ShrikeBlockedError (message threat_type confidence violations : pyval).

Inductive result (E A : Type) : Type :=
| Ok (a : A)
| Err (e : E).
Arguments Ok {E A} a.
Arguments Err {E A} e.

Definition result_bind {E A B} (r : result E A) (k : A → result E B) : result E B :=
  match r with
  | Ok a => k a
  | Err e => Err e
  end.

Notation "'let*' x ':=' r 'in' k" := (result_bind r (λ x, k))
  (at level 10, x name, r at level 100, k at level 200).

Definition AttributeError {A} (v : pyval) (attr : string) : result py_exn A :=
  Err (Exception "AttributeError"
         ("'" +:+ type_name v +:+ "' object has no attribute '" +:+ attr +:+ "'")).

Definition TypeError {A} (msg : string) : result py_exn A :=
  Err (Exception "TypeError" msg).

(** ** str methods *)

Definition nl : string := String "010"%char "".

(** [c.lower()] on U+0000..U+00FF: A-Z and the Latin-1 capitals
    U+00C0..U+00DE other than the multiplication sign U+00D7. *)
Definition lower_char (c : ascii) : ascii :=
  let n := N_of_ascii c in
  if ((65 <=? n) && (n <=? 90) || (192 <=? n) && (n <=? 222) && negb (n =? 215))%N
  then ascii_of_N (n + 32) else c.

Fixpoint lower (s : string) : string :=
  match s with
  | EmptyString => EmptyString
  | String c s' => String (lower_char c) (lower s')
  end.

(** [s.replace(old, new)] for one-character [old] and [new]. *)
Fixpoint replace (old new : ascii) (s : string) : string :=
  match s with
  | EmptyString => EmptyString
  | String c s' => String (if Ascii.eqb c old then new else c) (replace old new s')
  end.

(** [c.isspace()] on U+0000..U+00FF. *)
Definition isspace (c : ascii) : bool :=
  let n := N_of_ascii c in
  ((9 <=? n) && (n <=? 13) || (28 <=? n) && (n <=? 32) || (n =? 133) || (n =? 160))%N.

Fixpoint lstrip (s : string) : string :=
  match s with
  | EmptyString => EmptyString
  | String c s' => if isspace c then lstrip s' else s
  end.

(** [s.rstrip()]: a character stays when it is not a space or something
    stays after it. *)
Fixpoint rstrip (s : string) : string :=
  match s with
  | EmptyString => EmptyString
  | String c s' =>
      match rstrip s' with
      | EmptyString => if isspace c then EmptyString else String c EmptyString
      | r => String c r
      end
  end.

Definition strip (s : string) : string := rstrip (lstrip s).

(** [sep.join(items)]: raises TypeError at the first item that is not a str. *)
Fixpoint join_from (i : nat) (sep : string) (items : list pyval) : result py_exn string :=
  match items with
  | [] => Ok ""
  | PStr s :: rest =>
      match rest with
      | [] => Ok s
      | _ => let* r := join_from (S i) sep rest in Ok (s +:+ sep +:+ r)
      end
  | v :: _ =>
      TypeError ("sequence item " +:+ pretty i +:+ ": expected str instance, "
                 +:+ type_name v +:+ " found")
  end.

Definition join (sep : string) (items : list pyval) : result py_exn string :=
  join_from 0 sep items.

(** [s * n]. *)
Fixpoint str_mul (s : string) (n : nat) : string :=
  match n with
  | O => ""
  | S n' => s +:+ str_mul s n'
  end.

Definition len (s : string) : Z := Z.of_nat (String.length s).

(** ** Comparison with a float literal *)

(** [t <= z] for a float [t] and an int [z]: Python compares the two
    exact values. *)
Definition float_le_int (t : float) (z : Z) : bool :=
  match Prim2SF t with
  | S754_zero _ => 0 <=? z
  | S754_infinity s => s
  | S754_nan => false
  | S754_finite s m e =>
      let mz := if s then Z.neg m else Z.pos m in
      if 0 <=? e then mz * 2 ^ e <=? z else mz <=? z * 2 ^ (- e)
  end.

(** [v >= t] for a float literal [t]. *)
Definition ge_float (v : pyval) (t : float) : result py_exn bool :=
  match v with
  | PFloat x => Ok (t <=? x)%float
  | PInt z => Ok (float_le_int t z)
  | PBool b => Ok (float_le_int t (Z.b2z b))
  | _ => TypeError ("'>=' not supported between instances of '"
                    +:+ type_name v +:+ "' and 'float'")
  end.

(** A dict display [{k1: v1, k2: v2, ...}]: a later key overrides an
    earlier one. *)
Definition dict_of {V} (items : list (string * V)) : gmap string V :=
  foldl (λ d kv, <[kv.1 := kv.2]> d) ∅ items.

(** [str(b)] of a bool. *)
Definition str_bool (b : bool) : string := if b then "True" else "False".

(** [s.rstrip(c)] for a set of one character: its trailing occurrences
    go. *)
Fixpoint rstrip_char (c : ascii) (s : string) : string :=
  match s with
  | EmptyString => EmptyString
  | String a s' =>
      match rstrip_char c s' with
      | EmptyString => if Ascii.eqb a c then EmptyString else String a EmptyString
      | r => String a r
      end
  end.

End Py.
Import Py.

(* ===================================================================== *)
(** * sanitizer.py *)
(* ===================================================================== *)

Module Sanitizer.

Definition THREAT_TYPE_TABLE : list (string * string) :=
  [ ("prompt_injection", "prompt_injection");
    ("injection", "prompt_injection");
    ("inject", "prompt_injection");
    ("instruction_override", "prompt_injection");
    ("role_hijacking", "prompt_injection");
    ("context_manipulation", "prompt_injection");
    ("token_manipulation", "prompt_injection");
    ("indirect_injection", "prompt_injection");
    ("context_poisoning", "prompt_injection");
    ("function_injection", "prompt_injection");
    ("memory_injection", "prompt_injection");
    ("topic_mismatch", "prompt_injection");
    ("jailbreak", "jailbreak");
    ("jailbreak_attempt", "jailbreak");
    ("safety_bypass", "jailbreak");
    ("roleplay", "jailbreak");
    ("hypothetical", "jailbreak");
    ("completion_baiting", "jailbreak");
    ("override", "jailbreak");
    ("manipulate", "jailbreak");
    ("tonality_drift_profanity", "jailbreak");
    ("tonality_drift_casual", "jailbreak");
    ("tonality_drift_hostile", "jailbreak");
    ("system_prompt_leak", "system_prompt_leak");
    ("system_prompt_extraction", "system_prompt_leak");
    ("data_exfiltration", "data_exfiltration");
    ("exfiltration", "data_exfiltration");
    ("exfiltrate", "data_exfiltration");
    ("extract", "data_exfiltration");
    ("data_leak", "data_exfiltration");
    ("information_disclosure", "data_exfiltration");
    ("credential_extraction", "data_exfiltration");
    ("sql_injection", "sql_injection");
    ("sqli", "sql_injection");
    ("tautology", "sql_injection");
    ("tautology_or", "sql_injection");
    ("tautology_and", "sql_injection");
    ("union_injection", "sql_injection");
    ("stacked_query", "sql_injection");
    ("path_traversal", "path_traversal");
    ("directory_traversal", "path_traversal");
    ("path_violation", "path_traversal");
    ("file_access", "path_traversal");
    ("sensitive_path", "path_traversal");
    ("sensitive_extension", "path_traversal");
    ("blocked_extension", "path_traversal");
    ("secrets_exposure", "secrets_exposure");
    ("secrets", "secrets_exposure");
    ("api_key", "secrets_exposure");
    ("credential", "secrets_exposure");
    ("sensitive_file", "secrets_exposure");
    ("content_violation", "secrets_exposure");
    ("sensitive_content", "secrets_exposure");
    ("secret_key", "secrets_exposure");
    ("aws_key", "secrets_exposure");
    ("private_key", "secrets_exposure");
    ("pii_exposure", "pii_exposure");
    ("pii", "pii_exposure");
    ("pii_leak", "pii_exposure");
    ("personal_data", "pii_exposure");
    ("pii_in_search", "pii_exposure");
    ("pii_extraction", "pii_exposure");
    ("ssn", "pii_exposure");
    ("credit_card", "pii_exposure");
    ("email_exposure", "pii_exposure");
    ("phone_number", "pii_exposure");
    ("unexpected_pii_leakage", "pii_exposure");
    ("blocked_domain", "blocked_domain");
    ("suspicious_tld", "blocked_domain");
    ("suspicious_domain", "blocked_domain");
    ("malicious_url", "blocked_domain");
    ("toxicity", "toxicity");
    ("harmful_content", "toxicity");
    ("malicious_content", "malicious_code");
    ("malicious_code", "malicious_code");
    ("reverse_shell", "malicious_code");
    ("web_shell", "malicious_code");
    ("fork_bomb", "malicious_code");
    ("crypto_miner", "malicious_code");
    ("persistence", "malicious_code");
    ("shell_injection", "malicious_code");
    ("harmful_intent", "harmful_intent");
    ("dangerous_request", "harmful_intent");
    ("social_engineering", "social_engineering");
    ("emotional", "social_engineering");
    ("authority_claim", "social_engineering");
    ("privilege_escalation", "privilege_escalation");
    ("destructive_operation", "destructive_operation");
    ("scan_error", "scan_error");
    ("size_limit_exceeded", "size_limit_exceeded");
    ("size_limit", "size_limit_exceeded");
    ("timeout", "scan_error") ].

Definition THREAT_TYPE_MAP : gmap string string := dict_of THREAT_TYPE_TABLE.

Definition THREAT_GUIDANCE : gmap string string := dict_of
  [ ("prompt_injection", "This prompt contains patterns consistent with instruction override attempts.");
    ("jailbreak", "This prompt attempts to bypass safety guidelines. The request has been blocked.");
    ("system_prompt_leak", "The response contains system prompt disclosure. The response has been blocked.");
    ("data_exfiltration", "This prompt may attempt to extract sensitive information.");
    ("sql_injection", "This query contains potentially dangerous SQL patterns.");
    ("path_traversal", "This file path attempts to access directories outside the allowed scope.");
    ("secrets_exposure", "This content contains patterns matching API keys, tokens, or credentials.");
    ("pii_exposure", "This content contains personally identifiable information.");
    ("blocked_domain", "This web search targets a restricted domain.");
    ("toxicity", "This content contains potentially harmful or inappropriate language.");
    ("malicious_code", "This content contains patterns associated with malicious code.");
    ("harmful_intent", "This request contains content associated with harmful intent.");
    ("social_engineering", "This prompt contains social engineering patterns.");
    ("privilege_escalation", "This query attempts to escalate privileges or gain unauthorized access.");
    ("destructive_operation", "This query contains destructive operations. Review carefully.");
    ("scan_error", "The security scan could not be completed. Blocked as precaution.");
    ("size_limit_exceeded", "The content exceeds the maximum allowed size.");
    ("unknown", "A security concern was detected. Please review the content.") ].

Definition THREAT_SEVERITY : gmap string string := dict_of
  [ ("prompt_injection", "high");
    ("jailbreak", "high");
    ("system_prompt_leak", "high");
    ("data_exfiltration", "high");
    ("sql_injection", "critical");
    ("path_traversal", "high");
    ("secrets_exposure", "critical");
    ("pii_exposure", "high");
    ("blocked_domain", "medium");
    ("toxicity", "medium");
    ("malicious_code", "critical");
    ("harmful_intent", "high");
    ("social_engineering", "medium");
    ("privilege_escalation", "critical");
    ("destructive_operation", "critical");
    ("scan_error", "medium");
    ("size_limit_exceeded", "low");
    ("unknown", "medium") ].

Definition _INTERNAL_FIELDS : gset string :=
  list_to_set
    [ "detected_by"; "policy_id"; "policy_name"; "matched_pattern";
      "matched_text"; "pattern"; "scan_stage"; "ai_reasoning";
      "llm_analysis"; "performance_metrics"; "performance" ].

Definition normalize_threat_type (raw_type : pyval) : result py_exn string :=
  if negb (truthy raw_type) then Ok "unknown"
  else match raw_type with
       | PStr s =>
           let normalized := replace "-" "_" (lower s) in
           Ok (default "unknown" (THREAT_TYPE_MAP !! normalized))
       | v => AttributeError v "lower"
       end.

Definition valid_severities : list string := ["critical"; "high"; "medium"; "low"].

Definition derive_severity (threat_type : string) (raw_severity : pyval)
  : result py_exn string :=
  let table := default "medium" (THREAT_SEVERITY !! threat_type) in
  if truthy raw_severity then
    match raw_severity with
    | PStr s => if bool_decide (lower s ∈ valid_severities) then Ok (lower s) else Ok table
    | v => AttributeError v "lower"
    end
  else Ok table.

Definition bucket_confidence (score : pyval) : result py_exn string :=
  match score with
  | PNone => Ok "medium"
  | _ =>
      let* high := ge_float score 0.9 in
      if high then Ok "high"
      else
        let* medium := ge_float score 0.7 in
        if medium then Ok "medium" else Ok "low"
  end.

(** [THREAT_GUIDANCE["unknown"]]: the subscript raises KeyError on a
    missing key. *)
Definition getitem (d : gmap string string) (k : string) : result py_exn string :=
  match d !! k with
  | Some v => Ok v
  | None => Err (Exception "KeyError" ("'" +:+ k +:+ "'"))
  end.

Definition sanitize_scan_response (raw : gmap string pyval)
  : result py_exn (gmap string pyval) :=
  let safe := default (PBool true) (raw !! "safe") in
  if truthy safe then
    Ok (dict_of [ ("safe", PBool true);
                  ("reason", default (PStr "") (raw !! "reason")) ])
  else
    let raw_threat_type := default (PStr "unknown") (raw !! "threat_type") in
    let* threat_type := normalize_threat_type raw_threat_type in
    let* confidence := bucket_confidence (default PNone (raw !! "confidence")) in
    let* severity := derive_severity threat_type (default PNone (raw !! "severity")) in
    let* fallback := getitem THREAT_GUIDANCE "unknown" in
    let guidance := default fallback (THREAT_GUIDANCE !! threat_type) in
    Ok (dict_of [ ("safe", PBool false);
                  ("threat_type", PStr threat_type);
                  ("severity", PStr severity);
                  ("confidence", PStr confidence);
                  ("reason", default (PStr guidance) (raw !! "reason"));
                  ("guidance", PStr guidance) ]).

End Sanitizer.
Import Sanitizer.

(* ===================================================================== *)
(** * config.py *)
(* ===================================================================== *)

Module Config.

Inductive FailMode : Type := OPEN | CLOSED.

Definition DEFAULT_FAIL_MODE : FailMode := OPEN.
Definition DEFAULT_ENDPOINT : string := "https://api.shrikesecurity.com/agent".

Definition SDK_NAME : string := "python".

(** [FailMode(value)]: the member with this value; Enum raises ValueError
    when there is none, with [repr(value)] in its message. *)
Definition FailMode_of_value (builtins_repr : string → string) (value : string)
  : result py_exn FailMode :=
  if String.eqb value "open" then Ok OPEN
  else if String.eqb value "closed" then Ok CLOSED
  else Err (Exception "ValueError" (builtins_repr value +:+ " is not a valid FailMode")).

(** [FailMode(fail_mode) if isinstance(fail_mode, str) else fail_mode], on
    a str or a member. *)
Definition coerce_fail_mode (builtins_repr : string → string)
    (fail_mode : string + FailMode) : result py_exn FailMode :=
  match fail_mode with
  | inl value => FailMode_of_value builtins_repr value
  | inr mode => Ok mode
  end.

End Config.
Import Config.

(* ===================================================================== *)
(** * The outside world: httpx, logging, the wrapped provider client *)
(* ===================================================================== *)

Module Effects.

(** What the package reads of an [httpx.Response]: the status code, and
    [response.json()], which raises on a body that is not JSON. *)
Record Response : Type := { status_code : Z; json : result py_exn pyval }.

(** [self._http.post(url, json=..., headers=...)] returns a response or
    raises (a timeout, a connection error, ...). The headers of
    [get_scan_headers] take part in no decision and are left out. *)
Inductive post_outcome : Type :=
| PostRaises (e : py_exn)
| PostReturns (r : Response).

Definition transport : Type := string → pyval → post_outcome.

(** The wrapped provider client: an opaque call with keyword arguments that
    returns a provider object, or raises. *)
Inductive provider_response : Type := ProviderResponse (handle : N).

Record provider_call : Type := { method : string; kwargs : gmap string pyval }.

Definition provider : Type := provider_call → result py_exn provider_response.

Inductive event : Type :=
| EvPost (url : string) (payload : pyval)
| EvWarning (msg : string)
| EvProvider (call : provider_call).

(** A computation: its outcome and the effects it performed, in order. *)
Definition M (E A : Type) : Type := result E A * list event.

Definition ret {E A} (a : A) : M E A := (Ok a, []).
Definition raise {E A} (e : E) : M E A := (Err e, []).
Definition emit {E} (ev : event) : M E unit := (Ok tt, [ev]).
Definition lift {E A} (r : result E A) : M E A := (r, []).

Definition bind {E A B} (m : M E A) (k : A → M E B) : M E B :=
  match m with
  | (Ok a, t) => let '(r, t') := k a in (r, t ++ t')
  | (Err e, t) => (Err e, t)
  end.

(** [try: body  except ... as e: handler e]. *)
Definition try_except {E E' A} (body : M E A) (handler : E → M E' A) : M E' A :=
  match body with
  | (Ok a, t) => (Ok a, t)
  | (Err e, t) => let '(r, t') := handler e in (r, t ++ t')
  end.

Notation "'let!' x ':=' m 'in' k" := (bind m (λ x, k))
  (at level 10, x name, m at level 100, k at level 200).

Definition post {E} (http : transport) (url : string) (payload : pyval)
  : M E post_outcome :=
  (Ok (http url payload), [EvPost url payload]).

(** [response.raise_for_status()]: httpx raises HTTPStatusError unless the
    status is 2xx. *)
Definition raise_for_status (r : Response) : result py_exn unit :=
  if (200 <=? status_code r) && (status_code r <=? 299) then Ok tt
  else Err (HTTPStatusError (status_code r)).

(** [raw.get] on the parsed body: a body that is not a JSON object has no
    [get]. *)
Definition as_dict (v : pyval) : result py_exn (gmap string pyval) :=
  match v with
  | PDict d => Ok d
  | _ => AttributeError v "get"
  end.

Definition is_post (ev : event) : bool :=
  match ev with EvPost _ _ => true | _ => false end.
Definition is_warning (ev : event) : bool :=
  match ev with EvWarning _ => true | _ => false end.
Definition is_provider_call (ev : event) : bool :=
  match ev with EvProvider _ => true | _ => false end.

Definition posts (t : list event) : list event := List.filter is_post t.
Definition warnings (t : list event) : list event := List.filter is_warning t.
Definition provider_calls (t : list event) : list event := List.filter is_provider_call t.

End Effects.
Import Effects.

(* ===================================================================== *)
(** * exceptions.py *)
(* ===================================================================== *)

Module Exceptions.

(** [ShrikeBlockedError.__init__]: [self.violations = violations or []]. *)
Definition ShrikeBlockedError_init (message threat_type confidence violations : pyval) : exn :=
  ShrikeBlockedError message threat_type confidence
    (if truthy violations then violations else PList []).

End Exceptions.
Import Exceptions.

(* ===================================================================== *)
(** * scanner.py *)
(* ===================================================================== *)

Module Scanner.

Definition MAX_CONTENT_SIZE : Z := 100 * 1024.

Definition _check_content_size (content : string) (context : option string)
  : option (gmap string pyval) :=
  let total_size :=
    len content + match context with
                  | Some c => if truthy (PStr c) then len c else 0
                  | None => 0
                  end in
  if total_size >? MAX_CONTENT_SIZE then
    Some (dict_of
      [ ("safe", PBool false);
        ("reason", PStr ("Content too large (" +:+ pretty (total_size `div` 1024)
                         +:+ "KB > " +:+ pretty (MAX_CONTENT_SIZE `div` 1024) +:+ "KB limit)"));
        ("threat_type", PStr "size_limit_exceeded");
        ("confidence", PFloat 1.0);
        ("violations", PList
           [ PDict (dict_of
               [ ("type", PStr "size_limit");
                 ("description", PStr ("Content exceeds maximum size of "
                                       +:+ pretty (MAX_CONTENT_SIZE `div` 1024) +:+ "KB")) ]) ]) ])
  else None.

Record ScanClient : Type := { _api_key : string; _endpoint : string; _http : transport }.

(** The part of [ScanClient.scan] (and of [AsyncScanClient.scan]) after the
    size check: one POST, no [try]. *)
Definition scan_request (self : ScanClient) (prompt : string) (context : option string)
  : M py_exn (gmap string pyval) :=
  let payload := dict_of [ ("prompt", PStr prompt) ] in
  let payload := match context with
                 | Some c => if truthy (PStr c) then <["context" := PStr c]> payload else payload
                 | None => payload
                 end in
  let! outcome := post (_http self) (_endpoint self +:+ "/scan") (PDict payload) in
  match outcome with
  | PostRaises e => raise e
  | PostReturns response =>
      let! _ := lift (raise_for_status response) in
      let! body := lift (json response) in
      let! raw := lift (as_dict body) in
      lift (sanitize_scan_response raw)
  end.

Definition scan (self : ScanClient) (prompt : string) (context : option string)
  : M py_exn (gmap string pyval) :=
  match _check_content_size prompt context with
  | Some size_result =>
      if truthy (PDict size_result) then ret size_result
      else scan_request self prompt context
  | None => scan_request self prompt context
  end.

(** [ScanClient.__init__]; [http] is the [httpx.Client] it creates. *)
Definition __init__ (http : transport) (api_key endpoint : string) : ScanClient :=
  {| _api_key := api_key; _endpoint := rstrip_char "/" endpoint; _http := http |}.

Section Headers.

(** [__version__] of _version.py, and the string of the [uuid.uuid4()] a
    call would draw. *)
Variables (__version__ uuid4 : string).

Definition get_scan_headers (shrike_api_key : string) (request_id : option string)
  : gmap string string :=
  dict_of
    [ ("Authorization", "Bearer " +:+ shrike_api_key);
      ("Content-Type", "application/json");
      ("X-Shrike-SDK", SDK_NAME);
      ("X-Shrike-SDK-Version", __version__);
      ("X-Shrike-Request-ID",
       match request_id with
       | Some r => if truthy (PStr r) then r else uuid4
       | None => uuid4
       end) ].

End Headers.

(** The POST to the specialized endpoint that ends [scan_sql] and
    [scan_file]: no [try]. *)
Definition specialized_request (self : ScanClient) (payload : gmap string pyval)
  : M py_exn (gmap string pyval) :=
  let! outcome := post (_http self) (_endpoint self +:+ "/api/scan/specialized")
                    (PDict payload) in
  match outcome with
  | PostRaises e => raise e
  | PostReturns response =>
      let! _ := lift (raise_for_status response) in
      let! body := lift (json response) in
      let! raw := lift (as_dict body) in
      lift (sanitize_scan_response raw)
  end.

Definition scan_sql (self : ScanClient) (query : string) (database : option string)
    (allow_destructive : bool) : M py_exn (gmap string pyval) :=
  let payload :=
    dict_of
      [ ("content", PStr query);
        ("content_type", PStr "sql");
        ("context", PDict (dict_of
           [ ("database", PStr match database with
                               | Some d => if truthy (PStr d) then d else ""
                               | None => ""
                               end);
             ("allow_destructive", PStr (str_bool allow_destructive)) ])) ] in
  match _check_content_size query None with
  | Some size_result =>
      if truthy (PDict size_result) then ret size_result
      else specialized_request self payload
  | None => specialized_request self payload
  end.

Definition scan_file (self : ScanClient) (path : string) (content : option string)
  : M py_exn (gmap string pyval) :=
  let has_content := match content with
                     | Some c => truthy (PStr c)
                     | None => false
                     end in
  let content_type := if has_content then "file_content" else "file_path" in
  let payload := dict_of [ ("content", PStr path); ("content_type", PStr content_type) ] in
  let payload := match content with
                 | Some c =>
                     if truthy (PStr c)
                     then <["context" := PDict (dict_of [ ("file_content", PStr c) ])]> payload
                     else payload
                 | None => payload
                 end in
  match _check_content_size path content with
  | Some size_result =>
      if truthy (PDict size_result) then ret size_result
      else specialized_request self payload
  | None => specialized_request self payload
  end.

End Scanner.

(* ===================================================================== *)
(** * The adapters: anthropic_client.py and async_client.py *)
(* ===================================================================== *)

(** The state every adapter class sets up in [__init__]; [_provider] is the
    wrapped client ([self._anthropic], [self._openai]). *)
Record Client : Type := {
  _shrike_endpoint : string;
  _shrike_api_key : string;
  _fail_mode : FailMode;
  _http : transport;
  _provider : provider
}.

(** The [try] block of [_remote_scan]. *)
Definition scan_round_trip (self : Client) (prompt : string)
  : M py_exn (gmap string pyval) :=
  let! outcome := post (_http self) (_shrike_endpoint self +:+ "/scan")
                    (PDict (dict_of [ ("prompt", PStr prompt) ])) in
  match outcome with
  | PostRaises e => raise e
  | PostReturns response =>
      let! _ := lift (raise_for_status response) in
      let! body := lift (json response) in
      let! raw := lift (as_dict body) in
      lift (sanitize_scan_response raw)
  end.

(** The three [except] clauses of [_remote_scan]. *)
Definition scan_failed (self : Client) (e : py_exn) : M exn (gmap string pyval) :=
  match e with
  | TimeoutException _ =>
      match _fail_mode self with
      | OPEN =>
          let! _ := emit (EvWarning "Scan request timed out, failing open (allowing request)") in
          ret (dict_of [ ("safe", PBool true); ("reason", PStr "Scan timeout, failing open") ])
      | CLOSED => raise (ShrikeScanError "Scan request timed out and fail_mode is 'closed'")
      end
  | HTTPStatusError code =>
      match _fail_mode self with
      | OPEN => ret (dict_of [ ("safe", PBool true);
                               ("reason", PStr ("Scan API error: " +:+ pretty code)) ])
      | CLOSED => raise (ShrikeScanError ("Scan API returned error: " +:+ pretty code))
      end
  | Exception _ msg =>
      match _fail_mode self with
      | OPEN => ret (dict_of [ ("safe", PBool true);
                               ("reason", PStr ("Scan error: " +:+ msg)) ])
      | CLOSED => raise (ShrikeScanError ("Scan failed: " +:+ msg))
      end
  end.

(** [_remote_scan], the same text in ShrikeAnthropic, ShrikeAsyncAnthropic
    and ShrikeAsyncOpenAI. *)
Definition _remote_scan (self : Client) (prompt : string) : M exn (gmap string pyval) :=
  try_except (scan_round_trip self prompt) (scan_failed self).

(** The wrapped client is called; what it raises propagates. *)
Definition call_provider (self : Client) (call : provider_call) : M exn provider_response :=
  let! _ := emit (EvProvider call) in
  match _provider self call with
  | Ok r => ret r
  | Err e => raise (Raised e)
  end.

(** [if not scan_result.get("safe", True): raise ShrikeBlockedError(...)]. *)
Definition blocked (scan_result : gmap string pyval) : bool :=
  negb (truthy (default (PBool true) (scan_result !! "safe"))).

(** The assignments every adapter [__init__] makes, given the wrapped
    client and the [httpx] client it has created. *)
Definition init_client (builtins_repr : string → string)
    (wrapped : provider) (http : transport)
    (shrike_api_key : option string) (shrike_endpoint : string)
    (fail_mode : string + FailMode) : result py_exn Client :=
  let* mode := coerce_fail_mode builtins_repr fail_mode in
  Ok {| _shrike_endpoint := rstrip_char "/" shrike_endpoint;
        _shrike_api_key := match shrike_api_key with
                           | Some k => if truthy (PStr k) then k else ""
                           | None => ""
                           end;
        _fail_mode := mode;
        _http := http;
        _provider := wrapped |}.

Module ShrikeAnthropic.

(** The body of [for block in content:], on the list [user_texts] built so
    far. *)
Definition extract_block (user_texts : list pyval) (block : pyval) : list pyval :=
  match block with
  | PDict d =>
      if eq_str (default PNone (d !! "type")) "text"
      then user_texts ++ [default (PStr "") (d !! "text")]
      else user_texts
  | PStr s => user_texts ++ [PStr s]
  | _ => user_texts
  end.

(** The body of [for msg in messages:]. *)
Definition extract_message (user_texts : list pyval) (msg : gmap string pyval) : list pyval :=
  if negb (eq_str (default PNone (msg !! "role")) "user") then user_texts
  else
    match default PNone (msg !! "content") with
    | PStr s => user_texts ++ [PStr s]
    | PList content => foldl extract_block user_texts content
    | _ => user_texts
    end.

Definition _extract_user_content (messages : list (gmap string pyval)) : result py_exn string :=
  join nl (foldl extract_message [] messages).

Definition _scan_messages (self : Client) (messages : list (gmap string pyval))
  : M exn (gmap string pyval) :=
  match _extract_user_content messages with
  | Err e => raise (Raised e)
  | Ok user_content =>
      if negb (truthy (PStr (strip user_content)))
      then ret (dict_of [ ("safe", PBool true); ("reason", PStr "No user content to scan") ])
      else _remote_scan self user_content
  end.

Definition create (self : Client) (model : string) (max_tokens : Z)
    (messages : list (gmap string pyval)) (stream : bool) (kwargs : gmap string pyval)
  : M exn provider_response :=
  let! scan_result := _scan_messages self messages in
  if blocked scan_result then
    raise (ShrikeBlockedError_init
             (default (PStr "Request blocked by Shrike") (scan_result !! "reason"))
             (default PNone (scan_result !! "threat_type"))
             (default PNone (scan_result !! "confidence"))
             PNone)
  else
    call_provider self
      {| method := "messages.create";
         kwargs := <["model" := PStr model]> (<["max_tokens" := PInt max_tokens]>
                   (<["messages" := PList (PDict <$> messages)]>
                   (<["stream" := PBool stream]> kwargs))) |}.

Definition stream (self : Client) (model : string) (max_tokens : Z)
    (messages : list (gmap string pyval)) (kwargs : gmap string pyval)
  : M exn provider_response :=
  let! scan_result := _scan_messages self messages in
  if blocked scan_result then
    raise (ShrikeBlockedError_init
             (default (PStr "Request blocked by Shrike") (scan_result !! "reason"))
             (default PNone (scan_result !! "threat_type"))
             (default PNone (scan_result !! "confidence"))
             PNone)
  else
    call_provider self
      {| method := "messages.stream";
         kwargs := <["model" := PStr model]> (<["max_tokens" := PInt max_tokens]>
                   (<["messages" := PList (PDict <$> messages)]> kwargs)) |}.

(** [ShrikeAnthropic.__init__]; [ANTHROPIC_AVAILABLE] tells whether the
    anthropic package could be imported. *)
Definition __init__ (builtins_repr : string → string) (ANTHROPIC_AVAILABLE : bool)
    (anthropic : provider) (http : transport)
    (shrike_api_key : option string) (shrike_endpoint : string)
    (fail_mode : string + FailMode) : result py_exn Client :=
  if negb ANTHROPIC_AVAILABLE then
    Err (Exception "ImportError"
           "anthropic package is not installed. Install it with: pip install anthropic")
  else init_client builtins_repr anthropic http shrike_api_key shrike_endpoint fail_mode.

End ShrikeAnthropic.

(** ShrikeAsyncAnthropic and _AsyncMessagesNamespace repeat the text of the
    synchronous classes with [await] at the scan and at the provider call. *)
Module ShrikeAsyncAnthropic.

Definition _extract_user_content := ShrikeAnthropic._extract_user_content.

Definition _scan_messages (self : Client) (messages : list (gmap string pyval))
  : M exn (gmap string pyval) :=
  match _extract_user_content messages with
  | Err e => raise (Raised e)
  | Ok user_content =>
      if negb (truthy (PStr (strip user_content)))
      then ret (dict_of [ ("safe", PBool true); ("reason", PStr "No user content to scan") ])
      else _remote_scan self user_content
  end.

Definition create (self : Client) (model : string) (max_tokens : Z)
    (messages : list (gmap string pyval)) (stream : bool) (kwargs : gmap string pyval)
  : M exn provider_response :=
  let! scan_result := _scan_messages self messages in
  if blocked scan_result then
    raise (ShrikeBlockedError_init
             (default (PStr "Request blocked by Shrike") (scan_result !! "reason"))
             (default PNone (scan_result !! "threat_type"))
             (default PNone (scan_result !! "confidence"))
             PNone)
  else
    call_provider self
      {| method := "messages.create";
         kwargs := <["model" := PStr model]> (<["max_tokens" := PInt max_tokens]>
                   (<["messages" := PList (PDict <$> messages)]>
                   (<["stream" := PBool stream]> kwargs))) |}.

Definition stream (self : Client) (model : string) (max_tokens : Z)
    (messages : list (gmap string pyval)) (kwargs : gmap string pyval)
  : M exn provider_response :=
  let! scan_result := _scan_messages self messages in
  if blocked scan_result then
    raise (ShrikeBlockedError_init
             (default (PStr "Request blocked by Shrike") (scan_result !! "reason"))
             (default PNone (scan_result !! "threat_type"))
             (default PNone (scan_result !! "confidence"))
             PNone)
  else
    call_provider self
      {| method := "messages.stream";
         kwargs := <["model" := PStr model]> (<["max_tokens" := PInt max_tokens]>
                   (<["messages" := PList (PDict <$> messages)]> kwargs)) |}.

(** [ShrikeAsyncAnthropic.__init__] makes the same test and the same
    assignments, around an [AsyncAnthropic] and an [httpx.AsyncClient]. *)
Definition __init__ := ShrikeAnthropic.__init__.

End ShrikeAsyncAnthropic.

Module ShrikeAsyncOpenAI.

(** The body of [for part in content:]. *)
Definition extract_part (user_contents : list pyval) (part : pyval) : list pyval :=
  match part with
  | PDict d =>
      if eq_str (default PNone (d !! "type")) "text"
      then user_contents ++ [default (PStr "") (d !! "text")]
      else user_contents
  | _ => user_contents
  end.

(** The body of [for msg in messages:]. *)
Definition extract_message (user_contents : list pyval) (msg : gmap string pyval) : list pyval :=
  if eq_str (default PNone (msg !! "role")) "user" then
    match default PNone (msg !! "content") with
    | PStr s => user_contents ++ [PStr s]
    | PList content => foldl extract_part user_contents content
    | _ => user_contents
    end
  else user_contents.

Definition _extract_user_content (messages : list (gmap string pyval)) : result py_exn string :=
  join nl (foldl extract_message [] messages).

Definition _scan_messages (self : Client) (messages : list (gmap string pyval))
  : M exn (gmap string pyval) :=
  match _extract_user_content messages with
  | Err e => raise (Raised e)
  | Ok user_content =>
      if negb (truthy (PStr (strip user_content)))
      then ret (dict_of [ ("safe", PBool true); ("reason", PStr "No user content to scan") ])
      else _remote_scan self user_content
  end.

Section Create.

(** The builtin [str], which the f-string of the message applies to the
    reason. *)
Variable builtins_str : pyval → string.

Definition create (self : Client) (messages : list (gmap string pyval)) (stream : bool)
    (kwargs : gmap string pyval) : M exn provider_response :=
  let! scan_result := _scan_messages self messages in
  if blocked scan_result then
    let violations := default (PList []) (scan_result !! "violations") in
    raise (ShrikeBlockedError_init
             (PStr ("Request blocked: " +:+
                    builtins_str (default (PStr "Security threat detected")
                                    (scan_result !! "reason"))))
             (default PNone (scan_result !! "threat_type"))
             (default PNone (scan_result !! "confidence"))
             violations)
  else
    call_provider self
      {| method := "chat.completions.create";
         kwargs := <["messages" := PList (PDict <$> messages)]>
                   (<["stream" := PBool stream]> kwargs) |}.

End Create.

(** [ShrikeAsyncOpenAI.__init__]. *)
Definition __init__ (builtins_repr : string → string) (openai : provider) (http : transport)
    (shrike_api_key : option string) (shrike_endpoint : string)
    (fail_mode : string + FailMode) : result py_exn Client :=
  init_client builtins_repr openai http shrike_api_key shrike_endpoint fail_mode.

Section Specialized.

(** [str(e)] of the HTTPStatusError httpx raises for a status code. *)
Variable status_error_str : Z → string.

Definition exn_str (e : py_exn) : string :=
  match e with
  | TimeoutException msg => msg
  | HTTPStatusError code => status_error_str code
  | Exception _ msg => msg
  end.

(** The [try] block of [scan_sql] and of [scan_file]. *)
Definition specialized_round_trip (self : Client) (payload : gmap string pyval)
  : M py_exn (gmap string pyval) :=
  let! outcome := post (_http self) (_shrike_endpoint self +:+ "/api/scan/specialized")
                    (PDict payload) in
  match outcome with
  | PostRaises e => raise e
  | PostReturns response =>
      let! _ := lift (raise_for_status response) in
      let! body := lift (json response) in
      let! raw := lift (as_dict body) in
      lift (sanitize_scan_response raw)
  end.

Definition scan_sql (self : Client) (query : string) (database : option string)
    (allow_destructive : bool) : M exn (gmap string pyval) :=
  try_except
    (specialized_round_trip self
       (dict_of
          [ ("content", PStr query);
            ("content_type", PStr "sql");
            ("context", PDict (dict_of
               [ ("database", PStr match database with
                                   | Some d => if truthy (PStr d) then d else ""
                                   | None => ""
                                   end);
                 ("allow_destructive", PStr (lower (str_bool allow_destructive))) ])) ]))
    (λ e,
       match e with
       | TimeoutException _ =>
           match _fail_mode self with
           | OPEN => ret (dict_of [ ("safe", PBool true);
                                    ("reason", PStr "Scan timeout, failing open") ])
           | CLOSED => raise (ShrikeScanError "SQL scan request timed out")
           end
       | _ =>
           match _fail_mode self with
           | OPEN => ret (dict_of [ ("safe", PBool true);
                                    ("reason", PStr ("Scan error: " +:+ exn_str e)) ])
           | CLOSED => raise (ShrikeScanError ("SQL scan failed: " +:+ exn_str e))
           end
       end).

Definition scan_file (self : Client) (path : string) (content : option string)
  : M exn (gmap string pyval) :=
  let has_content := match content with
                     | Some c => truthy (PStr c)
                     | None => false
                     end in
  let content_type := if has_content then "file_content" else "file_path" in
  let payload := dict_of [ ("content", PStr path); ("content_type", PStr content_type) ] in
  let payload := match content with
                 | Some c =>
                     if truthy (PStr c)
                     then <["context" := PDict (dict_of [ ("file_content", PStr c) ])]> payload
                     else payload
                 | None => payload
                 end in
  try_except
    (specialized_round_trip self payload)
    (λ e,
       match e with
       | TimeoutException _ =>
           match _fail_mode self with
           | OPEN => ret (dict_of [ ("safe", PBool true);
                                    ("reason", PStr "Scan timeout, failing open") ])
           | CLOSED => raise (ShrikeScanError "File scan request timed out")
           end
       | _ =>
           match _fail_mode self with
           | OPEN => ret (dict_of [ ("safe", PBool true);
                                    ("reason", PStr ("Scan error: " +:+ exn_str e)) ])
           | CLOSED => raise (ShrikeScanError ("File scan failed: " +:+ exn_str e))
           end
       end).

End Specialized.

End ShrikeAsyncOpenAI.

(* ===================================================================== *)
(** * Vocabulary of the specification *)
(* ===================================================================== *)

(** ** Verdicts *)

Definition allowed_keys : gset string :=
  {[ "safe"; "threat_type"; "severity"; "confidence"; "reason"; "guidance" ]}.

Definition safe_keys : gset string := {[ "safe"; "reason" ]}.

(** Two raw responses that differ only in denylisted fields. *)
Definition differ_only_in_internal_fields (raw1 raw2 : gmap string pyval) : Prop :=
  ∀ k, k ∉ _INTERNAL_FIELDS → raw1 !! k = raw2 !! k.

(** The verdict field as [sanitize_scan_response] reads it. *)
Definition raw_safe (raw : gmap string pyval) : bool :=
  truthy (default (PBool true) (raw !! "safe")).

(** The value a dict display gives a key: that of its last item with
    this key. *)
Fixpoint display_lookup {V} (k : string) (items : list (string * V)) : option V :=
  match items with
  | [] => None
  | (k', v) :: rest =>
      match display_lookup k rest with
      | Some v' => Some v'
      | None => if String.eqb k' k then Some v else None
      end
  end.

Definition unknown_guidance : string :=
  "A security concern was detected. Please review the content.".

Definition sqli_response : gmap string pyval :=
  dict_of [ ("safe", PBool false); ("threat_type", PStr "sqli"); ("confidence", PFloat 0.95) ].

Definition sqli_verdict : gmap string pyval :=
  dict_of [ ("safe", PBool false);
            ("threat_type", PStr "sql_injection");
            ("severity", PStr "critical");
            ("confidence", PStr "high");
            ("reason", PStr "This query contains potentially dangerous SQL patterns.");
            ("guidance", PStr "This query contains potentially dangerous SQL patterns.") ].

Definition no_content_verdict : gmap string pyval :=
  dict_of [ ("safe", PBool true); ("reason", PStr "No user content to scan") ].

Definition canonical_threat_types : list string :=
  [ "prompt_injection"; "jailbreak"; "system_prompt_leak"; "data_exfiltration";
    "sql_injection"; "path_traversal"; "secrets_exposure"; "pii_exposure";
    "blocked_domain"; "toxicity"; "malicious_code"; "harmful_intent";
    "social_engineering"; "privilege_escalation"; "destructive_operation";
    "scan_error"; "size_limit_exceeded"; "unknown" ].

Definition confidence_buckets : list string := [ "high"; "medium"; "low" ].

(** ** The size guard *)

(** [len(context)] of an optional context, None counting 0. *)
Definition context_len (context : option string) : Z :=
  match context with
  | Some c => len c
  | None => 0
  end.

(** The JSON body [ScanClient.scan] posts. *)
Definition scan_payload (prompt : string) (context : option string) : pyval :=
  PDict (match context with
         | Some c => if truthy (PStr c) then <["context" := PStr c]> (dict_of [ ("prompt", PStr prompt) ])
                     else dict_of [ ("prompt", PStr prompt) ]
         | None => dict_of [ ("prompt", PStr prompt) ]
         end).

Definition oversized : string := str_mul "a" 102401.

(** ** The extractors *)

Module ExtractorSpec.

(** What one element of a list content contributes: a text block its
    "text", a plain string itself where the extractor takes plain strings,
    anything else nothing. *)
Definition block_texts (plain_strings : bool) (block : pyval) : list pyval :=
  match block with
  | PStr s => if plain_strings then [PStr s] else []
  | PDict d =>
      if eq_str (default PNone (d !! "type")) "text"
      then [default (PStr "") (d !! "text")] else []
  | _ => []
  end.

(** What one message contributes: nothing unless its role is "user"; a
    string content itself; a list content what its elements contribute, in
    order. *)
Definition message_texts (plain_strings : bool) (msg : gmap string pyval) : list pyval :=
  if eq_str (default PNone (msg !! "role")) "user" then
    match default PNone (msg !! "content") with
    | PStr s => [PStr s]
    | PList content => concat (map (block_texts plain_strings) content)
    | _ => []
    end
  else [].

(** The newline-join, in message order, of what the messages contribute. *)
Definition user_text (plain_strings : bool) (messages : list (gmap string pyval))
  : result py_exn string :=
  join nl (concat (map (message_texts plain_strings) messages)).

End ExtractorSpec.
Import ExtractorSpec.

Definition user_message (content : pyval) : gmap string pyval :=
  dict_of [ ("role", PStr "user"); ("content", content) ].

Definition conversation_ABC : list (gmap string pyval) :=
  [ dict_of [ ("role", PStr "user"); ("content", PStr "A") ];
    dict_of [ ("role", PStr "assistant"); ("content", PStr "B") ];
    dict_of [ ("role", PStr "user"); ("content", PStr "C") ] ].

(** ** The adapters *)

(** An adapter entry point with the extractor and the scan it runs first. *)
Record entry_point : Type := {
  ep_name : string;
  ep_extract : list (gmap string pyval) → result py_exn string;
  ep_scan : Client → list (gmap string pyval) → M exn (gmap string pyval);
  ep_call : Client → list (gmap string pyval) → M exn provider_response
}.

Definition entry_points (builtins_str : pyval → string) (model : string) (max_tokens : Z)
    (stream : bool) (kwargs : gmap string pyval) : list entry_point :=
  [ {| ep_name := "ShrikeAnthropic.messages.create";
       ep_extract := ShrikeAnthropic._extract_user_content;
       ep_scan := ShrikeAnthropic._scan_messages;
       ep_call := λ self messages,
         ShrikeAnthropic.create self model max_tokens messages stream kwargs |};
    {| ep_name := "ShrikeAnthropic.messages.stream";
       ep_extract := ShrikeAnthropic._extract_user_content;
       ep_scan := ShrikeAnthropic._scan_messages;
       ep_call := λ self messages,
         ShrikeAnthropic.stream self model max_tokens messages kwargs |};
    {| ep_name := "ShrikeAsyncAnthropic.messages.create";
       ep_extract := ShrikeAsyncAnthropic._extract_user_content;
       ep_scan := ShrikeAsyncAnthropic._scan_messages;
       ep_call := λ self messages,
         ShrikeAsyncAnthropic.create self model max_tokens messages stream kwargs |};
    {| ep_name := "ShrikeAsyncAnthropic.messages.stream";
       ep_extract := ShrikeAsyncAnthropic._extract_user_content;
       ep_scan := ShrikeAsyncAnthropic._scan_messages;
       ep_call := λ self messages,
         ShrikeAsyncAnthropic.stream self model max_tokens messages kwargs |};
    {| ep_name := "ShrikeAsyncOpenAI.chat.completions.create";
       ep_extract := ShrikeAsyncOpenAI._extract_user_content;
       ep_scan := ShrikeAsyncOpenAI._scan_messages;
       ep_call := λ self messages,
         ShrikeAsyncOpenAI.create builtins_str self messages stream kwargs |} ].

(** The request of [_remote_scan]. *)
Definition scan_url (self : Client) : string := _shrike_endpoint self +:+ "/scan".
Definition scan_body (prompt : string) : pyval := PDict (dict_of [ ("prompt", PStr prompt) ]).

(** What the caller gets when the wrapped client is called. *)
Definition provider_outcome (self : Client) (call : provider_call) : result exn provider_response :=
  match _provider self call with
  | Ok r => Ok r
  | Err e => Err (Raised e)
  end.

(** The verdict of the fail-open branch and the message of the fail-closed
    branch, by class of failure. *)
Definition open_reason (e : py_exn) : string :=
  match e with
  | TimeoutException _ => "Scan timeout, failing open"
  | HTTPStatusError code => "Scan API error: " +:+ pretty code
  | Exception _ msg => "Scan error: " +:+ msg
  end.

Definition closed_message (e : py_exn) : string :=
  match e with
  | TimeoutException _ => "Scan request timed out and fail_mode is 'closed'"
  | HTTPStatusError code => "Scan API returned error: " +:+ pretty code
  | Exception _ msg => "Scan failed: " +:+ msg
  end.

Definition open_diagnostics (e : py_exn) : list event :=
  match e with
  | TimeoutException _ => [EvWarning "Scan request timed out, failing open (allowing request)"]
  | _ => []
  end.

(** ** Concrete clients *)

(** A provider that answers every call, and a client whose transport gives
    one fixed outcome. *)
Definition demo_provider : provider := λ _, Ok (ProviderResponse 1).

Definition demo_client (mode : FailMode) (outcome : post_outcome) : Client :=
  {| _shrike_endpoint := DEFAULT_ENDPOINT;
     _shrike_api_key := "shrike-test";
     _fail_mode := mode;
     _http := λ _ _, outcome;
     _provider := demo_provider |}.

(** A stand-in for the builtin [str] in concrete runs, exact on str
    values. *)
Definition demo_str (v : pyval) : string :=
  match v with
  | PStr s => s
  | _ => type_name v
  end.

(** ** Vocabulary of the further properties *)

(** The fields of an unsafe raw verdict that [sanitize_scan_response]
    can process: a threat_type that is falsy or a str, a confidence that is
    None or a number, a severity that is falsy or a str. *)
Definition well_typed_fields (raw : gmap string pyval) : bool :=
  let threat_type := default (PStr "unknown") (raw !! "threat_type") in
  let confidence := default PNone (raw !! "confidence") in
  let severity := default PNone (raw !! "severity") in
  (negb (truthy threat_type) || match threat_type with PStr _ => true | _ => false end)
  && match confidence with
     | PNone | PBool _ | PInt _ | PFloat _ => true
     | _ => false
     end
  && (negb (truthy severity) || match severity with PStr _ => true | _ => false end).

(** Whether a computation returned. *)
Definition is_ok {E A} (r : result E A) : bool :=
  match r with
  | Ok _ => true
  | Err _ => false
  end.

(** Text made of whitespace only. *)
Fixpoint all_space (s : string) : bool :=
  match s with
  | EmptyString => true
  | String c s' => isspace c && all_space s'
  end.

(** The keyword arguments an entry point names in its signature, with the
    values the caller gave them, by the name of the entry point: [create]
    of the Anthropic adapters names model, max_tokens, messages and stream;
    their [stream] names model, max_tokens and messages;
    [chat.completions.create] of ShrikeAsyncOpenAI names messages and
    stream. Every other keyword argument of the caller travels in
    [kwargs]. *)
Definition named_arguments (name : string) (model : string) (max_tokens : Z)
    (messages : list (gmap string pyval)) (stream : bool) : list (string * pyval) :=
  if String.eqb name "ShrikeAnthropic.messages.create"
     || String.eqb name "ShrikeAsyncAnthropic.messages.create" then
    [ ("model", PStr model); ("max_tokens", PInt max_tokens);
      ("messages", PList (PDict <$> messages)); ("stream", PBool stream) ]
  else if String.eqb name "ShrikeAnthropic.messages.stream"
          || String.eqb name "ShrikeAsyncAnthropic.messages.stream" then
    [ ("model", PStr model); ("max_tokens", PInt max_tokens);
      ("messages", PList (PDict <$> messages)) ]
  else if String.eqb name "ShrikeAsyncOpenAI.chat.completions.create" then
    [ ("messages", PList (PDict <$> messages)); ("stream", PBool stream) ]
  else [].

(** The method of the wrapped client an entry point calls. *)
Definition wrapped_method (name : string) : string :=
  if String.eqb name "ShrikeAnthropic.messages.create"
     || String.eqb name "ShrikeAsyncAnthropic.messages.create" then "messages.create"
  else if String.eqb name "ShrikeAnthropic.messages.stream"
          || String.eqb name "ShrikeAsyncAnthropic.messages.stream" then "messages.stream"
  else if String.eqb name "ShrikeAsyncOpenAI.chat.completions.create" then
    "chat.completions.create"
  else "".

(** Whether an entry point is the one of ShrikeAsyncOpenAI. *)
Definition openai_entry (ep : entry_point) : bool :=
  String.eqb (ep_name ep) "ShrikeAsyncOpenAI.chat.completions.create".

(** The effects of a scan: at most one POST, possibly a warning, no call
    of the wrapped client. *)
Definition scan_only (t : list event) : Prop :=
  provider_calls t = [] ∧ (length (posts t) ≤ 1)%nat.

(** One entry point with its arguments fixed, for concrete runs. *)
Definition demo_create : entry_point :=
  {| ep_name := "ShrikeAnthropic.messages.create";
     ep_extract := ShrikeAnthropic._extract_user_content;
     ep_scan := ShrikeAnthropic._scan_messages;
     ep_call := λ self messages,
       ShrikeAnthropic.create self "claude-3-opus-20240229" 1024 messages false ∅ |}.

(** A [stream] call of ShrikeAnthropic whose caller passes stream and
    top_k besides the named arguments, and a [create] call of
    ShrikeAsyncOpenAI whose caller passes model and max_tokens. *)
Definition stream_kwargs : gmap string pyval :=
  dict_of [ ("stream", PBool true); ("top_k", PInt 5) ].

Definition demo_stream : entry_point :=
  {| ep_name := "ShrikeAnthropic.messages.stream";
     ep_extract := ShrikeAnthropic._extract_user_content;
     ep_scan := ShrikeAnthropic._scan_messages;
     ep_call := λ self messages,
       ShrikeAnthropic.stream self "claude-3-opus-20240229" 1024 messages stream_kwargs |}.

Definition openai_kwargs : gmap string pyval :=
  dict_of [ ("model", PStr "gpt-4"); ("max_tokens", PInt 64) ].

Definition demo_openai_create (kwargs : gmap string pyval) : entry_point :=
  {| ep_name := "ShrikeAsyncOpenAI.chat.completions.create";
     ep_extract := ShrikeAsyncOpenAI._extract_user_content;
     ep_scan := ShrikeAsyncOpenAI._scan_messages;
     ep_call := λ self messages,
       ShrikeAsyncOpenAI.create demo_str self messages false kwargs |}.

(** A backend that answers 200 with a JSON object. *)
Definition backend_returns (raw : gmap string pyval) : post_outcome :=
  PostReturns {| status_code := 200; json := Ok (PDict raw) |}.

Definition clean_response : gmap string pyval :=
  dict_of [ ("safe", PBool true); ("reason", PStr "clean"); ("request_id", PStr "r-1") ].

Definition clean_verdict : gmap string pyval :=
  dict_of [ ("safe", PBool true); ("reason", PStr "clean") ].

Definition timeout_verdict : gmap string pyval :=
  dict_of [ ("safe", PBool true); ("reason", PStr "Scan timeout, failing open") ].

(** The dict the size guard builds for [oversized], and what
    [sanitize_scan_response] makes of it. *)
Definition oversized_result : gmap string pyval :=
  dict_of
    [ ("safe", PBool false);
      ("reason", PStr "Content too large (100KB > 100KB limit)");
      ("threat_type", PStr "size_limit_exceeded");
      ("confidence", PFloat 1.0);
      ("violations", PList
         [ PDict (dict_of
             [ ("type", PStr "size_limit");
               ("description", PStr "Content exceeds maximum size of 100KB") ]) ]) ].

Definition oversized_verdict : gmap string pyval :=
  dict_of
    [ ("safe", PBool false);
      ("threat_type", PStr "size_limit_exceeded");
      ("severity", PStr "low");
      ("confidence", PStr "high");
      ("reason", PStr "Content too large (100KB > 100KB limit)");
      ("guidance", PStr "The content exceeds the maximum allowed size.") ].

(** A scan client over a fixed transport outcome, for concrete runs. *)
Definition demo_scan_client (outcome : post_outcome) : Scanner.ScanClient :=
  Scanner.__init__ (λ _ _, outcome) "shrike-test" (DEFAULT_ENDPOINT +:+ "/").

(** The specialized endpoint of a scan client and of an adapter. *)
Definition specialized_url (endpoint : string) : string := endpoint +:+ "/api/scan/specialized".

(** [bool(content)] of an optional str. *)
Definition has_text (content : option string) : bool :=
  match content with
  | Some c => truthy (PStr c)
  | None => false
  end.

(** Whether a str ends with a slash. *)
Fixpoint ends_with_slash (s : string) : bool :=
  match s with
  | EmptyString => false
  | String c EmptyString => Ascii.eqb c "/"
  | String _ s' => ends_with_slash s'
  end.

(** What [scan_sql] and [scan_file] of ShrikeAsyncOpenAI do with a query:
    one POST to the specialized endpoint and nothing else; a result under
    OPEN; no exception but ShrikeScanError, and that under CLOSED only. *)
Definition specialized_policy (self : Client) (run : M exn (gmap string pyval)) : Prop :=
  (∃ payload,
     snd run = [EvPost (specialized_url (_shrike_endpoint self)) (PDict payload)]) ∧
  (_fail_mode self = OPEN → ∃ v, fst run = Ok v) ∧
  (∀ e, fst run = Err e → _fail_mode self = CLOSED ∧ ∃ message, e = ShrikeScanError message).

(** A stand-in for the builtin [repr] in concrete runs, exact on a str of
    letters. *)
Definition demo_repr (s : string) : string := "'" +:+ s +:+ "'".

(** How the constructors read [fail_mode]. *)
Definition fail_mode_read (fail_mode : string + FailMode) (mode : FailMode) : Prop :=
  fail_mode = inr mode ∨
  (fail_mode = inl "open" ∧ mode = OPEN) ∨
  (fail_mode = inl "closed" ∧ mode = CLOSED).

(* ===================================================================== *)
(** * Properties *)
(* ===================================================================== *)

(** ** Order of binary64 values *)

Lemma SFcompare_antisym (a b : spec_float) :
  SFcompare b a = option_map CompOpp (SFcompare a b).
Proof.
  destruct a as [sa|sa| |sa ma ea], b as [sb|sb| |sb mb eb]; simpl; try reflexivity;
    try (destruct sa; reflexivity); try (destruct sb; reflexivity);
    try (destruct sa, sb; reflexivity).
  destruct sa, sb; simpl; try reflexivity;
    rewrite (Z.compare_antisym ea eb); destruct (ea ?= eb); simpl; try reflexivity;
    rewrite (Pos.compare_cont_antisym ma mb Eq); simpl;
    try rewrite CompOpp_involutive; reflexivity.
Qed.

Lemma float_ltb_not_leb (x t : float) :
  (x <? t)%float = true → (t <=? x)%float = false.
Proof.
  rewrite ltb_spec, leb_spec. unfold SFltb, SFleb.
  rewrite (SFcompare_antisym (Prim2SF x) (Prim2SF t)).
  destruct (SFcompare (Prim2SF x) (Prim2SF t)) as [[]|]; simpl; congruence.
Qed.

Lemma SFcompare_None (a b : spec_float) :
  SFcompare a b = None → a = S754_nan ∨ b = S754_nan.
Proof. destruct a, b; simpl; intros H; try discriminate H; auto. Qed.

(** A score that compares with 0.7 is not NaN, so it compares with 0.9. *)
Lemma float_between (x : float) :
  (0.7 <=? x)%float = true → (0.9 <=? x)%float = false → (x <? 0.9)%float = true.
Proof.
  rewrite ltb_spec, !leb_spec. unfold SFltb, SFleb.
  rewrite (SFcompare_antisym (Prim2SF 0.9) (Prim2SF x)).
  destruct (SFcompare (Prim2SF 0.9) (Prim2SF x)) as [[]|] eqn:E9; simpl; try congruence.
  intros H7 _. apply SFcompare_None in E9 as [E|E].
  - vm_compute in E. discriminate E.
  - rewrite E in H7. vm_compute in H7. discriminate H7.
Qed.

(** ** bucket_confidence *)

Lemma float_le_int_09 (z : Z) : float_le_int 0.9 z = (1 <=? z).
Proof.
  unfold float_le_int.
  change (Prim2SF 0.9) with (S754_finite false 8106479329266893 (-53)).
  cbn [Z.leb Z.compare Z.opp]. change (2 ^ 53) with 9007199254740992.
  destruct (Z.leb_spec 8106479329266893 (z * 9007199254740992)), (Z.leb_spec 1 z);
    try reflexivity; lia.
Qed.

Lemma float_le_int_07 (z : Z) : float_le_int 0.7 z = (1 <=? z).
Proof.
  unfold float_le_int.
  change (Prim2SF 0.7) with (S754_finite false 6305039478318694 (-53)).
  cbn [Z.leb Z.compare Z.opp]. change (2 ^ 53) with 9007199254740992.
  destruct (Z.leb_spec 6305039478318694 (z * 9007199254740992)), (Z.leb_spec 1 z);
    try reflexivity; lia.
Qed.

(** C4: bucket_confidence maps a score >= 0.9 to "high", a score in
    [0.7, 0.9) to "medium", every other present score to "low" and a
    missing score to "medium"; 0.95, 0.75, 0.5 and None give "high",
    "medium", "low" and "medium". A float score is compared as binary64
    (NaN is below both thresholds), an int score by its exact value. *)
Theorem bucket_confidence_buckets :
  (∀ x : float, (0.9 <=? x)%float = true → bucket_confidence (PFloat x) = Ok "high") ∧
  (∀ x : float, (0.7 <=? x)%float = true → (x <? 0.9)%float = true →
     bucket_confidence (PFloat x) = Ok "medium") ∧
  (∀ x : float, (0.9 <=? x)%float = false →
     ¬ ((0.7 <=? x)%float = true ∧ (x <? 0.9)%float = true) →
     bucket_confidence (PFloat x) = Ok "low") ∧
  (∀ z : Z, 1 ≤ z → bucket_confidence (PInt z) = Ok "high") ∧
  (∀ z : Z, z ≤ 0 → bucket_confidence (PInt z) = Ok "low") ∧
  bucket_confidence PNone = Ok "medium" ∧
  bucket_confidence (PFloat 0.95) = Ok "high" ∧
  bucket_confidence (PFloat 0.75) = Ok "medium" ∧
  bucket_confidence (PFloat 0.5) = Ok "low".
Proof.
  split.
  { intros x Hx. unfold bucket_confidence; simpl. rewrite Hx. reflexivity. }
  split.
  { intros x Hlo Hhi. unfold bucket_confidence; simpl.
    rewrite (float_ltb_not_leb _ _ Hhi), Hlo. reflexivity. }
  split.
  { intros x Hhi Hout. unfold bucket_confidence; simpl. rewrite Hhi.
    destruct (0.7 <=? x)%float eqn:Hlo; [|reflexivity].
    exfalso. apply Hout. split; [reflexivity|]. apply float_between; assumption. }
  split.
  { intros z Hz. unfold bucket_confidence, ge_float. cbn [result_bind].
    rewrite float_le_int_09. destruct (Z.leb_spec 1 z); [reflexivity|lia]. }
  split.
  { intros z Hz. unfold bucket_confidence, ge_float. cbn [result_bind].
    rewrite float_le_int_09. destruct (Z.leb_spec 1 z); [lia|].
    cbn [result_bind]. rewrite float_le_int_07.
    destruct (Z.leb_spec 1 z); [lia|reflexivity]. }
  repeat split; reflexivity.
Qed.

Lemma bucket_confidence_buckets_witness :
  bucket_confidence (PFloat 0.92) = Ok "high" ∧
  bucket_confidence (PFloat 0.8) = Ok "medium" ∧
  bucket_confidence (PFloat 0.25) = Ok "low" ∧
  bucket_confidence (PInt 1) = Ok "high" ∧
  bucket_confidence (PInt 0) = Ok "low".
Proof.
  destruct bucket_confidence_buckets as (Hhigh & Hmedium & Hlow & Hint1 & Hint0 & _).
  split; [apply Hhigh; reflexivity|].
  split; [apply Hmedium; reflexivity|].
  split; [apply Hlow; [reflexivity|]; intros [H _]; vm_compute in H; discriminate H|].
  split; [apply Hint1; lia|apply Hint0; lia].
Defined.

(** A bool score counts as 0 or 1; a str score cannot be compared with a
    float. *)
Lemma bucket_confidence_other_types :
  bucket_confidence (PBool true) = Ok "high" ∧
  bucket_confidence (PBool false) = Ok "low" ∧
  ∀ s, bucket_confidence (PStr s)
       = TypeError "'>=' not supported between instances of 'str' and 'float'".
Proof. repeat split. Qed.

(** ** normalize_threat_type *)

Lemma threat_type_table_lookup :
  ∀ k v, (k, v) ∈ THREAT_TYPE_TABLE →
    THREAT_TYPE_MAP !! k = Some v ∧ replace "-" "_" (lower k) = k.
Proof.
  assert (H : forallb (λ kv : string * string,
              match THREAT_TYPE_MAP !! kv.1 with
              | Some v' => String.eqb v' kv.2
              | None => false
              end && String.eqb (replace "-" "_" (lower kv.1)) kv.1)
            THREAT_TYPE_TABLE = true).
  { vm_compute. reflexivity. }
  intros k v Hin. rewrite forallb_forall in H.
  apply list_elem_of_In, H in Hin.
  cbv beta iota zeta delta [fst snd] in Hin.
  apply andb_prop in Hin as [H1 H2]. apply String.eqb_eq in H2.
  destruct (THREAT_TYPE_MAP !! k) as [v'|]; [|discriminate].
  apply String.eqb_eq in H1. subst v'. auto.
Qed.

Lemma normalize_threat_type_str (s : string) :
  normalize_threat_type (PStr s)
  = Ok (default "unknown" (THREAT_TYPE_MAP !! replace "-" "_" (lower s))).
Proof. destruct s as [|c s].
  - vm_compute. reflexivity.
  - unfold normalize_threat_type. cbn [truthy String.length Nat.eqb negb]. reflexivity. 
Qed.


(** C5: normalize_threat_type lower-cases its input, replaces hyphens by
    underscores and looks the result up in THREAT_TYPE_MAP: every key of the
    table gives its canonical category ("sqli" gives "sql_injection",
    "jailbreak_attempt" gives "jailbreak"), and every unmapped or absent
    input ("banana", None, "") gives "unknown". *)
Theorem normalize_threat_type_spec :
  (∀ s, normalize_threat_type (PStr s)
        = Ok (default "unknown" (THREAT_TYPE_MAP !! replace "-" "_" (lower s)))) ∧
  (∀ k v, (k, v) ∈ THREAT_TYPE_TABLE → normalize_threat_type (PStr k) = Ok v) ∧
  (∀ s, THREAT_TYPE_MAP !! replace "-" "_" (lower s) = None →
        normalize_threat_type (PStr s) = Ok "unknown") ∧
  normalize_threat_type PNone = Ok "unknown" ∧
  normalize_threat_type (PStr "") = Ok "unknown" ∧
  normalize_threat_type (PStr "banana") = Ok "unknown" ∧
  normalize_threat_type (PStr "sqli") = Ok "sql_injection" ∧
  normalize_threat_type (PStr "tautology_or") = Ok "sql_injection" ∧
  normalize_threat_type (PStr "union_injection") = Ok "sql_injection" ∧
  normalize_threat_type (PStr "jailbreak_attempt") = Ok "jailbreak" ∧
  normalize_threat_type (PStr "roleplay") = Ok "jailbreak" ∧
  normalize_threat_type (PStr "hypothetical") = Ok "jailbreak" ∧
  normalize_threat_type (PStr "Jailbreak-Attempt") = Ok "jailbreak".
Proof.
  split; [exact normalize_threat_type_str|].
  split.
  { intros k v Hin. destruct (threat_type_table_lookup k v Hin) as [Hk Hid].
    rewrite normalize_threat_type_str, Hid, Hk. reflexivity. }
  split.
  { intros s Hs. rewrite normalize_threat_type_str, Hs. reflexivity. }
  repeat split; vm_compute; reflexivity.
Qed.

Lemma normalize_threat_type_spec_witness :
  normalize_threat_type (PStr "pii_leak") = Ok "pii_exposure" ∧
  normalize_threat_type (PStr "no-such-label") = Ok "unknown".
Proof.
  destruct normalize_threat_type_spec as (_ & Hkey & Hnone & _).
  split.
  - apply Hkey. unfold THREAT_TYPE_TABLE. do 58 apply list_elem_of_further. apply list_elem_of_here.
  - apply Hnone. vm_compute. reflexivity.
Defined.

(** ** sanitize_scan_response *)

Lemma Ok_inj {E A} (a b : A) : Ok (E:=E) a = Ok b → a = b.
Proof. intros H. injection H as ->. reflexivity. Qed.

Lemma foldl_insert_lookup {V} (items : list (string * V)) (d : gmap string V) (k : string) :
  foldl (λ d kv, <[kv.1 := kv.2]> d) d items !! k
  = match display_lookup k items with
    | Some v => Some v
    | None => d !! k
    end.
Proof.
  revert d. induction items as [|[k' v] rest IH]; intros d; [reflexivity|].
  cbn [foldl display_lookup fst snd]. rewrite IH.
  destruct (display_lookup k rest); [reflexivity|].
  destruct (String.eqb_spec k' k) as [->|Hne].
  - apply lookup_insert_eq.
  - apply lookup_insert_ne. exact Hne.
Qed.

Lemma dict_of_lookup {V} (items : list (string * V)) (k : string) :
  dict_of items !! k = display_lookup k items.
Proof.
  unfold dict_of. rewrite foldl_insert_lookup, lookup_empty.
  destruct (display_lookup k items); reflexivity.
Qed.

Lemma dict_of_dom {V} (items : list (string * V)) :
  dom (dict_of items) = list_to_set (items.*1).
Proof.
  apply set_eq. intros k. rewrite elem_of_dom, dict_of_lookup, elem_of_list_to_set.
  induction items as [|[k' v] rest IH]; cbn [display_lookup fmap list_fmap fst].
  - split; [intros [? H]; discriminate H | intros H; inversion H].
  - rewrite elem_of_cons. destruct (display_lookup k rest) as [v'|].
    + split; [intros _; right; apply IH; eauto | eauto].
    + destruct (String.eqb_spec k' k) as [->|Hne].
      * split; [auto | eauto].
      * split; [intros [? H]; discriminate H|].
        intros [->|H]; [congruence|]. apply IH in H as [? H]. discriminate H.
Qed.

Lemma sanitize_safe (raw : gmap string pyval) :
  raw_safe raw = true →
  sanitize_scan_response raw
  = Ok (dict_of [ ("safe", PBool true);
                  ("reason", default (PStr "") (raw !! "reason")) ]).
Proof. unfold raw_safe, sanitize_scan_response. intros ->. reflexivity. Qed.

Lemma sanitize_unsafe (raw out : gmap string pyval) :
  raw_safe raw = false →
  sanitize_scan_response raw = Ok out →
  ∃ threat_type severity confidence guidance,
    normalize_threat_type (default (PStr "unknown") (raw !! "threat_type")) = Ok threat_type ∧
    bucket_confidence (default PNone (raw !! "confidence")) = Ok confidence ∧
    derive_severity threat_type (default PNone (raw !! "severity")) = Ok severity ∧
    guidance = default unknown_guidance (THREAT_GUIDANCE !! threat_type) ∧
    out = dict_of [ ("safe", PBool false);
                    ("threat_type", PStr threat_type);
                    ("severity", PStr severity);
                    ("confidence", PStr confidence);
                    ("reason", default (PStr guidance) (raw !! "reason"));
                    ("guidance", PStr guidance) ].
Proof.
  unfold raw_safe, sanitize_scan_response. intros ->.
  destruct (normalize_threat_type _) as [tt|] eqn:Ett; [|discriminate].
  destruct (bucket_confidence _) as [c|] eqn:Ec; [|discriminate].
  cbn [result_bind].
  destruct (derive_severity _ _) as [sv|] eqn:Esv; [|discriminate].
  cbn [result_bind].
  change (getitem THREAT_GUIDANCE "unknown") with (Ok (E:=py_exn) unknown_guidance).
  cbn [result_bind]. intros H%Ok_inj.
  exists tt, sv, c, (default unknown_guidance (THREAT_GUIDANCE !! tt)).
  repeat split; try assumption. symmetry; exact H.
Qed.

Lemma sanitize_unsafe_intro (raw : gmap string pyval) (threat_type confidence severity : string) :
  raw_safe raw = false →
  normalize_threat_type (default (PStr "unknown") (raw !! "threat_type")) = Ok threat_type →
  bucket_confidence (default PNone (raw !! "confidence")) = Ok confidence →
  derive_severity threat_type (default PNone (raw !! "severity")) = Ok severity →
  sanitize_scan_response raw
  = Ok (dict_of
          [ ("safe", PBool false);
            ("threat_type", PStr threat_type);
            ("severity", PStr severity);
            ("confidence", PStr confidence);
            ("reason", default (PStr (default unknown_guidance (THREAT_GUIDANCE !! threat_type)))
                         (raw !! "reason"));
            ("guidance", PStr (default unknown_guidance (THREAT_GUIDANCE !! threat_type))) ]).
Proof.
  unfold raw_safe, sanitize_scan_response. intros -> -> -> Hsv.
  cbn [result_bind]. rewrite Hsv. reflexivity.
Qed.

Lemma sanitize_sqli : sanitize_scan_response sqli_response = Ok sqli_verdict.
Proof.
  assert (Hg : default unknown_guidance (THREAT_GUIDANCE !! "sql_injection")
               = "This query contains potentially dangerous SQL patterns.")
    by (vm_compute; reflexivity).
  assert (Hr : sqli_response !! "reason" = None)
    by (unfold sqli_response; rewrite dict_of_lookup; reflexivity).
  rewrite (sanitize_unsafe_intro sqli_response "sql_injection" "high" "critical").
  - rewrite Hg, Hr. reflexivity.
  - unfold raw_safe, sqli_response. rewrite dict_of_lookup. reflexivity.
  - unfold sqli_response. rewrite dict_of_lookup. vm_compute. reflexivity.
  - unfold sqli_response. rewrite dict_of_lookup. vm_compute. reflexivity.
  - unfold sqli_response. rewrite dict_of_lookup. vm_compute. reflexivity.
Qed.

Lemma allowed_not_internal (k : string) :
  k ∈ allowed_keys → k ∉ _INTERNAL_FIELDS.
Proof.
  unfold allowed_keys, _INTERNAL_FIELDS. rewrite elem_of_list_to_set.
  rewrite !elem_of_union, !elem_of_singleton.
  intros H Hin.
  destruct H as [[[[[H|H]|H]|H]|H]|H]; subst k;
    repeat (apply elem_of_cons in Hin as [Hin|Hin]; [discriminate Hin|]);
    apply elem_of_nil in Hin; exact Hin.
Qed.

Lemma sanitize_reads (raw1 raw2 : gmap string pyval) :
  (∀ k, k ∈ allowed_keys → raw1 !! k = raw2 !! k) →
  sanitize_scan_response raw1 = sanitize_scan_response raw2.
Proof.
  intros H. unfold sanitize_scan_response.
  rewrite (H "safe"), (H "reason"), (H "threat_type"), (H "confidence"), (H "severity");
    [reflexivity| unfold allowed_keys; rewrite !elem_of_union, !elem_of_singleton; auto 10 ..].
Qed.

Lemma sanitize_dom (raw out : gmap string pyval) :
  sanitize_scan_response raw = Ok out →
  dom out = (if raw_safe raw then safe_keys else allowed_keys).
Proof.
  intros H. destruct (raw_safe raw) eqn:Hs.
  - rewrite (sanitize_safe raw Hs) in H. apply Ok_inj in H. subst out.
    rewrite dict_of_dom. unfold safe_keys. cbn. set_solver.
  - destruct (sanitize_unsafe raw out Hs H) as (tt & sv & c & g & _ & _ & _ & _ & ->).
    rewrite dict_of_dom. unfold allowed_keys. cbn. set_solver.
Qed.

(** C7, as amended: a raw verdict whose "safe" field is truthy (or absent)
    is sanitized to a dict with exactly the keys safe and reason, with safe
    True and the raw reason (or the empty string), and sanitizing that
    output again returns it unchanged. *)
Theorem sanitize_safe_verdict (raw : gmap string pyval) :
  raw_safe raw = true →
  ∃ out, sanitize_scan_response raw = Ok out ∧
         dom out = safe_keys ∧
         out !! "safe" = Some (PBool true) ∧
         out !! "reason" = Some (default (PStr "") (raw !! "reason")) ∧
         (let* once := sanitize_scan_response raw in sanitize_scan_response once)
         = sanitize_scan_response raw.
Proof.
  intros Hs. pose proof (sanitize_safe raw Hs) as Hout.
  eexists. split; [exact Hout|].
  split; [rewrite (sanitize_dom _ _ Hout), Hs; reflexivity|].
  split; [rewrite dict_of_lookup; reflexivity|].
  split; [rewrite dict_of_lookup; reflexivity|].
  rewrite Hout. cbn [result_bind]. rewrite sanitize_safe.
  - rewrite dict_of_lookup. reflexivity.
  - unfold raw_safe. rewrite dict_of_lookup. reflexivity.
Qed.

Lemma sanitize_safe_verdict_witness :
  ∃ out, sanitize_scan_response
           (dict_of [ ("safe", PBool true); ("reason", PStr "ok"); ("detected_by", PStr "L3") ])
         = Ok out ∧
         dom out = safe_keys ∧
         out !! "safe" = Some (PBool true) ∧
         out !! "reason" = Some (PStr "ok") ∧
         (let* once := sanitize_scan_response
                         (dict_of [ ("safe", PBool true); ("reason", PStr "ok");
                                    ("detected_by", PStr "L3") ])
          in sanitize_scan_response once)
         = sanitize_scan_response
             (dict_of [ ("safe", PBool true); ("reason", PStr "ok"); ("detected_by", PStr "L3") ]).
Proof.
  apply (sanitize_safe_verdict
           (dict_of [ ("safe", PBool true); ("reason", PStr "ok"); ("detected_by", PStr "L3") ])).
  reflexivity.
Defined.

(** An unsafe verdict is sanitized to bucket strings, which the second
    pass cannot compare with a float. *)
Lemma sanitize_unsafe_twice_raises (raw out : gmap string pyval) :
  raw_safe raw = false →
  sanitize_scan_response raw = Ok out →
  sanitize_scan_response out
  = TypeError "'>=' not supported between instances of 'str' and 'float'".
Proof.
  intros Hs H.
  destruct (sanitize_unsafe raw out Hs H) as (tt & sv & c & g & _ & _ & _ & _ & ->).
  unfold sanitize_scan_response. rewrite !dict_of_lookup.
  cbn [display_lookup String.eqb Ascii.eqb Bool.eqb default from_option id truthy negb].
  rewrite normalize_threat_type_str. reflexivity.
Qed.

(** C7, as stated, fails: sanitizing the sanitized form of an unsafe
    verdict raises instead of returning it. *)
Lemma sanitize_not_idempotent :
  sanitize_scan_response sqli_response = Ok sqli_verdict ∧
  sanitize_scan_response sqli_verdict
  = TypeError "'>=' not supported between instances of 'str' and 'float'" ∧
  (let* once := sanitize_scan_response sqli_response in sanitize_scan_response once)
  ≠ sanitize_scan_response sqli_response.
Proof.
  assert (H2 : sanitize_scan_response sqli_verdict
               = TypeError "'>=' not supported between instances of 'str' and 'float'").
  { apply (sanitize_unsafe_twice_raises sqli_response); [|exact sanitize_sqli].
    unfold raw_safe, sqli_response. rewrite dict_of_lookup. reflexivity. }
  split; [exact sanitize_sqli|]. split; [exact H2|].
  rewrite sanitize_sqli. cbn [result_bind]. rewrite H2. discriminate.
Qed.

Lemma internal_not_allowed (k : string) : k ∈ _INTERNAL_FIELDS → k ∉ allowed_keys.
Proof. intros Hin Hal. exact (allowed_not_internal k Hal Hin). Qed.

(** C8: the output of sanitize_scan_response has no key outside safe,
    threat_type, severity, confidence, reason, guidance; no denylisted
    internal field is a key of it; and two raw responses that differ only in
    denylisted internal fields have the same outcome. *)
Theorem sanitize_strips_internal_fields :
  (∀ raw out, sanitize_scan_response raw = Ok out → dom out ⊆ allowed_keys) ∧
  (∀ raw out k, sanitize_scan_response raw = Ok out →
     k ∈ _INTERNAL_FIELDS → out !! k = None) ∧
  (∀ raw1 raw2, differ_only_in_internal_fields raw1 raw2 →
     sanitize_scan_response raw1 = sanitize_scan_response raw2).
Proof.
  assert (Hdom : ∀ raw out, sanitize_scan_response raw = Ok out → dom out ⊆ allowed_keys).
  { intros raw out H. rewrite (sanitize_dom raw out H).
    destruct (raw_safe raw); unfold safe_keys, allowed_keys; [|reflexivity].
    apply elem_of_subseteq. intros k.
    rewrite !elem_of_union, !elem_of_singleton. tauto. }
  split; [exact Hdom|]. split.
  - intros raw out k H Hk. apply not_elem_of_dom. intros Hin.
    apply (internal_not_allowed k Hk). apply (Hdom raw out H). exact Hin.
  - intros raw1 raw2 Hdiff. apply sanitize_reads. intros k Hk.
    apply Hdiff. apply allowed_not_internal. exact Hk.
Qed.

Lemma sanitize_strips_internal_fields_witness :
  sanitize_scan_response
    (dict_of [ ("safe", PBool false); ("threat_type", PStr "sqli");
               ("detected_by", PStr "layer-3"); ("matched_pattern", PStr "' OR 1=1") ])
  = sanitize_scan_response
      (dict_of [ ("safe", PBool false); ("threat_type", PStr "sqli") ]).
Proof.
  destruct sanitize_strips_internal_fields as (_ & _ & Hsame).
  apply Hsame. intros k Hk. rewrite !dict_of_lookup. cbn [display_lookup].
  destruct (String.eqb_spec "matched_pattern" k) as [<-|_].
  { exfalso. apply Hk. vm_compute. reflexivity. }
  destruct (String.eqb_spec "detected_by" k) as [<-|_].
  { exfalso. apply Hk. vm_compute. reflexivity. }
  reflexivity.
Defined.

(** ** The extractors *)

Lemma anthropic_blocks (content acc : list pyval) :
  foldl ShrikeAnthropic.extract_block acc content
  = acc ++ concat (map (block_texts true) content).
Proof.
  revert acc. induction content as [|b content IH]; intros acc.
  - cbn. rewrite app_nil_r. reflexivity.
  - cbn [foldl map concat]. rewrite IH.
    destruct b as [| | | |s|l|d]; cbn [ShrikeAnthropic.extract_block block_texts];
      rewrite ?app_nil_l, <- ?app_assoc; try reflexivity.
    destruct (eq_str _ _); rewrite <- ?app_assoc; reflexivity.
Qed.

Lemma anthropic_messages (messages : list (gmap string pyval)) (acc : list pyval) :
  foldl ShrikeAnthropic.extract_message acc messages
  = acc ++ concat (map (message_texts true) messages).
Proof.
  revert acc. induction messages as [|m messages IH]; intros acc.
  - cbn. rewrite app_nil_r. reflexivity.
  - cbn [foldl map concat]. rewrite IH, app_assoc. f_equal.
    unfold ShrikeAnthropic.extract_message, message_texts.
    destruct (eq_str _ "user"); cbn [negb]; [|rewrite app_nil_r; reflexivity].
    destruct (default PNone (m !! "content")); rewrite ?app_nil_r; try reflexivity.
    apply anthropic_blocks.
Qed.

Lemma openai_parts (content acc : list pyval) :
  foldl ShrikeAsyncOpenAI.extract_part acc content
  = acc ++ concat (map (block_texts false) content).
Proof.
  revert acc. induction content as [|b content IH]; intros acc.
  - cbn. rewrite app_nil_r. reflexivity.
  - cbn [foldl map concat]. rewrite IH.
    destruct b as [| | | |s|l|d]; cbn [ShrikeAsyncOpenAI.extract_part block_texts];
      rewrite ?app_nil_l, <- ?app_assoc; try reflexivity.
    destruct (eq_str _ _); rewrite <- ?app_assoc; reflexivity.
Qed.

Lemma openai_messages (messages : list (gmap string pyval)) (acc : list pyval) :
  foldl ShrikeAsyncOpenAI.extract_message acc messages
  = acc ++ concat (map (message_texts false) messages).
Proof.
  revert acc. induction messages as [|m messages IH]; intros acc.
  - cbn. rewrite app_nil_r. reflexivity.
  - cbn [foldl map concat]. rewrite IH, app_assoc. f_equal.
    unfold ShrikeAsyncOpenAI.extract_message, message_texts.
    destruct (eq_str _ "user"); [|rewrite app_nil_r; reflexivity].
    destruct (default PNone (m !! "content")); rewrite ?app_nil_r; try reflexivity.
    apply openai_parts.
Qed.

Lemma join_from_strs (i : nat) (sep : string) (texts : list string) :
  join_from i sep (PStr <$> texts) = Ok (String.concat sep texts).
Proof.
  revert i. induction texts as [|s texts IH]; intros i; [reflexivity|].
  destruct texts as [|s' texts]; [reflexivity|].
  change (join_from i sep (PStr <$> s :: s' :: texts))
    with (let* r := join_from (S i) sep (PStr <$> s' :: texts) in Ok (s +:+ sep +:+ r)).
  rewrite IH. reflexivity.
Qed.

Lemma no_user_texts (p : bool) (messages : list (gmap string pyval)) :
  Forall (λ m, eq_str (default PNone (m !! "role")) "user" = false) messages →
  concat (map (message_texts p) messages) = [].
Proof.
  induction 1 as [|m messages Hm _ IH]; [reflexivity|].
  cbn [map concat]. rewrite IH. unfold message_texts. rewrite Hm. reflexivity.
Qed.

(** C9, as amended: every extractor returns the newline-join, in message
    order, of what the user messages contribute: a message whose role is not
    "user" nothing, a string content itself, a list content the "text" of
    each block of type "text" and nothing for other blocks; a plain string
    element of a list content contributes itself in the two Anthropic
    extractors and nothing in the OpenAI extractor. The conversation user A,
    assistant B, user C gives "A\nC"; input without a user message gives
    the empty string. *)
Theorem extract_user_content_spec :
  (∀ messages, ShrikeAnthropic._extract_user_content messages = user_text true messages) ∧
  (∀ messages, ShrikeAsyncAnthropic._extract_user_content messages = user_text true messages) ∧
  (∀ messages, ShrikeAsyncOpenAI._extract_user_content messages = user_text false messages) ∧
  (∀ p messages texts,
     concat (map (message_texts p) messages) = PStr <$> texts →
     user_text p messages = Ok (String.concat nl texts)) ∧
  (∀ p, user_text p conversation_ABC = Ok ("A" +:+ nl +:+ "C")) ∧
  (∀ p messages,
     Forall (λ m, eq_str (default PNone (m !! "role")) "user" = false) messages →
     user_text p messages = Ok "").
Proof.
  split. { intros messages. unfold ShrikeAnthropic._extract_user_content.
           rewrite anthropic_messages. reflexivity. }
  split. { intros messages. unfold ShrikeAsyncAnthropic._extract_user_content,
             ShrikeAnthropic._extract_user_content.
           rewrite anthropic_messages. reflexivity. }
  split. { intros messages. unfold ShrikeAsyncOpenAI._extract_user_content.
           rewrite openai_messages. reflexivity. }
  split. { intros p messages texts H. unfold user_text, join. rewrite H.
           apply join_from_strs. }
  split. { intros []; vm_compute; reflexivity. }
  intros p messages H. unfold user_text. rewrite (no_user_texts p messages H). reflexivity.
Qed.

Lemma extract_user_content_spec_witness :
  user_text true [ user_message (PList [ PStr "look"; PDict (dict_of [ ("type", PStr "text"); ("text", PStr "at this") ]);
                                         PDict (dict_of [ ("type", PStr "image") ]) ]) ]
  = Ok (String.concat nl [ "look"; "at this" ]) ∧
  user_text false [ dict_of [ ("role", PStr "system"); ("content", PStr "be kind") ] ] = Ok "".
Proof.
  destruct extract_user_content_spec as (_ & _ & _ & Hjoin & _ & Hnone).
  split.
  - apply Hjoin. vm_compute. reflexivity.
  - apply Hnone. repeat constructor.
Defined.

(** C9, as stated, fails for the OpenAI extractor. *)
Lemma openai_extractor_skips_plain_strings :
  ShrikeAsyncOpenAI._extract_user_content [ user_message (PList [ PStr "hi" ]) ] = Ok "" ∧
  ShrikeAnthropic._extract_user_content [ user_message (PList [ PStr "hi" ]) ] = Ok "hi".
Proof. split; vm_compute; reflexivity. Qed.

(** ** The scan round trip *)

Lemma scan_round_trip_trace (self : Client) (prompt : string) :
  snd (scan_round_trip self prompt) = [EvPost (scan_url self) (scan_body prompt)].
Proof.
  unfold scan_round_trip, post, bind, lift, raise.
  destruct (_http self _ _) as [e|r]; [reflexivity|].
  destruct (raise_for_status r); [|reflexivity].
  destruct (json r) as [body|]; [|reflexivity].
  destruct (as_dict body) as [raw|]; [|reflexivity].
  destruct (sanitize_scan_response raw); reflexivity.
Qed.

Lemma scan_round_trip_raises (self : Client) (prompt : string) (e : py_exn) :
  _http self (scan_url self) (scan_body prompt) = PostRaises e →
  scan_round_trip self prompt = (Err e, [EvPost (scan_url self) (scan_body prompt)]).
Proof.
  intros H. unfold scan_round_trip, post, bind, raise.
  fold (scan_url self). fold (scan_body prompt). rewrite H. reflexivity.
Qed.

Lemma scan_round_trip_returns (self : Client) (prompt : string) (r : Response) :
  _http self (scan_url self) (scan_body prompt) = PostReturns r →
  scan_round_trip self prompt
  = (let* _ := raise_for_status r in
     let* body := json r in
     let* raw := as_dict body in
     sanitize_scan_response raw,
     [EvPost (scan_url self) (scan_body prompt)]).
Proof.
  intros H. unfold scan_round_trip, post, bind, lift.
  fold (scan_url self). fold (scan_body prompt). rewrite H.
  destruct (raise_for_status r); [|reflexivity]. cbn [result_bind].
  destruct (json r) as [body|]; [|reflexivity]. cbn [result_bind].
  destruct (as_dict body) as [raw|]; [|reflexivity]. cbn [result_bind].
  destruct (sanitize_scan_response raw); reflexivity.
Qed.

Lemma remote_scan_ok (self : Client) (prompt : string) (v : gmap string pyval) (t : list event) :
  scan_round_trip self prompt = (Ok v, t) →
  _remote_scan self prompt = (Ok v, t).
Proof. intros H. unfold _remote_scan, try_except. rewrite H. reflexivity. Qed.

Lemma remote_scan_open (self : Client) (prompt : string) (e : py_exn) (t : list event) :
  scan_round_trip self prompt = (Err e, t) →
  _fail_mode self = OPEN →
  _remote_scan self prompt
  = (Ok (dict_of [ ("safe", PBool true); ("reason", PStr (open_reason e)) ]),
     t ++ open_diagnostics e).
Proof.
  intros H Hm. unfold _remote_scan, try_except. rewrite H.
  unfold scan_failed. rewrite Hm.
  destruct e; cbn; rewrite ?app_nil_r; reflexivity.
Qed.

Lemma remote_scan_closed (self : Client) (prompt : string) (e : py_exn) (t : list event) :
  scan_round_trip self prompt = (Err e, t) →
  _fail_mode self = CLOSED →
  _remote_scan self prompt = (Err (ShrikeScanError (closed_message e)), t).
Proof.
  intros H Hm. unfold _remote_scan, try_except. rewrite H.
  unfold scan_failed. rewrite Hm.
  destruct e; cbn; rewrite ?app_nil_r; reflexivity.
Qed.

Section EntryPoints.

Variable builtins_str : pyval → string.
Variables (model : string) (max_tokens : Z) (stream : bool) (kwargs : gmap string pyval).

Abbreviation eps := (entry_points builtins_str model max_tokens stream kwargs).

Lemma ep_scan_eq (ep : entry_point) (self : Client) (messages : list (gmap string pyval)) :
  ep ∈ eps →
  ep_scan ep self messages
  = match ep_extract ep messages with
    | Err e => raise (Raised e)
    | Ok user_content =>
        if negb (truthy (PStr (strip user_content)))
        then ret no_content_verdict
        else _remote_scan self user_content
    end.
Proof.
  intros Hin. unfold entry_points in Hin.
  repeat (apply elem_of_cons in Hin as [->|Hin]; [reflexivity|]).
  apply elem_of_nil in Hin. destruct Hin.
Qed.

Lemma ep_call_eq (ep : entry_point) (messages : list (gmap string pyval)) :
  ep ∈ eps →
  ∃ (call : provider_call) (message violations : gmap string pyval → pyval),
    ∀ self,
      ep_call ep self messages
      = let! scan_result := ep_scan ep self messages in
        if blocked scan_result then
          raise (ShrikeBlockedError (message scan_result)
                   (default PNone (scan_result !! "threat_type"))
                   (default PNone (scan_result !! "confidence"))
                   (violations scan_result))
        else call_provider self call.
Proof.
  intros Hin. unfold entry_points in Hin.
  repeat (apply elem_of_cons in Hin as [->|Hin];
          [eexists _, (λ r, _), (λ r, _); intros self; reflexivity|]).
  apply elem_of_nil in Hin. destruct Hin.
Qed.

End EntryPoints.

Lemma strip_blank (s : string) : strip s = "" → negb (truthy (PStr (strip s))) = true.
Proof. intros ->. reflexivity. Qed.

Lemma strip_nonblank (s : string) : strip s ≠ "" → negb (truthy (PStr (strip s))) = false.
Proof. destruct (strip s); [congruence|reflexivity]. Qed.

Lemma blocked_safe_true (r : pyval) :
  blocked (dict_of [ ("safe", PBool true); ("reason", r) ]) = false.
Proof. unfold blocked. rewrite dict_of_lookup. reflexivity. Qed.

Lemma call_provider_eq (self : Client) (call : provider_call) :
  call_provider self call = (provider_outcome self call, [EvProvider call]).
Proof.
  unfold call_provider, provider_outcome, bind, emit, ret, raise.
  destruct (_provider self call); reflexivity.
Qed.

(** C6, as amended: when the extracted text is empty, the scan of every
    entry point performs no effect at all, hence no network request, and
    returns the safe verdict whose reason is "No user content to scan". *)
Theorem scan_messages_empty (builtins_str : pyval → string) (model : string)
    (max_tokens : Z) (stream : bool) (kwargs : gmap string pyval)
    (ep : entry_point) (self : Client) (messages : list (gmap string pyval)) :
  ep ∈ entry_points builtins_str model max_tokens stream kwargs →
  ep_extract ep messages = Ok "" →
  ep_scan ep self messages
  = (Ok (dict_of [ ("safe", PBool true); ("reason", PStr "No user content to scan") ]), []).
Proof.
  intros Hin Hex. rewrite (ep_scan_eq _ _ _ _ _ _ _ _ Hin), Hex. reflexivity.
Qed.

Lemma scan_messages_empty_witness :
  ShrikeAsyncOpenAI._scan_messages
    (demo_client CLOSED (PostRaises (TimeoutException "timed out")))
    [ dict_of [ ("role", PStr "system"); ("content", PStr "You are helpful.") ] ]
  = (Ok (dict_of [ ("safe", PBool true); ("reason", PStr "No user content to scan") ]), []).
Proof.
  apply (scan_messages_empty demo_str "gpt-4" 0 false ∅
           {| ep_name := "ShrikeAsyncOpenAI.chat.completions.create";
              ep_extract := ShrikeAsyncOpenAI._extract_user_content;
              ep_scan := ShrikeAsyncOpenAI._scan_messages;
              ep_call := λ self messages,
                ShrikeAsyncOpenAI.create demo_str self messages false ∅ |}).
  - unfold entry_points. do 4 apply list_elem_of_further. apply list_elem_of_here.
  - vm_compute. reflexivity.
Defined.

(** Blank text is skipped like empty text. *)
Lemma scan_messages_blank (builtins_str : pyval → string) (model : string)
    (max_tokens : Z) (stream : bool) (kwargs : gmap string pyval)
    (ep : entry_point) (self : Client) (messages : list (gmap string pyval)) (text : string) :
  ep ∈ entry_points builtins_str model max_tokens stream kwargs →
  ep_extract ep messages = Ok text → strip text = "" →
  ep_scan ep self messages = (Ok no_content_verdict, []).
Proof.
  intros Hin Hex Hb. rewrite (ep_scan_eq _ _ _ _ _ _ _ _ Hin), Hex, (strip_blank _ Hb).
  reflexivity.
Qed.

(** C6, as stated, fails: the reason is not the string of the claim. *)
Lemma scan_messages_empty_reason :
  ∃ v, ShrikeAnthropic._scan_messages (demo_client OPEN (PostRaises (TimeoutException ""))) []
       = (Ok v, []) ∧
       v !! "reason" = Some (PStr "No user content to scan") ∧
       v !! "reason" ≠ Some (PStr "no content to scan").
Proof.
  eexists. split; [reflexivity|]. rewrite dict_of_lookup. split; [reflexivity|discriminate].
Qed.

Lemma ep_scan_nonblank (builtins_str : pyval → string) (model : string)
    (max_tokens : Z) (stream : bool) (kwargs : gmap string pyval)
    (ep : entry_point) (self : Client) (messages : list (gmap string pyval)) (text : string) :
  ep ∈ entry_points builtins_str model max_tokens stream kwargs →
  ep_extract ep messages = Ok text → strip text ≠ "" →
  ep_scan ep self messages = _remote_scan self text.
Proof.
  intros Hin Hex Hb. rewrite (ep_scan_eq _ _ _ _ _ _ _ _ Hin), Hex, (strip_nonblank _ Hb).
  reflexivity.
Qed.

Lemma raise_for_status_ok (r : Response) :
  200 ≤ status_code r ≤ 299 → raise_for_status r = Ok tt.
Proof.
  intros [H1 H2]. unfold raise_for_status.
  rewrite (proj2 (Z.leb_le _ _) H1), (proj2 (Z.leb_le _ _) H2). reflexivity.
Qed.

Lemma raise_for_status_err (r : Response) :
  ¬ (200 ≤ status_code r ≤ 299) → raise_for_status r = Err (HTTPStatusError (status_code r)).
Proof.
  intros H. unfold raise_for_status.
  destruct (Z.leb_spec 200 (status_code r)), (Z.leb_spec (status_code r) 299);
    try reflexivity. lia.
Qed.

(** C1, as amended: a scan round trip fails when the transport raises (a
    timeout, a connection error), when the status is not 2xx, or when the
    body is not JSON or not a JSON object. Whatever the failure, under OPEN
    _remote_scan does not raise and returns a safe verdict whose reason
    describes it, with a warning logged for a timeout and nothing logged for
    the other failures; under CLOSED it raises ShrikeScanError describing the
    failure, every entry point raises the same error, and the wrapped
    provider client is not called. *)
Theorem scan_failure_policy (self : Client) (prompt : string) :
  let sent := [EvPost (scan_url self) (scan_body prompt)] in
  (∀ e, _http self (scan_url self) (scan_body prompt) = PostRaises e →
        scan_round_trip self prompt = (Err e, sent)) ∧
  (∀ r, _http self (scan_url self) (scan_body prompt) = PostReturns r →
        ¬ (200 ≤ status_code r ≤ 299) →
        scan_round_trip self prompt = (Err (HTTPStatusError (status_code r)), sent)) ∧
  (∀ r e, _http self (scan_url self) (scan_body prompt) = PostReturns r →
        200 ≤ status_code r ≤ 299 → json r = Err e →
        scan_round_trip self prompt = (Err e, sent)) ∧
  (∀ r body, _http self (scan_url self) (scan_body prompt) = PostReturns r →
        200 ≤ status_code r ≤ 299 → json r = Ok body → (∀ d, body ≠ PDict d) →
        scan_round_trip self prompt = (AttributeError body "get", sent)) ∧
  (∀ e t, scan_round_trip self prompt = (Err e, t) →
     (_fail_mode self = OPEN →
        _remote_scan self prompt
        = (Ok (dict_of [ ("safe", PBool true); ("reason", PStr (open_reason e)) ]),
           t ++ open_diagnostics e)) ∧
     (_fail_mode self = CLOSED →
        _remote_scan self prompt = (Err (ShrikeScanError (closed_message e)), t) ∧
        ∀ builtins_str model max_tokens stream kwargs ep messages,
          ep ∈ entry_points builtins_str model max_tokens stream kwargs →
          ep_extract ep messages = Ok prompt → strip prompt ≠ "" →
          ep_call ep self messages = (Err (ShrikeScanError (closed_message e)), t) ∧
          provider_calls t = [])).
Proof.
  intros sent.
  split. { intros e H. apply scan_round_trip_raises. exact H. }
  split. { intros r H Hs. rewrite (scan_round_trip_returns _ _ _ H),
             (raise_for_status_err _ Hs). reflexivity. }
  split. { intros r e H Hs Hj. rewrite (scan_round_trip_returns _ _ _ H),
             (raise_for_status_ok _ Hs), Hj. reflexivity. }
  split. { intros r body H Hs Hj Hd. rewrite (scan_round_trip_returns _ _ _ H),
             (raise_for_status_ok _ Hs), Hj. cbn [result_bind].
           destruct body; try reflexivity. destruct (Hd d eq_refl). }
  intros e t H. split; intros Hm.
  - apply remote_scan_open; assumption.
  - pose proof (remote_scan_closed _ _ _ _ H Hm) as Hr.
    split; [exact Hr|].
    intros builtins_str model max_tokens stream kwargs ep messages Hin Hex Hb.
    destruct (ep_call_eq _ _ _ _ _ ep messages Hin) as (call & msg & viol & Hcall).
    rewrite Hcall, (ep_scan_nonblank _ _ _ _ _ _ _ _ _ Hin Hex Hb), Hr.
    split; [reflexivity|].
    pose proof (scan_round_trip_trace self prompt) as Ht. rewrite H in Ht.
    cbn [snd] in Ht. subst t. reflexivity.
Qed.

Lemma scan_failure_policy_witness :
  _remote_scan (demo_client OPEN (PostRaises (TimeoutException "Connection timed out"))) "Hello!"
  = (Ok (dict_of [ ("safe", PBool true); ("reason", PStr "Scan timeout, failing open") ]),
     [ EvPost (DEFAULT_ENDPOINT +:+ "/scan") (scan_body "Hello!");
       EvWarning "Scan request timed out, failing open (allowing request)" ]) ∧
  ShrikeAnthropic.create
    (demo_client CLOSED (PostReturns {| status_code := 503; json := Ok PNone |}))
    "claude-3-opus-20240229" 1024 [ user_message (PStr "Hello!") ] false ∅
  = (Err (ShrikeScanError "Scan API returned error: 503"),
     [ EvPost (DEFAULT_ENDPOINT +:+ "/scan") (scan_body "Hello!") ]).
Proof.
  split.
  - destruct (scan_failure_policy
                (demo_client OPEN (PostRaises (TimeoutException "Connection timed out")))
                "Hello!") as (Hraise & _ & _ & _ & Hpolicy).
    destruct (Hpolicy _ _ (Hraise _ eq_refl)) as [Hopen _].
    exact (Hopen eq_refl).
  - destruct (scan_failure_policy
                (demo_client CLOSED (PostReturns {| status_code := 503; json := Ok PNone |}))
                "Hello!") as (_ & Hstatus & _ & _ & Hpolicy).
    assert (Hs : ¬ (200 ≤ 503 ≤ 299)) by lia.
    destruct (Hpolicy _ _ (Hstatus _ eq_refl Hs)) as [_ Hclosed].
    destruct (Hclosed eq_refl) as [_ Hep].
    refine (proj1 (Hep demo_str "claude-3-opus-20240229" 1024 false ∅
              {| ep_name := "ShrikeAnthropic.messages.create";
                 ep_extract := ShrikeAnthropic._extract_user_content;
                 ep_scan := ShrikeAnthropic._scan_messages;
                 ep_call := λ self messages,
                   ShrikeAnthropic.create self "claude-3-opus-20240229" 1024 messages false ∅ |}
              [ user_message (PStr "Hello!") ] _ _ _)).
    + apply list_elem_of_here.
    + vm_compute. reflexivity.
    + vm_compute. discriminate.
Defined.

(** C1, as stated, fails: an HTTP error under OPEN is turned into a safe
    verdict without any diagnostic. *)
Lemma remote_scan_http_error_no_warning :
  _remote_scan (demo_client OPEN (PostReturns {| status_code := 503; json := Ok PNone |})) "Hello!"
  = (Ok (dict_of [ ("safe", PBool true); ("reason", PStr "Scan API error: 503") ]),
     [ EvPost (DEFAULT_ENDPOINT +:+ "/scan") (scan_body "Hello!") ]) ∧
  warnings (snd (_remote_scan
                   (demo_client OPEN (PostReturns {| status_code := 503; json := Ok PNone |}))
                   "Hello!")) = [].
Proof. split; vm_compute; reflexivity. Qed.

(** ** Blocking *)

Lemma scan_round_trip_ok (self : Client) (prompt : string) (v : gmap string pyval)
    (t : list event) :
  scan_round_trip self prompt = (Ok v, t) →
  ∃ raw, sanitize_scan_response raw = Ok v ∧ t = [EvPost (scan_url self) (scan_body prompt)].
Proof.
  intros H. pose proof (scan_round_trip_trace self prompt) as Ht.
  rewrite H in Ht. cbn [snd] in Ht. subst t.
  destruct (_http self (scan_url self) (scan_body prompt)) as [e|r] eqn:Hp.
  - rewrite (scan_round_trip_raises _ _ _ Hp) in H. discriminate H.
  - rewrite (scan_round_trip_returns _ _ _ Hp) in H.
    destruct (raise_for_status r); [|discriminate H]. cbn [result_bind] in H.
    destruct (json r) as [body|]; [|discriminate H]. cbn [result_bind] in H.
    destruct (as_dict body) as [raw|]; [|discriminate H]. cbn [result_bind] in H.
    exists raw. split; [|reflexivity]. congruence.
Qed.

Lemma remote_scan_blocked (self : Client) (prompt : string) (v : gmap string pyval)
    (t : list event) :
  _remote_scan self prompt = (Ok v, t) → blocked v = true →
  ∃ raw, sanitize_scan_response raw = Ok v ∧ raw_safe raw = false ∧
         t = [EvPost (scan_url self) (scan_body prompt)].
Proof.
  intros H Hb.
  destruct (scan_round_trip self prompt) as [[v'|e] t'] eqn:Hrt.
  - rewrite (remote_scan_ok _ _ _ _ Hrt) in H.
    apply pair_equal_spec in H as [H ->]. apply Ok_inj in H. subst v'.
    destruct (scan_round_trip_ok _ _ _ _ Hrt) as (raw & Hraw & ->).
    exists raw. split; [exact Hraw|]. split; [|reflexivity].
    destruct (raw_safe raw) eqn:Hs; [|reflexivity].
    rewrite (sanitize_safe raw Hs) in Hraw. apply Ok_inj in Hraw. subst v.
    rewrite blocked_safe_true in Hb. discriminate Hb.
  - exfalso. destruct (_fail_mode self) eqn:Hm.
    + rewrite (remote_scan_open _ _ _ _ Hrt Hm) in H.
      apply pair_equal_spec in H as [H _]. apply Ok_inj in H. subst v.
      rewrite blocked_safe_true in Hb. discriminate Hb.
    + rewrite (remote_scan_closed _ _ _ _ Hrt Hm) in H.
      apply pair_equal_spec in H as [H _]. discriminate H.
Qed.

Lemma threat_type_values_canonical :
  ∀ k v, display_lookup k THREAT_TYPE_TABLE = Some v → v ∈ canonical_threat_types.
Proof.
  assert (H : forallb (λ kv : string * string,
                existsb (String.eqb kv.2) canonical_threat_types)
              THREAT_TYPE_TABLE = true) by (vm_compute; reflexivity).
  rewrite forallb_forall in H.
  assert (Hin : ∀ k v (items : list (string * string)),
            display_lookup k items = Some v → ∃ k', In (k', v) items).
  { intros k v items. induction items as [|[k' v'] rest IH]; [discriminate|].
    cbn [display_lookup]. destruct (display_lookup k rest) as [w|].
    - intros [= ->]. destruct (IH eq_refl) as [k'' Hk]. exists k''. right. exact Hk.
    - destruct (String.eqb k' k); [|discriminate]. intros [= ->]. exists k'. left. reflexivity. }
  intros k v Hk. destruct (Hin _ _ _ Hk) as [k' Hk'].
  apply H in Hk'. cbn [snd] in Hk'. apply existsb_exists in Hk' as (c & Hc & Heq).
  apply String.eqb_eq in Heq. subst c. apply list_elem_of_In. exact Hc.
Qed.

Lemma normalize_canonical (v : pyval) (tt : string) :
  normalize_threat_type v = Ok tt → tt ∈ canonical_threat_types.
Proof.
  unfold normalize_threat_type. destruct (negb (truthy v)).
  - intros H%Ok_inj. subst tt. unfold canonical_threat_types.
    do 17 apply list_elem_of_further. apply list_elem_of_here.
  - destruct v as [|b|z|f|s|l|d].
    1-4, 6-7: intros H; discriminate H.
    intros H%Ok_inj. subst tt. unfold THREAT_TYPE_MAP. rewrite dict_of_lookup.
    destruct (display_lookup _ _) as [w|] eqn:Hw.
    + exact (threat_type_values_canonical _ _ Hw).
    + unfold canonical_threat_types.
      do 17 apply list_elem_of_further. apply list_elem_of_here.
Qed.

Lemma bucket_confidence_range (v : pyval) (c : string) :
  bucket_confidence v = Ok c → c ∈ confidence_buckets.
Proof.
  unfold bucket_confidence, confidence_buckets.
  assert (Hh : "high" ∈ [ "high"; "medium"; "low" ]) by apply list_elem_of_here.
  assert (Hm : "medium" ∈ [ "high"; "medium"; "low" ])
    by (apply list_elem_of_further, list_elem_of_here).
  assert (Hl : "low" ∈ [ "high"; "medium"; "low" ])
    by (do 2 apply list_elem_of_further; apply list_elem_of_here).
  destruct v; cbn [ge_float result_bind]; try (unfold TypeError; discriminate);
    try (intros H%Ok_inj; subst c; exact Hm);
    repeat match goal with
           | |- context [if ?b then _ else _] => destruct b
           end; intros H%Ok_inj; subst c; assumption.
Qed.

Lemma ep_scan_blocked (builtins_str : pyval → string) (model : string)
    (max_tokens : Z) (stream : bool) (kwargs : gmap string pyval)
    (ep : entry_point) (self : Client) (messages : list (gmap string pyval))
    (v : gmap string pyval) (t : list event) :
  ep ∈ entry_points builtins_str model max_tokens stream kwargs →
  ep_scan ep self messages = (Ok v, t) → blocked v = true →
  ∃ raw, sanitize_scan_response raw = Ok v ∧ raw_safe raw = false ∧ provider_calls t = [].
Proof.
  intros Hin H Hb. rewrite (ep_scan_eq _ _ _ _ _ _ _ _ Hin) in H.
  destruct (ep_extract ep messages) as [text|e]; [|discriminate H].
  destruct (negb (truthy (PStr (strip text)))).
  - apply pair_equal_spec in H as [H _]. apply Ok_inj in H. subst v.
    unfold no_content_verdict in Hb. rewrite blocked_safe_true in Hb. discriminate Hb.
  - destruct (remote_scan_blocked _ _ _ _ H Hb) as (raw & Hraw & Hs & ->).
    exists raw. repeat split; assumption || reflexivity.
Qed.

(** C2: at every entry point an unsafe scan verdict raises
    ShrikeBlockedError with the verdict's threat_type, a canonical category,
    and its confidence, a bucket, and the wrapped provider client is not
    called; the response safe=false, threat_type sqli, confidence 0.95 raises
    it with "sql_injection" and "high". *)
Theorem unsafe_verdict_raises_blocked (builtins_str : pyval → string) (model : string)
    (max_tokens : Z) (stream : bool) (kwargs : gmap string pyval)
    (ep : entry_point) (self : Client) (messages : list (gmap string pyval)) :
  ep ∈ entry_points builtins_str model max_tokens stream kwargs →
  (∀ verdict t,
     ep_scan ep self messages = (Ok verdict, t) → blocked verdict = true →
     ∃ message violations threat_type confidence,
       ep_call ep self messages
       = (Err (ShrikeBlockedError message (PStr threat_type) (PStr confidence) violations), t) ∧
       verdict !! "threat_type" = Some (PStr threat_type) ∧
       verdict !! "confidence" = Some (PStr confidence) ∧
       threat_type ∈ canonical_threat_types ∧
       confidence ∈ confidence_buckets ∧
       provider_calls t = []) ∧
  (∀ text,
     ep_extract ep messages = Ok text → strip text ≠ "" →
     _http self (scan_url self) (scan_body text)
     = PostReturns {| status_code := 200; json := Ok (PDict sqli_response) |} →
     ∃ message violations,
       ep_call ep self messages
       = (Err (ShrikeBlockedError message (PStr "sql_injection") (PStr "high") violations),
          [EvPost (scan_url self) (scan_body text)])).
Proof.
  intros Hin.
  destruct (ep_call_eq _ _ _ _ _ ep messages Hin) as (call & msg & viol & Hcall).
  assert (Hgen : ∀ verdict t,
     ep_scan ep self messages = (Ok verdict, t) → blocked verdict = true →
     ∃ message violations threat_type confidence,
       ep_call ep self messages
       = (Err (ShrikeBlockedError message (PStr threat_type) (PStr confidence) violations), t) ∧
       verdict !! "threat_type" = Some (PStr threat_type) ∧
       verdict !! "confidence" = Some (PStr confidence) ∧
       threat_type ∈ canonical_threat_types ∧
       confidence ∈ confidence_buckets ∧
       provider_calls t = []).
  { intros verdict t Hscan Hb.
    destruct (ep_scan_blocked _ _ _ _ _ _ _ _ _ _ Hin Hscan Hb) as (raw & Hraw & Hs & Hp).
    destruct (sanitize_unsafe raw verdict Hs Hraw)
      as (tt & sv & c & g & Htt & Hc & _ & _ & Hv).
    assert (Ht : verdict !! "threat_type" = Some (PStr tt))
      by (rewrite Hv, dict_of_lookup; reflexivity).
    assert (Hcf : verdict !! "confidence" = Some (PStr c))
      by (rewrite Hv, dict_of_lookup; reflexivity).
    exists (msg verdict), (viol verdict), tt, c.
    split.
    { rewrite Hcall, Hscan. unfold bind. rewrite Hb, Ht, Hcf. cbn [raise default from_option id].
      rewrite app_nil_r. reflexivity. }
    split; [exact Ht|]. split; [exact Hcf|].
    split; [exact (normalize_canonical _ _ Htt)|].
    split; [exact (bucket_confidence_range _ _ Hc)|exact Hp]. }
  split; [exact Hgen|].
  intros text Hex Hb Hpost.
  pose proof sanitize_sqli as Hv. set (v := sqli_verdict) in *.
  assert (Hbv : blocked v = true)
    by (unfold blocked, v, sqli_verdict; rewrite dict_of_lookup; reflexivity).
  assert (Htt : v !! "threat_type" = Some (PStr "sql_injection"))
    by (unfold v, sqli_verdict; rewrite dict_of_lookup; reflexivity).
  assert (Hc : v !! "confidence" = Some (PStr "high"))
    by (unfold v, sqli_verdict; rewrite dict_of_lookup; reflexivity).
  clearbody v.
  assert (Hscan : ep_scan ep self messages
                  = (Ok v, [EvPost (scan_url self) (scan_body text)])).
  { rewrite (ep_scan_nonblank _ _ _ _ _ _ _ _ _ Hin Hex Hb).
    apply remote_scan_ok. rewrite (scan_round_trip_returns _ _ _ Hpost).
    cbn [raise_for_status status_code json result_bind as_dict Z.leb Z.compare Pos.compare
         Pos.compare_cont andb].
    rewrite Hv. reflexivity. }
  destruct (Hgen v _ Hscan Hbv) as (m & vi & tt & c & Hres & Htt' & Hc' & _).
  rewrite Htt in Htt'. rewrite Hc in Hc'.
  injection Htt' as <-. injection Hc' as <-.
  exists m, vi. exact Hres.
Qed.

Lemma unsafe_verdict_raises_blocked_witness :
  ∃ message violations,
    ShrikeAsyncOpenAI.create demo_str
      (demo_client CLOSED
         (PostReturns {| status_code := 200; json := Ok (PDict sqli_response) |}))
      [ user_message (PStr "' OR 1=1 --") ] false ∅
    = (Err (ShrikeBlockedError message (PStr "sql_injection") (PStr "high") violations),
       [ EvPost (DEFAULT_ENDPOINT +:+ "/scan") (scan_body "' OR 1=1 --") ]).
Proof.
  refine (proj2 (unsafe_verdict_raises_blocked demo_str "gpt-4" 0 false ∅
            {| ep_name := "ShrikeAsyncOpenAI.chat.completions.create";
               ep_extract := ShrikeAsyncOpenAI._extract_user_content;
               ep_scan := ShrikeAsyncOpenAI._scan_messages;
               ep_call := λ self messages,
                 ShrikeAsyncOpenAI.create demo_str self messages false ∅ |}
            (demo_client CLOSED
               (PostReturns {| status_code := 200; json := Ok (PDict sqli_response) |}))
            [ user_message (PStr "' OR 1=1 --") ] _) "' OR 1=1 --" _ _ _).
  - unfold entry_points. do 4 apply list_elem_of_further. apply list_elem_of_here.
  - vm_compute. reflexivity.
  - vm_compute. discriminate.
  - reflexivity.
Defined.

(** C10: a raw response without a "safe" key is sanitized to the safe
    shape, and at every entry point, whatever the fail mode, the call goes on
    to the wrapped provider client and returns what it returns; no
    ShrikeBlockedError is raised. *)
Theorem missing_safe_key_fails_open :
  (∀ raw : gmap string pyval, raw !! "safe" = None →
     sanitize_scan_response raw
     = Ok (dict_of [ ("safe", PBool true);
                     ("reason", default (PStr "") (raw !! "reason")) ])) ∧
  (∀ builtins_str model max_tokens stream kwargs ep self messages text r raw,
     ep ∈ entry_points builtins_str model max_tokens stream kwargs →
     ep_extract ep messages = Ok text → strip text ≠ "" →
     _http self (scan_url self) (scan_body text) = PostReturns r →
     200 ≤ status_code r ≤ 299 → json r = Ok (PDict raw) →
     raw !! "safe" = None →
     ∃ call,
       ep_call ep self messages
       = (provider_outcome self call,
          [ EvPost (scan_url self) (scan_body text); EvProvider call ]) ∧
       ∀ message threat_type confidence violations,
         fst (ep_call ep self messages)
         ≠ Err (ShrikeBlockedError message threat_type confidence violations)).
Proof.
  assert (Hsafe : ∀ raw : gmap string pyval, raw !! "safe" = None → raw_safe raw = true).
  { intros raw H. unfold raw_safe. rewrite H. reflexivity. }
  split.
  - intros raw H. apply sanitize_safe, Hsafe, H.
  - intros builtins_str model max_tokens stream kwargs ep self messages text r raw
      Hin Hex Hb Hpost Hs Hj Hraw.
    destruct (ep_call_eq _ _ _ _ _ ep messages Hin) as (call & msg & viol & Hcall).
    exists call.
    assert (Hres : ep_call ep self messages
                   = (provider_outcome self call,
                      [ EvPost (scan_url self) (scan_body text); EvProvider call ])).
    { rewrite Hcall, (ep_scan_nonblank _ _ _ _ _ _ _ _ _ Hin Hex Hb).
      rewrite (remote_scan_ok self text
                 (dict_of [ ("safe", PBool true);
                            ("reason", default (PStr "") (raw !! "reason")) ])
                 [EvPost (scan_url self) (scan_body text)]).
      - unfold bind. rewrite blocked_safe_true, call_provider_eq. reflexivity.
      - rewrite (scan_round_trip_returns _ _ _ Hpost), (raise_for_status_ok _ Hs), Hj.
        cbn [result_bind as_dict]. rewrite (sanitize_safe raw (Hsafe raw Hraw)).
        reflexivity. }
    split; [exact Hres|].
    intros m tt c vi. rewrite Hres. cbn [fst]. unfold provider_outcome.
    destruct (_provider self call); discriminate.
Qed.

Lemma missing_safe_key_fails_open_witness :
  ∃ call,
    ShrikeAnthropic.stream
      (demo_client CLOSED
         (PostReturns {| status_code := 200;
                         json := Ok (PDict (dict_of [ ("status", PStr "ok") ])) |}))
      "claude-3-opus-20240229" 1024 [ user_message (PStr "Hello!") ] ∅
    = (Ok (ProviderResponse 1),
       [ EvPost (DEFAULT_ENDPOINT +:+ "/scan") (scan_body "Hello!"); EvProvider call ]) ∧
    ∀ message threat_type confidence violations,
      fst (ShrikeAnthropic.stream
             (demo_client CLOSED
                (PostReturns {| status_code := 200;
                                json := Ok (PDict (dict_of [ ("status", PStr "ok") ])) |}))
             "claude-3-opus-20240229" 1024 [ user_message (PStr "Hello!") ] ∅)
      ≠ Err (ShrikeBlockedError message threat_type confidence violations).
Proof.
  refine (proj2 missing_safe_key_fails_open demo_str "claude-3-opus-20240229" 1024 false ∅
            {| ep_name := "ShrikeAnthropic.messages.stream";
               ep_extract := ShrikeAnthropic._extract_user_content;
               ep_scan := ShrikeAnthropic._scan_messages;
               ep_call := λ self messages,
                 ShrikeAnthropic.stream self "claude-3-opus-20240229" 1024 messages ∅ |}
            (demo_client CLOSED
               (PostReturns {| status_code := 200;
                               json := Ok (PDict (dict_of [ ("status", PStr "ok") ])) |}))
            [ user_message (PStr "Hello!") ] "Hello!"
            {| status_code := 200; json := Ok (PDict (dict_of [ ("status", PStr "ok") ])) |}
            (dict_of [ ("status", PStr "ok") ]) _ _ _ _ _ _ _).
  - unfold entry_points. apply list_elem_of_further, list_elem_of_here.
  - vm_compute. reflexivity.
  - vm_compute. discriminate.
  - reflexivity.
  - cbn [status_code]. lia.
  - reflexivity.
  - rewrite dict_of_lookup. reflexivity.
Defined.

(** ** The size guard *)

Lemma total_size_eq (content : string) (context : option string) :
  len content + match context with
                | Some c => if truthy (PStr c) then len c else 0
                | None => 0
                end
  = len content + context_len context.
Proof.
  destruct context as [[|a c]|]; reflexivity.
Qed.

Lemma scan_request_trace (self : Scanner.ScanClient) (prompt : string) (context : option string) :
  snd (Scanner.scan_request self prompt context)
  = [EvPost (Scanner._endpoint self +:+ "/scan") (scan_payload prompt context)].
Proof.
  unfold Scanner.scan_request, scan_payload, post, bind, lift, raise.
  destruct (Scanner._http self _ _) as [e|r]; [reflexivity|].
  destruct (raise_for_status r); [|reflexivity].
  destruct (json r) as [body|]; [|reflexivity].
  destruct (as_dict body) as [raw|]; [|reflexivity].
  destruct (sanitize_scan_response raw); reflexivity.
Qed.

Lemma dict_nonempty (d : gmap string pyval) (k : string) (v : pyval) :
  d !! k = Some v → truthy (PDict d) = true.
Proof.
  intros H. cbn [truthy]. rewrite bool_decide_eq_false_2; [reflexivity|].
  intros ->. rewrite lookup_empty in H. discriminate H.
Qed.

Lemma check_content_size_over (content : string) (context : option string) :
  len content + context_len context > Scanner.MAX_CONTENT_SIZE →
  ∃ v, Scanner._check_content_size content context = Some v ∧
       v !! "safe" = Some (PBool false) ∧
       v !! "threat_type" = Some (PStr "size_limit_exceeded") ∧
       v !! "confidence" = Some (PFloat 1.0) ∧
       v !! "severity" = None.
Proof.
  intros Hsize. unfold Scanner._check_content_size. rewrite total_size_eq.
  destruct (Z.gtb_spec (len content + context_len context) Scanner.MAX_CONTENT_SIZE) as [_|Hle];
    [|lia].
  eexists. split; [reflexivity|].
  repeat split; rewrite dict_of_lookup; reflexivity.
Qed.

(** The size guard and [scan]: when len(text) plus len(context) exceeds
    MAX_CONTENT_SIZE (100*1024), the guard returns an unsafe dict with
    threat_type "size_limit_exceeded", the score 1.0 and no severity key,
    and scan returns that dict as it is, without any network access;
    otherwise the guard returns None and scan proceeds to its one POST. *)
Lemma check_content_size_spec (content : string) (context : option string) :
  (len content + context_len context > Scanner.MAX_CONTENT_SIZE →
     ∃ v, Scanner._check_content_size content context = Some v ∧
          v !! "safe" = Some (PBool false) ∧
          v !! "threat_type" = Some (PStr "size_limit_exceeded") ∧
          v !! "confidence" = Some (PFloat 1.0) ∧
          v !! "severity" = None ∧
          ∀ self, Scanner.scan self content context = (Ok v, [])) ∧
  (len content + context_len context ≤ Scanner.MAX_CONTENT_SIZE →
     Scanner._check_content_size content context = None ∧
     ∀ self, snd (Scanner.scan self content context)
             = [EvPost (Scanner._endpoint self +:+ "/scan") (scan_payload content context)]).
Proof.
  split; intros Hsize.
  - destruct (check_content_size_over content context Hsize)
      as (v & Hv & Hsafe & Htt & Hc & Hsev).
    exists v. repeat (split; [assumption|]).
    intros self. unfold Scanner.scan. rewrite Hv, (dict_nonempty v "safe" (PBool false) Hsafe).
    reflexivity.
  - unfold Scanner.scan, Scanner._check_content_size. rewrite total_size_eq.
    destruct (Z.gtb_spec (len content + context_len context) Scanner.MAX_CONTENT_SIZE) as [Hgt|_];
      [lia|].
    split; [reflexivity|]. intros self. apply scan_request_trace.
Qed.

Lemma len_oversized : len oversized = 102401.
Proof. vm_compute. reflexivity. Qed.

Lemma sanitize_oversized_result :
  sanitize_scan_response oversized_result = Ok oversized_verdict.
Proof.
  assert (Hg : default unknown_guidance (THREAT_GUIDANCE !! "size_limit_exceeded")
               = "The content exceeds the maximum allowed size.")
    by (vm_compute; reflexivity).
  assert (Hr : oversized_result !! "reason"
               = Some (PStr "Content too large (100KB > 100KB limit)"))
    by (unfold oversized_result; rewrite dict_of_lookup; reflexivity).
  rewrite (sanitize_unsafe_intro oversized_result "size_limit_exceeded" "high" "low").
  - rewrite Hg, Hr. reflexivity.
  - unfold raw_safe, oversized_result. rewrite dict_of_lookup. reflexivity.
  - unfold oversized_result. rewrite dict_of_lookup. vm_compute. reflexivity.
  - unfold oversized_result. rewrite dict_of_lookup. vm_compute. reflexivity.
  - vm_compute. reflexivity.
Qed.

(** C3: the code fails the claim at a text of 102401 characters with no
    context. The size guard builds an unsafe dict without any network
    access, and ScanClient.scan returns that dict as built: it has no
    severity key, where the claim has "low", it carries the score 1.0,
    where the claim has "high", and it still has its violations list. The
    other return path of scan passes its dict through
    sanitize_scan_response, and the same step applied to the guard's dict
    gives exactly the verdict of the claim: threat_type
    "size_limit_exceeded", severity "low", confidence "high", no
    violations. *)
Theorem scan_oversized_not_sanitized :
  Scanner._check_content_size oversized None = Some oversized_result ∧
  (∀ self, Scanner.scan self oversized None = (Ok oversized_result, [])) ∧
  oversized_result !! "threat_type" = Some (PStr "size_limit_exceeded") ∧
  oversized_result !! "severity" = None ∧
  oversized_result !! "confidence" = Some (PFloat 1.0) ∧
  is_Some (oversized_result !! "violations") ∧
  sanitize_scan_response oversized_result = Ok oversized_verdict ∧
  oversized_verdict !! "threat_type" = Some (PStr "size_limit_exceeded") ∧
  oversized_verdict !! "severity" = Some (PStr "low") ∧
  oversized_verdict !! "confidence" = Some (PStr "high") ∧
  oversized_verdict !! "violations" = None ∧
  (∀ self, Scanner.scan self oversized None ≠ (Ok oversized_verdict, [])).
Proof.
  assert (Hguard : Scanner._check_content_size oversized None = Some oversized_result).
  { unfold Scanner._check_content_size. rewrite len_oversized. vm_compute. reflexivity. }
  assert (Hscan : ∀ self, Scanner.scan self oversized None = (Ok oversized_result, [])).
  { intros self. unfold Scanner.scan. rewrite Hguard.
    rewrite (dict_nonempty oversized_result "safe" (PBool false)); [reflexivity|].
    unfold oversized_result. rewrite dict_of_lookup. reflexivity. }
  assert (Hsev : oversized_result !! "severity" = None)
    by (unfold oversized_result; rewrite dict_of_lookup; reflexivity).
  assert (Hsev' : oversized_verdict !! "severity" = Some (PStr "low"))
    by (unfold oversized_verdict; rewrite dict_of_lookup; reflexivity).
  split; [exact Hguard|]. split; [exact Hscan|].
  split; [unfold oversized_result; rewrite dict_of_lookup; reflexivity|].
  split; [exact Hsev|].
  split; [unfold oversized_result; rewrite dict_of_lookup; reflexivity|].
  split; [unfold oversized_result; rewrite dict_of_lookup; eexists; reflexivity|].
  split; [exact sanitize_oversized_result|].
  split; [unfold oversized_verdict; rewrite dict_of_lookup; reflexivity|].
  split; [exact Hsev'|].
  split; [unfold oversized_verdict; rewrite dict_of_lookup; reflexivity|].
  split; [unfold oversized_verdict; rewrite dict_of_lookup; reflexivity|].
  intros self H. rewrite Hscan in H. apply pair_equal_spec in H as [H _].
  apply Ok_inj in H. rewrite <- H, Hsev in Hsev'. discriminate Hsev'.
Qed.

(* ===================================================================== *)
(** * Further properties of the code *)
(* ===================================================================== *)

(** ** More on the sanitizer *)

Lemma display_lookup_In {V} (k : string) (v : V) (items : list (string * V)) :
  display_lookup k items = Some v → ∃ k', In (k', v) items.
Proof.
  induction items as [|[k' v'] rest IH]; [discriminate|].
  cbn [display_lookup]. destruct (display_lookup k rest) as [w|].
  - intros H. injection H as ->. destruct (IH eq_refl) as [k'' Hk]. exists k''. right. exact Hk.
  - destruct (String.eqb k' k); [|discriminate].
    intros H. injection H as ->. exists k'. left. reflexivity.
Qed.

Lemma display_values_forall {V} (P : V → bool) (items : list (string * V)) :
  forallb (λ kv, P kv.2) items = true →
  ∀ k v, display_lookup k items = Some v → P v = true.
Proof.
  intros H k v Hk. apply display_lookup_In in Hk as [k' Hk'].
  rewrite forallb_forall in H. exact (H _ Hk').
Qed.

Lemma elem_of_by_eqb (s : string) (l : list string) :
  existsb (String.eqb s) l = true → s ∈ l.
Proof.
  intros H. apply existsb_exists in H as (c & Hc & Heq).
  apply String.eqb_eq in Heq. subst c. apply list_elem_of_In. exact Hc.
Qed.

Lemma eqb_by_elem_of (s : string) (l : list string) :
  s ∈ l → existsb (String.eqb s) l = true.
Proof.
  intros H. apply existsb_exists. exists s. split; [apply list_elem_of_In, H|].
  apply String.eqb_refl.
Qed.

Lemma severity_table_levels (tt sv : string) :
  THREAT_SEVERITY !! tt = Some sv → sv ∈ valid_severities.
Proof.
  unfold THREAT_SEVERITY. rewrite dict_of_lookup. intros H.
  apply elem_of_by_eqb.
  refine (display_values_forall (λ v, existsb (String.eqb v) valid_severities) _ _ tt sv H).
  vm_compute. reflexivity.
Qed.

Lemma lower_level_nonempty (s : string) : lower s ∈ valid_severities → truthy (PStr s) = true.
Proof.
  destruct s; [|reflexivity]. intros H. apply eqb_by_elem_of in H.
  vm_compute in H. discriminate H.
Qed.

Lemma derive_severity_range (threat_type : string) (raw : pyval) (severity : string) :
  derive_severity threat_type raw = Ok severity → severity ∈ valid_severities.
Proof.
  assert (Htable : default "medium" (THREAT_SEVERITY !! threat_type) ∈ valid_severities).
  { destruct (THREAT_SEVERITY !! threat_type) as [sv|] eqn:E.
    - exact (severity_table_levels _ _ E).
    - apply elem_of_by_eqb. reflexivity. }
  unfold derive_severity. destruct (truthy raw).
  - destruct raw as [|b|z|f|s|l|d].
    1-4, 6-7: intros H; discriminate H.
    destruct (bool_decide (lower s ∈ valid_severities)) eqn:E.
    + intros H%Ok_inj. subst severity. apply bool_decide_eq_true_1 in E. exact E.
    + intros H%Ok_inj. subst severity. exact Htable.
  - intros H%Ok_inj. subst severity. exact Htable.
Qed.

(** X1: derive_severity returns a backend severity that is critical,
    high, medium or low in any letter case, lower-cased; for any other str
    and for any falsy value it returns the THREAT_SEVERITY entry of the
    threat type, "medium" when there is none; whatever it returns is one of
    the four levels; a truthy value that is not a str raises
    AttributeError. *)
Theorem derive_severity_levels (threat_type : string) :
  (∀ s, lower s ∈ valid_severities →
        derive_severity threat_type (PStr s) = Ok (lower s)) ∧
  (∀ s, lower s ∉ valid_severities →
        derive_severity threat_type (PStr s)
        = Ok (default "medium" (THREAT_SEVERITY !! threat_type))) ∧
  (∀ raw, truthy raw = false →
        derive_severity threat_type raw
        = Ok (default "medium" (THREAT_SEVERITY !! threat_type))) ∧
  (∀ raw severity, derive_severity threat_type raw = Ok severity →
        severity ∈ valid_severities) ∧
  (∀ raw, truthy raw = true → (∀ s, raw ≠ PStr s) →
        derive_severity threat_type raw = AttributeError raw "lower").
Proof.
  split.
  { intros s Hs. unfold derive_severity. rewrite (lower_level_nonempty s Hs).
    rewrite bool_decide_eq_true_2 by exact Hs. reflexivity. }
  split.
  { intros s Hs. unfold derive_severity. destruct (truthy (PStr s)); [|reflexivity].
    rewrite bool_decide_eq_false_2 by exact Hs. reflexivity. }
  split.
  { intros raw Hr. unfold derive_severity. rewrite Hr. reflexivity. }
  split.
  { intros raw sv. apply derive_severity_range. }
  intros raw Hr Hns. unfold derive_severity. rewrite Hr.
  destruct raw as [|b|z|f|s|l|d]; try reflexivity. destruct (Hns s eq_refl).
Qed.

Lemma derive_severity_levels_witness :
  derive_severity "toxicity" (PStr "LOW") = Ok "low" ∧
  derive_severity "sql_injection" (PStr "urgent") = Ok "critical" ∧
  derive_severity "sql_injection" PNone = Ok "critical" ∧
  derive_severity "toxicity" (PInt 3) = AttributeError (PInt 3) "lower".
Proof.
  split; [|split; [|split]].
  - apply (proj1 (derive_severity_levels "toxicity") "LOW").
    apply elem_of_by_eqb. vm_compute. reflexivity.
  - apply (proj1 (proj2 (derive_severity_levels "sql_injection")) "urgent").
    intros H. apply eqb_by_elem_of in H. vm_compute in H. discriminate H.
  - apply (proj1 (proj2 (proj2 (derive_severity_levels "sql_injection"))) PNone).
    reflexivity.
  - apply (proj2 (proj2 (proj2 (proj2 (derive_severity_levels "toxicity")))) (PInt 3)).
    + reflexivity.
    + intros s H. discriminate H.
Defined.

Lemma canonical_has_guidance (tt : string) :
  tt ∈ canonical_threat_types → ∃ g, THREAT_GUIDANCE !! tt = Some g.
Proof.
  intros H.
  assert (Hall : forallb (λ c, match THREAT_GUIDANCE !! c with Some _ => true | None => false end)
                   canonical_threat_types = true) by (vm_compute; reflexivity).
  rewrite forallb_forall in Hall. apply list_elem_of_In, Hall in H.
  destruct (THREAT_GUIDANCE !! tt) as [g|]; [eauto|discriminate H].
Qed.

(** X2: a sanitized unsafe verdict has exactly the six keys safe,
    threat_type, severity, confidence, reason, guidance: safe is False,
    threat_type a canonical category, severity one of the four levels,
    confidence a bucket, guidance the THREAT_GUIDANCE text of the category,
    and reason the raw reason when the key is present, else the guidance. *)
Theorem unsafe_verdict_schema (raw out : gmap string pyval) :
  raw_safe raw = false →
  sanitize_scan_response raw = Ok out →
  dom out = allowed_keys ∧
  out !! "safe" = Some (PBool false) ∧
  ∃ threat_type severity confidence guidance,
    out !! "threat_type" = Some (PStr threat_type) ∧
    threat_type ∈ canonical_threat_types ∧
    out !! "severity" = Some (PStr severity) ∧
    severity ∈ valid_severities ∧
    out !! "confidence" = Some (PStr confidence) ∧
    confidence ∈ confidence_buckets ∧
    THREAT_GUIDANCE !! threat_type = Some guidance ∧
    out !! "guidance" = Some (PStr guidance) ∧
    out !! "reason" = Some (default (PStr guidance) (raw !! "reason")).
Proof.
  intros Hs Hout.
  split; [rewrite (sanitize_dom raw out Hout), Hs; reflexivity|].
  destruct (sanitize_unsafe raw out Hs Hout) as (tt & sv & c & g & Htt & Hc & Hsv & Hg & ->).
  split; [rewrite dict_of_lookup; reflexivity|].
  pose proof (normalize_canonical _ _ Htt) as Hcan.
  destruct (canonical_has_guidance tt Hcan) as [g' Hg'].
  rewrite Hg' in Hg. cbn [default from_option id] in Hg. subst g.
  exists tt, sv, c, g'.
  split; [rewrite dict_of_lookup; reflexivity|].
  split; [exact Hcan|].
  split; [rewrite dict_of_lookup; reflexivity|].
  split; [exact (derive_severity_range _ _ _ Hsv)|].
  split; [rewrite dict_of_lookup; reflexivity|].
  split; [exact (bucket_confidence_range _ _ Hc)|].
  split; [exact Hg'|].
  split; rewrite dict_of_lookup; reflexivity.
Qed.

Lemma unsafe_verdict_schema_witness :
  dom sqli_verdict = allowed_keys ∧
  sqli_verdict !! "safe" = Some (PBool false) ∧
  ∃ threat_type severity confidence guidance,
    sqli_verdict !! "threat_type" = Some (PStr threat_type) ∧
    threat_type ∈ canonical_threat_types ∧
    sqli_verdict !! "severity" = Some (PStr severity) ∧
    severity ∈ valid_severities ∧
    sqli_verdict !! "confidence" = Some (PStr confidence) ∧
    confidence ∈ confidence_buckets ∧
    THREAT_GUIDANCE !! threat_type = Some guidance ∧
    sqli_verdict !! "guidance" = Some (PStr guidance) ∧
    sqli_verdict !! "reason" = Some (default (PStr guidance) (sqli_response !! "reason")).
Proof.
  apply (unsafe_verdict_schema sqli_response sqli_verdict).
  - unfold raw_safe, sqli_response. rewrite dict_of_lookup. reflexivity.
  - exact sanitize_sqli.
Defined.

Lemma normalize_is_ok (v : pyval) :
  is_ok (normalize_threat_type v)
  = negb (truthy v) || match v with PStr _ => true | _ => false end.
Proof.
  unfold normalize_threat_type.
  destruct v as [|b|z|f|s|l|d]; destruct (negb (truthy _)); reflexivity.
Qed.

Lemma derive_is_ok (threat_type : string) (v : pyval) :
  is_ok (derive_severity threat_type v)
  = negb (truthy v) || match v with PStr _ => true | _ => false end.
Proof.
  unfold derive_severity.
  destruct v as [|b|z|f|s|l|d]; destruct (truthy _); try reflexivity.
  destruct (bool_decide _); reflexivity.
Qed.

Lemma bucket_is_ok (v : pyval) :
  is_ok (bucket_confidence v)
  = match v with
    | PNone | PBool _ | PInt _ | PFloat _ => true
    | _ => false
    end.
Proof.
  unfold bucket_confidence, ge_float.
  destruct v as [|b|z|f|s|l|d]; cbn [result_bind]; try reflexivity;
    repeat match goal with
           | |- context [if ?c then _ else _] => destruct c; cbn [result_bind]
           end; reflexivity.
Qed.

Lemma is_ok_true {E A} (r : result E A) : is_ok r = true → ∃ a, r = Ok a.
Proof. destruct r; [eauto|discriminate]. Qed.

(** X3: sanitize_scan_response returns on every safe verdict; on an
    unsafe verdict it returns exactly when threat_type is falsy or a str,
    confidence is None or a number, and severity is falsy or a str, and
    raises otherwise. *)
Theorem sanitize_returns_iff (raw : gmap string pyval) :
  (raw_safe raw = true → ∃ out, sanitize_scan_response raw = Ok out) ∧
  (raw_safe raw = false →
     ((∃ out, sanitize_scan_response raw = Ok out) ↔ well_typed_fields raw = true)).
Proof.
  split.
  - intros Hs. eexists. apply sanitize_safe, Hs.
  - intros Hs. unfold well_typed_fields. split.
    + intros [out Hout].
      destruct (sanitize_unsafe raw out Hs Hout) as (tt & sv & c & g & Htt & Hc & Hsv & _).
      rewrite <- normalize_is_ok, <- bucket_is_ok, <- (derive_is_ok tt).
      rewrite Htt, Hc, Hsv. reflexivity.
    + intros H. apply andb_prop in H as [H Hsv]. apply andb_prop in H as [Htt Hc].
      rewrite <- normalize_is_ok in Htt. rewrite <- bucket_is_ok in Hc.
      apply is_ok_true in Htt as [tt Htt]. apply is_ok_true in Hc as [c Hc].
      rewrite <- (derive_is_ok tt) in Hsv. apply is_ok_true in Hsv as [sv Hsv].
      eexists. exact (sanitize_unsafe_intro raw tt c sv Hs Htt Hc Hsv).
Qed.

Lemma sanitize_returns_iff_witness :
  (∃ out, sanitize_scan_response (dict_of [ ("reason", PStr "fine") ]) = Ok out) ∧
  ((∃ out, sanitize_scan_response sqli_response = Ok out)
   ↔ well_typed_fields sqli_response = true).
Proof.
  split.
  - apply (proj1 (sanitize_returns_iff (dict_of [ ("reason", PStr "fine") ]))).
    unfold raw_safe. rewrite dict_of_lookup. reflexivity.
  - apply (proj2 (sanitize_returns_iff sqli_response)).
    unfold raw_safe, sqli_response. rewrite dict_of_lookup. reflexivity.
Defined.

(** X4: normalize_threat_type is idempotent: the category it returns is
    normalised to itself. *)
Theorem normalize_threat_type_idempotent (raw_type : pyval) (threat_type : string) :
  normalize_threat_type raw_type = Ok threat_type →
  normalize_threat_type (PStr threat_type) = Ok threat_type.
Proof.
  intros H. apply normalize_canonical in H.
  assert (Hall : forallb (λ c, match normalize_threat_type (PStr c) with
                               | Ok c' => String.eqb c' c
                               | Err _ => false
                               end) canonical_threat_types = true)
    by (vm_compute; reflexivity).
  rewrite forallb_forall in Hall. apply list_elem_of_In, Hall in H.
  destruct (normalize_threat_type (PStr threat_type)) as [c'|]; [|discriminate H].
  apply String.eqb_eq in H. subst c'. reflexivity.
Qed.

Lemma normalize_threat_type_idempotent_witness :
  normalize_threat_type (PStr "sql_injection") = Ok "sql_injection".
Proof.
  apply (normalize_threat_type_idempotent (PStr "Union-Injection") "sql_injection").
  vm_compute. reflexivity.
Defined.

(** ** More on the adapters *)

Lemma lstrip_all_space (s : string) : all_space s = true → lstrip s = "".
Proof.
  induction s as [|c s IH]; [reflexivity|].
  cbn [all_space lstrip]. intros H. apply andb_prop in H as [Hc Hs].
  rewrite Hc. exact (IH Hs).
Qed.

Lemma strip_all_space (s : string) : all_space s = true → strip s = "".
Proof. intros H. unfold strip. rewrite (lstrip_all_space s H). reflexivity. Qed.

Lemma remote_scan_outcome (self : Client) (prompt : string) :
  ∃ r d, _remote_scan self prompt = (r, EvPost (scan_url self) (scan_body prompt) :: d) ∧
         (d = [] ∨ ∃ m, d = [EvWarning m]) ∧
         match r with
         | Ok _ => True
         | Err e => _fail_mode self = CLOSED ∧ ∃ m, e = ShrikeScanError m
         end.
Proof.
  pose proof (scan_round_trip_trace self prompt) as Ht.
  destruct (scan_round_trip self prompt) as [[v|e] t] eqn:Hrt; cbn [snd] in Ht; subst t.
  - exists (Ok v), []. rewrite (remote_scan_ok _ _ _ _ Hrt). auto.
  - destruct (_fail_mode self) eqn:Hm.
    + rewrite (remote_scan_open _ _ _ _ Hrt Hm).
      eexists (Ok _), (open_diagnostics e). split; [reflexivity|]. split; [|exact I].
      destruct e; cbn [open_diagnostics]; eauto.
    + rewrite (remote_scan_closed _ _ _ _ Hrt Hm).
      eexists (Err _), []. split; [reflexivity|]. eauto.
Qed.

(** A pair listed among named arguments is one of them; a name is listed
    when it stands somewhere in the list. *)
Ltac named_cases H :=
  cbv beta iota delta [named_arguments String.eqb Ascii.eqb Bool.eqb andb orb] in H;
  repeat (apply elem_of_cons in H as [H|H]; [apply pair_equal_spec in H as [-> ->]|]);
  try (apply elem_of_nil in H; destruct H).

Ltac listed := repeat first [ apply list_elem_of_here | apply list_elem_of_further ].

Section MoreEntryPoints.

Variable builtins_str : pyval → string.
Variables (model : string) (max_tokens : Z) (stream : bool) (kwargs : gmap string pyval).

Abbreviation eps' := (entry_points builtins_str model max_tokens stream kwargs).

Lemma ep_call_forward (ep : entry_point) (messages : list (gmap string pyval)) :
  ep ∈ eps' →
  ∃ (call : provider_call) (message violations : gmap string pyval → pyval),
    (∀ self,
      ep_call ep self messages
      = let! scan_result := ep_scan ep self messages in
        if blocked scan_result then
          raise (ShrikeBlockedError (message scan_result)
                   (default PNone (scan_result !! "threat_type"))
                   (default PNone (scan_result !! "confidence"))
                   (violations scan_result))
        else call_provider self call) ∧
    Effects.kwargs call !! "messages" = Some (PList (PDict <$> messages)) ∧
    method call = wrapped_method (ep_name ep) ∧
    (∀ k v, (k, v) ∈ named_arguments (ep_name ep) model max_tokens messages stream →
            Effects.kwargs call !! k = Some v) ∧
    (∀ k, k ∉ (named_arguments (ep_name ep) model max_tokens messages stream).*1 →
          Effects.kwargs call !! k = kwargs !! k).
Proof.
  intros Hin. unfold entry_points in Hin.
  repeat (apply elem_of_cons in Hin as [->|Hin];
          [eexists _, (λ r, _), (λ r, _); split; [intros self; reflexivity|];
           cbn [Effects.kwargs method ep_name]; split; [|split; [reflexivity|split]];
           [ repeat first [ apply lookup_insert_eq
                          | rewrite lookup_insert_ne by (intros ?; discriminate) ]
           | intros k v Hk; named_cases Hk;
             repeat first [ apply lookup_insert_eq
                          | rewrite lookup_insert_ne by (intros ?; discriminate) ]
           | intros k Hk;
             repeat (rewrite lookup_insert_ne by (intros <-; apply Hk; listed));
             reflexivity ]|]).
  apply elem_of_nil in Hin. destruct Hin.
Qed.

Lemma ep_scan_outcome (ep : entry_point) (self : Client) (messages : list (gmap string pyval)) :
  ep ∈ eps' →
  (∃ e, ep_extract ep messages = Err e ∧ ep_scan ep self messages = (Err (Raised e), [])) ∨
  (∃ text, ep_extract ep messages = Ok text ∧ strip text = "" ∧
           ep_scan ep self messages = (Ok no_content_verdict, [])) ∨
  (∃ text, ep_extract ep messages = Ok text ∧ strip text ≠ "" ∧
           ep_scan ep self messages = _remote_scan self text).
Proof.
  intros Hin. rewrite (ep_scan_eq _ _ _ _ _ _ _ _ Hin).
  destruct (ep_extract ep messages) as [text|e]; [|left; eauto].
  right. destruct (String.eqb_spec (strip text) "") as [Hb|Hb].
  - left. exists text. rewrite (strip_blank _ Hb). auto.
  - right. exists text. rewrite (strip_nonblank _ Hb). auto.
Qed.

End MoreEntryPoints.

Lemma demo_create_listed :
  demo_create ∈ entry_points demo_str "claude-3-opus-20240229" 1024 false ∅.
Proof. apply list_elem_of_here. Qed.

Lemma demo_stream_listed :
  demo_stream ∈ entry_points demo_str "claude-3-opus-20240229" 1024 false stream_kwargs.
Proof. apply list_elem_of_further, list_elem_of_here. Qed.

Lemma demo_openai_create_listed (model : string) (max_tokens : Z)
    (kwargs : gmap string pyval) :
  demo_openai_create kwargs ∈ entry_points demo_str model max_tokens false kwargs.
Proof. do 4 apply list_elem_of_further. apply list_elem_of_here. Qed.

Lemma not_listed (k : string) (names : list string) :
  forallb (λ n, negb (String.eqb n k)) names = true → k ∉ names.
Proof.
  intros H Hin. apply list_elem_of_In in Hin.
  rewrite forallb_forall in H. specialize (H k Hin).
  rewrite String.eqb_refl in H. discriminate H.
Qed.

Section EntryPointProperties.

Variable builtins_str : pyval → string.
Variables (model : string) (max_tokens : Z) (stream : bool) (kwargs : gmap string pyval).

Abbreviation eps'' := (entry_points builtins_str model max_tokens stream kwargs).

(** X5: under fail mode OPEN, when the scan round trip of a non-blank
    user text fails, every entry point still calls the wrapped client, once,
    after the POST and the warning (if any), with the caller's messages, and
    returns or raises what the wrapped client does. *)
Theorem fail_open_delegates (ep : entry_point) (self : Client)
    (messages : list (gmap string pyval)) (text : string) (e : py_exn) (t : list event) :
  ep ∈ eps'' →
  ep_extract ep messages = Ok text → strip text ≠ "" →
  scan_round_trip self text = (Err e, t) →
  _fail_mode self = OPEN →
  ∃ call,
    ep_call ep self messages
    = (provider_outcome self call, t ++ open_diagnostics e ++ [EvProvider call]) ∧
    Effects.kwargs call !! "messages" = Some (PList (PDict <$> messages)).
Proof.
  intros Hin Hex Hb Hrt Hm.
  destruct (ep_call_forward _ _ _ _ _ ep messages Hin) as (call & msg & viol & Hcall & Hmsg & _).
  exists call. split; [|exact Hmsg].
  rewrite Hcall, (ep_scan_nonblank _ _ _ _ _ _ _ _ _ Hin Hex Hb),
    (remote_scan_open _ _ _ _ Hrt Hm).
  unfold bind. rewrite blocked_safe_true, call_provider_eq, <- app_assoc. reflexivity.
Qed.

(** X6: when the scan result is not blocked, every entry point calls the
    wrapped client once, after the effects of the scan: the method is the
    one the entry point wraps, each keyword argument the entry point names
    in its signature has the caller's value, and every other keyword
    argument of the caller is passed unchanged (so stream() forwards a
    caller's stream, and create of ShrikeAsyncOpenAI a caller's model and
    max_tokens); the entry point returns or raises what the wrapped client
    does. *)
Theorem safe_verdict_delegates (ep : entry_point) (self : Client)
    (messages : list (gmap string pyval)) (verdict : gmap string pyval) (t : list event) :
  ep ∈ eps'' →
  ep_scan ep self messages = (Ok verdict, t) → blocked verdict = false →
  ∃ call,
    ep_call ep self messages = (provider_outcome self call, t ++ [EvProvider call]) ∧
    method call = wrapped_method (ep_name ep) ∧
    Effects.kwargs call !! "messages" = Some (PList (PDict <$> messages)) ∧
    (∀ k v, (k, v) ∈ named_arguments (ep_name ep) model max_tokens messages stream →
            Effects.kwargs call !! k = Some v) ∧
    (∀ k, k ∉ (named_arguments (ep_name ep) model max_tokens messages stream).*1 →
          Effects.kwargs call !! k = kwargs !! k).
Proof.
  intros Hin Hscan Hb.
  destruct (ep_call_forward _ _ _ _ _ ep messages Hin)
    as (call & msg & viol & Hcall & Hmsg & Hmethod & Hnamed & Hkw).
  exists call. split; [|auto].
  rewrite Hcall, Hscan. unfold bind. rewrite Hb, call_provider_eq. reflexivity.
Qed.

(** X7: the effects of a call of an entry point are those of a scan (at
    most one POST, no call of the wrapped client), followed by at most one
    call of the wrapped client: the wrapped client is never called before
    the scan and never twice. *)
Theorem entry_point_effects (ep : entry_point) (self : Client)
    (messages : list (gmap string pyval)) :
  ep ∈ eps'' →
  ∃ scan_effects,
    scan_only scan_effects ∧
    (snd (ep_call ep self messages) = scan_effects ∨
     ∃ call, snd (ep_call ep self messages) = scan_effects ++ [EvProvider call]).
Proof.
  intros Hin.
  destruct (ep_call_eq _ _ _ _ _ ep messages Hin) as (call & msg & viol & Hcall).
  assert (Hscan : ∃ r pre, ep_scan ep self messages = (r, pre) ∧ scan_only pre).
  { destruct (ep_scan_outcome _ _ _ _ _ ep self messages Hin)
      as [(e & _ & ->)|[(text & _ & _ & ->)|(text & _ & _ & ->)]].
    - eexists _, []. split; [reflexivity|]. split; [reflexivity|cbn; lia].
    - eexists _, []. split; [reflexivity|]. split; [reflexivity|cbn; lia].
    - destruct (remote_scan_outcome self text) as (r & d & -> & Hd & _).
      eexists _, _. split; [reflexivity|].
      destruct Hd as [->|[m ->]]; split; cbn; (reflexivity || lia). }
  destruct Hscan as (r & pre & Hscan & Hpre). exists pre. split; [exact Hpre|].
  rewrite Hcall, Hscan. unfold bind. destruct r as [v|e]; [|left; reflexivity].
  destruct (blocked v).
  - left. cbn [raise snd]. apply app_nil_r.
  - right. exists call. rewrite call_provider_eq. reflexivity.
Qed.

(** X8: an entry point raises only a ShrikeBlockedError or a
    ShrikeScanError (the latter under CLOSED only), both without any call of
    the wrapped client, or the error of the text extraction before any
    effect, or the error of the wrapped client itself. *)
Theorem entry_point_errors (ep : entry_point) (self : Client)
    (messages : list (gmap string pyval)) (e : exn) (t : list event) :
  ep ∈ eps'' →
  ep_call ep self messages = (Err e, t) →
  (∃ message threat_type confidence violations,
     e = ShrikeBlockedError message threat_type confidence violations ∧
     provider_calls t = []) ∨
  (∃ message, e = ShrikeScanError message ∧ _fail_mode self = CLOSED ∧
     provider_calls t = []) ∨
  (∃ e', e = Raised e' ∧ ep_extract ep messages = Err e' ∧ t = []) ∨
  (∃ e' call, e = Raised e' ∧ _provider self call = Err e').
Proof.
  intros Hin.
  destruct (ep_call_eq _ _ _ _ _ ep messages Hin) as (call & msg & viol & Hcall).
  rewrite Hcall. unfold bind.
  destruct (ep_scan_outcome _ _ _ _ _ ep self messages Hin)
    as [(e' & Hex & ->)|[(text & _ & _ & ->)|(text & _ & _ & ->)]].
  - intros H. apply pair_equal_spec in H as [H <-]. injection H as <-.
    right. right. left. eauto.
  - unfold no_content_verdict. rewrite blocked_safe_true, call_provider_eq.
    intros H. apply pair_equal_spec in H as [H _]. unfold provider_outcome in H.
    destruct (_provider self call) as [r|e'] eqn:Hp; [discriminate H|].
    injection H as <-. right. right. right. eauto.
  - destruct (remote_scan_outcome self text) as (r & d & -> & Hd & Hr).
    assert (Hpc : provider_calls (EvPost (scan_url self) (scan_body text) :: d) = [])
      by (destruct Hd as [->|[m ->]]; reflexivity).
    destruct r as [v|e0].
    + destruct (blocked v).
      * cbn [raise]. rewrite app_nil_r. intros H. apply pair_equal_spec in H as [H <-].
        injection H as <-. left. eauto 10.
      * rewrite call_provider_eq. intros H. apply pair_equal_spec in H as [H _].
        unfold provider_outcome in H.
        destruct (_provider self call) as [r|e'] eqn:Hp; [discriminate H|].
        injection H as <-. right. right. right. eauto.
    + destruct Hr as (Hm & m & ->). intros H. apply pair_equal_spec in H as [H <-].
      injection H as <-. right. left. eauto.
Qed.

(** X9: whatever _scan_messages returns has a bool under "safe", which
    decides blocking, a "reason", and no key outside the six public
    ones. *)
Theorem scan_result_shape (ep : entry_point) (self : Client)
    (messages : list (gmap string pyval)) (verdict : gmap string pyval) (t : list event) :
  ep ∈ eps'' →
  ep_scan ep self messages = (Ok verdict, t) →
  ∃ safe : bool,
    verdict !! "safe" = Some (PBool safe) ∧
    blocked verdict = negb safe ∧
    is_Some (verdict !! "reason") ∧
    dom verdict ⊆ allowed_keys.
Proof.
  intros Hin Hscan.
  assert (Hsafe : ∀ r, ∃ safe : bool,
            dict_of [ ("safe", PBool true); ("reason", r) ] !! "safe" = Some (PBool safe) ∧
            blocked (dict_of [ ("safe", PBool true); ("reason", r) ]) = negb safe ∧
            is_Some (dict_of [ ("safe", PBool true); ("reason", r) ] !! "reason") ∧
            dom (dict_of [ ("safe", PBool true); ("reason", r) ]) ⊆ allowed_keys).
  { intros r. exists true. rewrite blocked_safe_true, !dict_of_lookup, dict_of_dom.
    repeat split; [eexists; reflexivity|].
    cbn. apply elem_of_subseteq. intros k. unfold allowed_keys.
    rewrite !elem_of_union, !elem_of_singleton, elem_of_empty. tauto. }
  destruct (ep_scan_outcome _ _ _ _ _ ep self messages Hin)
    as [(e' & _ & Heq)|[(text & _ & _ & Heq)|(text & _ & _ & Heq)]];
    rewrite Heq in Hscan.
  - discriminate Hscan.
  - apply pair_equal_spec in Hscan as [H _]. apply Ok_inj in H. subst verdict. apply Hsafe.
  - destruct (scan_round_trip self text) as [[v|e] t'] eqn:Hrt.
    + rewrite (remote_scan_ok _ _ _ _ Hrt) in Hscan.
      apply pair_equal_spec in Hscan as [H _]. apply Ok_inj in H. subst v.
      destruct (scan_round_trip_ok _ _ _ _ Hrt) as (raw & Hraw & _).
      destruct (raw_safe raw) eqn:Hs.
      * rewrite (sanitize_safe raw Hs) in Hraw. apply Ok_inj in Hraw. subst verdict.
        apply Hsafe.
      * pose proof (sanitize_dom raw verdict Hraw) as Hdom. rewrite Hs in Hdom.
        destruct (sanitize_unsafe raw verdict Hs Hraw) as (tt & sv & c & g & _ & _ & _ & _ & Hv).
        exists false. split; [subst verdict; rewrite dict_of_lookup; reflexivity|].
        split; [subst verdict; unfold blocked; rewrite dict_of_lookup; reflexivity|].
        split; [subst verdict; rewrite dict_of_lookup; eexists; reflexivity|].
        rewrite Hdom. reflexivity.
    + destruct (_fail_mode self) eqn:Hm.
      * rewrite (remote_scan_open _ _ _ _ Hrt Hm) in Hscan.
        apply pair_equal_spec in Hscan as [H _]. apply Ok_inj in H. subst verdict. apply Hsafe.
      * rewrite (remote_scan_closed _ _ _ _ Hrt Hm) in Hscan. discriminate Hscan.
Qed.

(** X10: when the extraction of the user text raises (a text part that
    is not a str), the entry point raises the same error with no POST, no
    warning and no call of the wrapped client. *)
Theorem extraction_error_before_effects (ep : entry_point) (self : Client)
    (messages : list (gmap string pyval)) (e : py_exn) :
  ep ∈ eps'' →
  ep_extract ep messages = Err e →
  ep_call ep self messages = (Err (Raised e), []).
Proof.
  intros Hin Hex.
  destruct (ep_call_eq _ _ _ _ _ ep messages Hin) as (call & msg & viol & Hcall).
  rewrite Hcall, (ep_scan_eq _ _ _ _ _ _ _ _ Hin), Hex. reflexivity.
Qed.

(** X11: when the extracted user text consists of whitespace only, an
    entry point sends nothing to the scan backend and calls the wrapped
    client with the caller's messages. *)
Theorem whitespace_only_not_scanned (ep : entry_point) (self : Client)
    (messages : list (gmap string pyval)) (text : string) :
  ep ∈ eps'' →
  ep_extract ep messages = Ok text → all_space text = true →
  ∃ call,
    ep_call ep self messages = (provider_outcome self call, [EvProvider call]) ∧
    Effects.kwargs call !! "messages" = Some (PList (PDict <$> messages)).
Proof.
  intros Hin Hex Hws.
  destruct (ep_call_forward _ _ _ _ _ ep messages Hin) as (call & msg & viol & Hcall & Hmsg & _).
  exists call. split; [|exact Hmsg].
  rewrite Hcall, (ep_scan_eq _ _ _ _ _ _ _ _ Hin), Hex,
    (strip_blank _ (strip_all_space _ Hws)).
  unfold bind, ret, no_content_verdict. rewrite blocked_safe_true, call_provider_eq. reflexivity.
Qed.

End EntryPointProperties.

Lemma fail_open_delegates_witness :
  ∃ call,
    ep_call demo_create
      (demo_client OPEN (PostRaises (TimeoutException "timed out")))
      [ user_message (PStr "Hello!") ]
    = (provider_outcome (demo_client OPEN (PostRaises (TimeoutException "timed out"))) call,
       [ EvPost (DEFAULT_ENDPOINT +:+ "/scan") (scan_body "Hello!") ]
       ++ open_diagnostics (TimeoutException "timed out") ++ [EvProvider call]) ∧
    Effects.kwargs call !! "messages"
    = Some (PList (PDict <$> [ user_message (PStr "Hello!") ])).
Proof.
  apply (fail_open_delegates demo_str "claude-3-opus-20240229" 1024 false ∅ demo_create
           (demo_client OPEN (PostRaises (TimeoutException "timed out")))
           [ user_message (PStr "Hello!") ] "Hello!").
  - exact demo_create_listed.
  - vm_compute. reflexivity.
  - vm_compute. discriminate.
  - apply scan_round_trip_raises. reflexivity.
  - reflexivity.
Defined.

Lemma safe_verdict_delegates_witness :
  (∃ call,
     ep_call demo_stream (demo_client CLOSED (backend_returns clean_response))
       [ user_message (PStr "Hello") ]
     = (provider_outcome (demo_client CLOSED (backend_returns clean_response)) call,
        [EvPost (DEFAULT_ENDPOINT +:+ "/scan") (scan_body "Hello")] ++ [EvProvider call]) ∧
     method call = "messages.stream" ∧
     Effects.kwargs call !! "model" = Some (PStr "claude-3-opus-20240229") ∧
     Effects.kwargs call !! "max_tokens" = Some (PInt 1024) ∧
     Effects.kwargs call !! "messages" = Some (PList [ PDict (user_message (PStr "Hello")) ]) ∧
     Effects.kwargs call !! "stream" = Some (PBool true) ∧
     Effects.kwargs call !! "top_k" = Some (PInt 5)) ∧
  (∃ call,
     ep_call (demo_openai_create openai_kwargs)
       (demo_client CLOSED (backend_returns clean_response)) [ user_message (PStr "Hello") ]
     = (provider_outcome (demo_client CLOSED (backend_returns clean_response)) call,
        [EvPost (DEFAULT_ENDPOINT +:+ "/scan") (scan_body "Hello")] ++ [EvProvider call]) ∧
     method call = "chat.completions.create" ∧
     Effects.kwargs call !! "messages" = Some (PList [ PDict (user_message (PStr "Hello")) ]) ∧
     Effects.kwargs call !! "stream" = Some (PBool false) ∧
     Effects.kwargs call !! "model" = Some (PStr "gpt-4") ∧
     Effects.kwargs call !! "max_tokens" = Some (PInt 64)).
Proof.
  split.
  - destruct (safe_verdict_delegates demo_str "claude-3-opus-20240229" 1024 false stream_kwargs
                demo_stream (demo_client CLOSED (backend_returns clean_response))
                [ user_message (PStr "Hello") ] clean_verdict
                [EvPost (DEFAULT_ENDPOINT +:+ "/scan") (scan_body "Hello")])
      as (call & Hcall & Hmethod & Hmsg & Hnamed & Hkw).
    + exact demo_stream_listed.
    + vm_compute. reflexivity.
    + apply blocked_safe_true.
    + exists call. split; [exact Hcall|]. split; [exact Hmethod|].
      split; [apply Hnamed; apply list_elem_of_here|].
      split; [apply Hnamed; apply list_elem_of_further, list_elem_of_here|].
      split; [exact Hmsg|].
      split; (rewrite Hkw; [unfold stream_kwargs; rewrite dict_of_lookup; reflexivity|]);
        apply not_listed; reflexivity.
  - destruct (safe_verdict_delegates demo_str "claude-3-opus-20240229" 1024 false openai_kwargs
                (demo_openai_create openai_kwargs)
                (demo_client CLOSED (backend_returns clean_response))
                [ user_message (PStr "Hello") ] clean_verdict
                [EvPost (DEFAULT_ENDPOINT +:+ "/scan") (scan_body "Hello")])
      as (call & Hcall & Hmethod & Hmsg & Hnamed & Hkw).
    + apply demo_openai_create_listed.
    + vm_compute. reflexivity.
    + apply blocked_safe_true.
    + exists call. split; [exact Hcall|]. split; [exact Hmethod|].
      split; [exact Hmsg|].
      split; [apply Hnamed; apply list_elem_of_further, list_elem_of_here|].
      split; (rewrite Hkw; [unfold openai_kwargs; rewrite dict_of_lookup; reflexivity|]);
        apply not_listed; reflexivity.
Defined.

Lemma entry_point_effects_witness :
  ∃ scan_effects,
    scan_only scan_effects ∧
    (snd (ep_call demo_create (demo_client OPEN (PostReturns {| status_code := 503; json := Ok PNone |}))
            [ user_message (PStr "Hello!") ]) = scan_effects ∨
     ∃ call,
       snd (ep_call demo_create
              (demo_client OPEN (PostReturns {| status_code := 503; json := Ok PNone |}))
              [ user_message (PStr "Hello!") ]) = scan_effects ++ [EvProvider call]).
Proof.
  apply (entry_point_effects demo_str "claude-3-opus-20240229" 1024 false ∅ demo_create).
  exact demo_create_listed.
Defined.

Lemma entry_point_errors_witness :
  (∃ message threat_type confidence violations,
     ShrikeScanError "Scan API returned error: 503"
     = ShrikeBlockedError message threat_type confidence violations ∧
     provider_calls [ EvPost (DEFAULT_ENDPOINT +:+ "/scan") (scan_body "Hello!") ] = []) ∨
  (∃ message, ShrikeScanError "Scan API returned error: 503" = ShrikeScanError message ∧
     _fail_mode (demo_client CLOSED (PostReturns {| status_code := 503; json := Ok PNone |}))
     = CLOSED ∧
     provider_calls [ EvPost (DEFAULT_ENDPOINT +:+ "/scan") (scan_body "Hello!") ] = []) ∨
  (∃ e', ShrikeScanError "Scan API returned error: 503" = Raised e' ∧
     ep_extract demo_create [ user_message (PStr "Hello!") ] = Err e' ∧
     [ EvPost (DEFAULT_ENDPOINT +:+ "/scan") (scan_body "Hello!") ] = []) ∨
  (∃ e' call, ShrikeScanError "Scan API returned error: 503" = Raised e' ∧
     _provider (demo_client CLOSED (PostReturns {| status_code := 503; json := Ok PNone |})) call
     = Err e').
Proof.
  apply (entry_point_errors demo_str "claude-3-opus-20240229" 1024 false ∅ demo_create
           (demo_client CLOSED (PostReturns {| status_code := 503; json := Ok PNone |}))
           [ user_message (PStr "Hello!") ]).
  - exact demo_create_listed.
  - vm_compute. reflexivity.
Defined.

Lemma scan_result_shape_witness :
  (ep_scan demo_create (demo_client CLOSED (backend_returns sqli_response))
     [ user_message (PStr "' OR 1=1 --") ]
   = (Ok sqli_verdict, [EvPost (DEFAULT_ENDPOINT +:+ "/scan") (scan_body "' OR 1=1 --")]) ∧
   ∃ safe : bool,
     sqli_verdict !! "safe" = Some (PBool safe) ∧
     blocked sqli_verdict = negb safe ∧
     is_Some (sqli_verdict !! "reason") ∧
     dom sqli_verdict ⊆ allowed_keys) ∧
  (ep_scan (demo_openai_create ∅) (demo_client OPEN (PostRaises (TimeoutException "timed out")))
     [ user_message (PStr "Hello") ]
   = (Ok timeout_verdict,
      [EvPost (DEFAULT_ENDPOINT +:+ "/scan") (scan_body "Hello");
       EvWarning "Scan request timed out, failing open (allowing request)"]) ∧
   ∃ safe : bool,
     timeout_verdict !! "safe" = Some (PBool safe) ∧
     blocked timeout_verdict = negb safe ∧
     is_Some (timeout_verdict !! "reason") ∧
     dom timeout_verdict ⊆ allowed_keys) ∧
  (ep_scan demo_stream (demo_client CLOSED (backend_returns clean_response))
     [ user_message (PStr "Hello") ]
   = (Ok clean_verdict, [EvPost (DEFAULT_ENDPOINT +:+ "/scan") (scan_body "Hello")]) ∧
   ∃ safe : bool,
     clean_verdict !! "safe" = Some (PBool safe) ∧
     blocked clean_verdict = negb safe ∧
     is_Some (clean_verdict !! "reason") ∧
     dom clean_verdict ⊆ allowed_keys).
Proof.
  assert (H1 : ep_scan demo_create (demo_client CLOSED (backend_returns sqli_response))
                 [ user_message (PStr "' OR 1=1 --") ]
               = (Ok sqli_verdict,
                  [EvPost (DEFAULT_ENDPOINT +:+ "/scan") (scan_body "' OR 1=1 --")]))
    by (vm_compute; reflexivity).
  assert (H2 : ep_scan (demo_openai_create ∅)
                 (demo_client OPEN (PostRaises (TimeoutException "timed out")))
                 [ user_message (PStr "Hello") ]
               = (Ok timeout_verdict,
                  [EvPost (DEFAULT_ENDPOINT +:+ "/scan") (scan_body "Hello");
                   EvWarning "Scan request timed out, failing open (allowing request)"]))
    by (vm_compute; reflexivity).
  assert (H3 : ep_scan demo_stream (demo_client CLOSED (backend_returns clean_response))
                 [ user_message (PStr "Hello") ]
               = (Ok clean_verdict, [EvPost (DEFAULT_ENDPOINT +:+ "/scan") (scan_body "Hello")]))
    by (vm_compute; reflexivity).
  split; [|split].
  - split; [exact H1|].
    exact (scan_result_shape demo_str "claude-3-opus-20240229" 1024 false ∅ demo_create
             _ _ _ _ demo_create_listed H1).
  - split; [exact H2|].
    exact (scan_result_shape demo_str "claude-3-opus-20240229" 1024 false ∅
             (demo_openai_create ∅) _ _ _ _ (demo_openai_create_listed _ _ _) H2).
  - split; [exact H3|].
    exact (scan_result_shape demo_str "claude-3-opus-20240229" 1024 false stream_kwargs
             demo_stream _ _ _ _ demo_stream_listed H3).
Defined.

Lemma extraction_error_before_effects_witness :
  ep_call demo_create (demo_client OPEN (PostRaises (TimeoutException "timed out")))
    [ user_message (PList [ PDict (dict_of [ ("type", PStr "text"); ("text", PNone) ]) ]) ]
  = (Err (Raised (Exception "TypeError"
                    "sequence item 0: expected str instance, NoneType found")), []).
Proof.
  apply (extraction_error_before_effects demo_str "claude-3-opus-20240229" 1024 false ∅
           demo_create).
  - exact demo_create_listed.
  - vm_compute. reflexivity.
Defined.

Lemma whitespace_only_not_scanned_witness :
  ∃ call,
    ep_call demo_create (demo_client CLOSED (PostRaises (TimeoutException "timed out")))
      [ user_message (PStr "   ") ]
    = (provider_outcome (demo_client CLOSED (PostRaises (TimeoutException "timed out"))) call,
       [EvProvider call]) ∧
    Effects.kwargs call !! "messages" = Some (PList (PDict <$> [ user_message (PStr "   ") ])).
Proof.
  apply (whitespace_only_not_scanned demo_str "claude-3-opus-20240229" 1024 false ∅ demo_create
           (demo_client CLOSED (PostRaises (TimeoutException "timed out")))
           [ user_message (PStr "   ") ] "   ").
  - exact demo_create_listed.
  - vm_compute. reflexivity.
  - reflexivity.
Defined.

(** ** More on the extractors *)

Lemma message_texts_non_user (p : bool) (m : gmap string pyval) :
  eq_str (default PNone (m !! "role")) "user" = false → message_texts p m = [].
Proof. intros H. unfold message_texts. rewrite H. reflexivity. Qed.

Lemma user_text_drop (p : bool) (before after : list (gmap string pyval))
    (m : gmap string pyval) :
  eq_str (default PNone (m !! "role")) "user" = false →
  user_text p (before ++ m :: after) = user_text p (before ++ after).
Proof.
  intros H. unfold user_text. rewrite !map_app, !concat_app. cbn [map concat].
  rewrite (message_texts_non_user p m H). reflexivity.
Qed.

Lemma anthropic_extract_eq (messages : list (gmap string pyval)) :
  ShrikeAnthropic._extract_user_content messages = user_text true messages.
Proof.
  unfold ShrikeAnthropic._extract_user_content. rewrite anthropic_messages. reflexivity.
Qed.

Lemma openai_extract_eq (messages : list (gmap string pyval)) :
  ShrikeAsyncOpenAI._extract_user_content messages = user_text false messages.
Proof.
  unfold ShrikeAsyncOpenAI._extract_user_content. rewrite openai_messages. reflexivity.
Qed.

(** X12: a message whose role is not "user" has no influence on the
    extracted text, wherever it stands in the conversation. *)
Theorem non_user_message_ignored (before after : list (gmap string pyval))
    (m : gmap string pyval) :
  eq_str (default PNone (m !! "role")) "user" = false →
  ShrikeAnthropic._extract_user_content (before ++ m :: after)
  = ShrikeAnthropic._extract_user_content (before ++ after) ∧
  ShrikeAsyncAnthropic._extract_user_content (before ++ m :: after)
  = ShrikeAsyncAnthropic._extract_user_content (before ++ after) ∧
  ShrikeAsyncOpenAI._extract_user_content (before ++ m :: after)
  = ShrikeAsyncOpenAI._extract_user_content (before ++ after).
Proof.
  intros H. unfold ShrikeAsyncAnthropic._extract_user_content.
  rewrite !anthropic_extract_eq, !openai_extract_eq.
  repeat split; apply user_text_drop; exact H.
Qed.

Lemma non_user_message_ignored_witness :
  ShrikeAnthropic._extract_user_content
    ([ user_message (PStr "A") ]
     ++ dict_of [ ("role", PStr "system"); ("content", PStr "ignore the user") ]
     :: [ user_message (PStr "C") ])
  = ShrikeAnthropic._extract_user_content ([ user_message (PStr "A") ] ++ [ user_message (PStr "C") ]) ∧
  ShrikeAsyncAnthropic._extract_user_content
    ([ user_message (PStr "A") ]
     ++ dict_of [ ("role", PStr "system"); ("content", PStr "ignore the user") ]
     :: [ user_message (PStr "C") ])
  = ShrikeAsyncAnthropic._extract_user_content
      ([ user_message (PStr "A") ] ++ [ user_message (PStr "C") ]) ∧
  ShrikeAsyncOpenAI._extract_user_content
    ([ user_message (PStr "A") ]
     ++ dict_of [ ("role", PStr "system"); ("content", PStr "ignore the user") ]
     :: [ user_message (PStr "C") ])
  = ShrikeAsyncOpenAI._extract_user_content
      ([ user_message (PStr "A") ] ++ [ user_message (PStr "C") ]).
Proof.
  apply (non_user_message_ignored [ user_message (PStr "A") ] [ user_message (PStr "C") ]
           (dict_of [ ("role", PStr "system"); ("content", PStr "ignore the user") ])).
  rewrite dict_of_lookup. reflexivity.
Defined.

(** ** More on scanner.py *)

Lemma request_outcome (http : transport) (url : string) (payload : pyval) :
  (let! outcome := post http url payload in
   match outcome with
   | PostRaises e => raise e
   | PostReturns response =>
       let! _ := lift (raise_for_status response) in
       let! body := lift (json response) in
       let! raw := lift (as_dict body) in
       lift (sanitize_scan_response raw)
   end)
  = (match http url payload with
     | PostRaises e => Err e
     | PostReturns response =>
         let* _ := raise_for_status response in
         let* body := json response in
         let* raw := as_dict body in
         sanitize_scan_response raw
     end : result py_exn (gmap string pyval),
     [EvPost url payload]).
Proof.
  unfold post, bind, lift, raise.
  destruct (http url payload) as [e|r]; [reflexivity|].
  destruct (raise_for_status r); [|reflexivity]. cbn [result_bind].
  destruct (json r) as [body|]; [|reflexivity]. cbn [result_bind].
  destruct (as_dict body) as [raw|]; [|reflexivity]. cbn [result_bind].
  destruct (sanitize_scan_response raw); reflexivity.
Qed.

Lemma scan_within_size (self : Scanner.ScanClient) (prompt : string) (context : option string) :
  len prompt + context_len context ≤ Scanner.MAX_CONTENT_SIZE →
  Scanner.scan self prompt context = Scanner.scan_request self prompt context.
Proof.
  intros Hsize. unfold Scanner.scan, Scanner._check_content_size. rewrite total_size_eq.
  destruct (Z.gtb_spec (len prompt + context_len context) Scanner.MAX_CONTENT_SIZE); [lia|].
  reflexivity.
Qed.

Lemma scan_request_eq (self : Scanner.ScanClient) (prompt : string) (context : option string) :
  Scanner.scan_request self prompt context
  = (match Scanner._http self (Scanner._endpoint self +:+ "/scan") (scan_payload prompt context) with
     | PostRaises e => Err e
     | PostReturns response =>
         let* _ := raise_for_status response in
         let* body := json response in
         let* raw := as_dict body in
         sanitize_scan_response raw
     end,
     [EvPost (Scanner._endpoint self +:+ "/scan") (scan_payload prompt context)]).
Proof.
  unfold Scanner.scan_request, scan_payload.
  destruct context as [c|]; [destruct (truthy (PStr c))|]; apply request_outcome.
Qed.

(** X13: ScanClient.scan has no failure policy: for content within the
    size limit it makes one POST to <endpoint>/scan and lets a transport
    error, an HTTP status outside 200..299 and a JSON decoding error
    propagate unchanged; a decoded body goes through
    sanitize_scan_response. *)
Theorem scan_client_propagates (self : Scanner.ScanClient) (prompt : string)
    (context : option string) :
  len prompt + context_len context ≤ Scanner.MAX_CONTENT_SIZE →
  let url := Scanner._endpoint self +:+ "/scan" in
  let body := scan_payload prompt context in
  (∀ e, Scanner._http self url body = PostRaises e →
        Scanner.scan self prompt context = (Err e, [EvPost url body])) ∧
  (∀ r, Scanner._http self url body = PostReturns r → ¬ (200 ≤ status_code r ≤ 299) →
        Scanner.scan self prompt context
        = (Err (HTTPStatusError (status_code r)), [EvPost url body])) ∧
  (∀ r e, Scanner._http self url body = PostReturns r → 200 ≤ status_code r ≤ 299 →
        json r = Err e →
        Scanner.scan self prompt context = (Err e, [EvPost url body])) ∧
  (∀ r raw, Scanner._http self url body = PostReturns r → 200 ≤ status_code r ≤ 299 →
        json r = Ok (PDict raw) →
        Scanner.scan self prompt context = (sanitize_scan_response raw, [EvPost url body])).
Proof.
  intros Hsize url body. rewrite (scan_within_size _ _ _ Hsize), scan_request_eq.
  fold url. fold body.
  split; [intros e ->; reflexivity|].
  split; [intros r -> Hs; rewrite (raise_for_status_err _ Hs); reflexivity|].
  split; [intros r e -> Hs Hj; rewrite (raise_for_status_ok _ Hs), Hj; reflexivity|].
  intros r raw -> Hs Hj. rewrite (raise_for_status_ok _ Hs), Hj. reflexivity.
Qed.

Lemma scan_client_propagates_witness :
  Scanner.scan (demo_scan_client (PostRaises (TimeoutException "timed out"))) "Hello!" None
  = (Err (TimeoutException "timed out"),
     [EvPost (Scanner._endpoint (demo_scan_client (PostRaises (TimeoutException "timed out")))
              +:+ "/scan") (scan_payload "Hello!" None)]).
Proof.
  refine (proj1 (scan_client_propagates
            (demo_scan_client (PostRaises (TimeoutException "timed out"))) "Hello!" None _)
            (TimeoutException "timed out") _).
  - vm_compute. discriminate.
  - reflexivity.
Defined.

Lemma specialized_request_eq (self : Scanner.ScanClient) (payload : gmap string pyval) :
  Scanner.specialized_request self payload
  = (match Scanner._http self (specialized_url (Scanner._endpoint self)) (PDict payload) with
     | PostRaises e => Err e
     | PostReturns response =>
         let* _ := raise_for_status response in
         let* body := json response in
         let* raw := as_dict body in
         sanitize_scan_response raw
     end,
     [EvPost (specialized_url (Scanner._endpoint self)) (PDict payload)]).
Proof. apply request_outcome. Qed.

Lemma context_len_has_text (content : option string) :
  match content with
  | Some c => if truthy (PStr c) then len c else 0
  | None => 0
  end = context_len content.
Proof. destruct content as [[|a c]|]; reflexivity. Qed.

(** X14: ScanClient.scan_sql and ScanClient.scan_file return the
    size_limit_exceeded verdict without any POST when the content is over
    the limit (scan_file counts path and content, scan_sql the query only);
    within the limit they make one POST to <endpoint>/api/scan/specialized
    whose content_type is "sql", and "file_content" or "file_path" as the
    file content is non-empty or not, the content travelling under
    "context" only in the first case. *)
Theorem specialized_scans_guarded (self : Scanner.ScanClient) :
  (∀ query database allow_destructive,
     len query > Scanner.MAX_CONTENT_SIZE →
     ∃ v, Scanner.scan_sql self query database allow_destructive = (Ok v, []) ∧
          v !! "threat_type" = Some (PStr "size_limit_exceeded")) ∧
  (∀ path content,
     len path + context_len content > Scanner.MAX_CONTENT_SIZE →
     ∃ v, Scanner.scan_file self path content = (Ok v, []) ∧
          v !! "threat_type" = Some (PStr "size_limit_exceeded")) ∧
  (∀ query database allow_destructive,
     len query ≤ Scanner.MAX_CONTENT_SIZE →
     ∃ payload,
       snd (Scanner.scan_sql self query database allow_destructive)
       = [EvPost (specialized_url (Scanner._endpoint self)) (PDict payload)] ∧
       payload !! "content" = Some (PStr query) ∧
       payload !! "content_type" = Some (PStr "sql")) ∧
  (∀ path content,
     len path + context_len content ≤ Scanner.MAX_CONTENT_SIZE →
     ∃ payload,
       snd (Scanner.scan_file self path content)
       = [EvPost (specialized_url (Scanner._endpoint self)) (PDict payload)] ∧
       payload !! "content" = Some (PStr path) ∧
       payload !! "content_type"
       = Some (PStr (if has_text content then "file_content" else "file_path")) ∧
       payload !! "context"
       = (if has_text content
          then Some (PDict (dict_of [ ("file_content", PStr (default "" content)) ]))
          else None)).
Proof.
  split.
  { intros query database allow Hsize.
    destruct (check_content_size_over query None) as (v & Hv & Hsafe & Htt & _).
    { cbn [context_len]. lia. }
    exists v. split; [|exact Htt].
    unfold Scanner.scan_sql. rewrite Hv, (dict_nonempty v "safe" (PBool false) Hsafe).
    reflexivity. }
  split.
  { intros path content Hsize.
    destruct (check_content_size_over path content Hsize) as (v & Hv & Hsafe & Htt & _).
    exists v. split; [|exact Htt].
    unfold Scanner.scan_file. rewrite Hv, (dict_nonempty v "safe" (PBool false) Hsafe).
    reflexivity. }
  split.
  { intros query database allow Hsize.
    unfold Scanner.scan_sql, Scanner._check_content_size.
    destruct (Z.gtb_spec (len query + 0) Scanner.MAX_CONTENT_SIZE); [lia|].
    rewrite specialized_request_eq. cbn [snd]. eexists. split; [reflexivity|].
    rewrite !dict_of_lookup. split; reflexivity. }
  intros path content Hsize.
  unfold Scanner.scan_file, Scanner._check_content_size. rewrite context_len_has_text.
  destruct (Z.gtb_spec (len path + context_len content) Scanner.MAX_CONTENT_SIZE); [lia|].
  rewrite specialized_request_eq. cbn [snd]. eexists. split; [reflexivity|].
  destruct content as [c|]; cbn [has_text default from_option id];
    [destruct (truthy (PStr c))|].
  - rewrite !lookup_insert_ne by discriminate. rewrite lookup_insert_eq, !dict_of_lookup.
    repeat split; reflexivity.
  - rewrite !dict_of_lookup. repeat split; reflexivity.
  - rewrite !dict_of_lookup. repeat split; reflexivity.
Qed.

Lemma specialized_scans_guarded_witness :
  (∃ v, Scanner.scan_sql (demo_scan_client (PostRaises (TimeoutException "timed out")))
          oversized (Some "main") false = (Ok v, []) ∧
        v !! "threat_type" = Some (PStr "size_limit_exceeded")) ∧
  (∃ payload,
     snd (Scanner.scan_file (demo_scan_client (PostRaises (TimeoutException "timed out")))
            "/etc/passwd" (Some ""))
     = [EvPost (specialized_url
                  (Scanner._endpoint (demo_scan_client (PostRaises (TimeoutException "timed out")))))
          (PDict payload)] ∧
     payload !! "content" = Some (PStr "/etc/passwd") ∧
     payload !! "content_type" = Some (PStr "file_path") ∧
     payload !! "context" = None).
Proof.
  destruct (specialized_scans_guarded
              (demo_scan_client (PostRaises (TimeoutException "timed out"))))
    as (Hsql & _ & _ & Hfile).
  split.
  - apply Hsql. rewrite len_oversized. reflexivity.
  - apply (Hfile "/etc/passwd" (Some "")). vm_compute. discriminate.
Defined.

(** The headers of a scan request: five keys, the request id of the caller
    unless it is None or empty. *)
Lemma scan_headers_spec (version uuid4 shrike_api_key : string) (request_id : option string) :
  let headers := Scanner.get_scan_headers version uuid4 shrike_api_key request_id in
  dom headers = {[ "Authorization"; "Content-Type"; "X-Shrike-SDK"; "X-Shrike-SDK-Version";
                   "X-Shrike-Request-ID" ]} ∧
  headers !! "Authorization" = Some ("Bearer " +:+ shrike_api_key) ∧
  headers !! "X-Shrike-Request-ID"
  = Some (if has_text request_id then default "" request_id else uuid4).
Proof.
  intros headers. unfold headers, Scanner.get_scan_headers.
  split; [rewrite dict_of_dom; cbn; set_solver|].
  rewrite !dict_of_lookup. split; [reflexivity|].
  destruct request_id as [r|]; cbn [has_text default from_option id display_lookup];
    [destruct (truthy (PStr r))|]; reflexivity.
Qed.

(** ** scan_sql and scan_file of ShrikeAsyncOpenAI *)

Lemma specialized_round_trip_eq (self : Client) (payload : gmap string pyval) :
  ∃ r, ShrikeAsyncOpenAI.specialized_round_trip self payload
       = (r, [EvPost (specialized_url (_shrike_endpoint self)) (PDict payload)]).
Proof.
  unfold ShrikeAsyncOpenAI.specialized_round_trip. rewrite request_outcome. eauto.
Qed.

Lemma handled_policy (self : Client) (payload : gmap string pyval)
    (handler : py_exn → M exn (gmap string pyval)) :
  (∀ e, match _fail_mode self with
        | OPEN => ∃ v, handler e = (Ok v, [])
        | CLOSED => ∃ m, handler e = (Err (ShrikeScanError m), [])
        end) →
  specialized_policy self
    (try_except (ShrikeAsyncOpenAI.specialized_round_trip self payload) handler).
Proof.
  intros Hh. destruct (specialized_round_trip_eq self payload) as [r ->].
  unfold specialized_policy, try_except. destruct r as [v|e].
  - split; [eauto|]. split; [eauto|]. intros e H. discriminate H.
  - specialize (Hh e). destruct (_fail_mode self).
    + destruct Hh as [v ->]. cbn [fst snd]. rewrite app_nil_r.
      split; [eauto|]. split; [eauto|]. intros e' H. discriminate H.
    + destruct Hh as [m ->]. cbn [fst snd]. rewrite app_nil_r.
      split; [eauto|]. split; [intros H; discriminate H|].
      intros e' H. injection H as <-. eauto.
Qed.

(** X15: scan_sql and scan_file of ShrikeAsyncOpenAI make exactly one POST
    to the specialized endpoint and log nothing; under OPEN they always
    return a result; they raise nothing but ShrikeScanError, and that under
    CLOSED only. *)
Theorem specialized_scan_policy (status_error_str : Z → string) (self : Client) :
  (∀ query database allow_destructive,
     specialized_policy self
       (ShrikeAsyncOpenAI.scan_sql status_error_str self query database allow_destructive)) ∧
  (∀ path content,
     specialized_policy self (ShrikeAsyncOpenAI.scan_file status_error_str self path content)).
Proof.
  split.
  - intros query database allow. unfold ShrikeAsyncOpenAI.scan_sql.
    apply handled_policy. intros e.
    destruct (_fail_mode self), e; unfold ret, raise; eauto.
  - intros path content. unfold ShrikeAsyncOpenAI.scan_file.
    apply handled_policy. intros e.
    destruct (_fail_mode self), e; unfold ret, raise; eauto.
Qed.

(** ** The constructors *)

Lemma rstrip_char_no_slash (s : string) : ends_with_slash (rstrip_char "/" s) = false.
Proof.
  induction s as [|a s IH]; [reflexivity|].
  cbn [rstrip_char]. destruct (rstrip_char "/" s) as [|b r] eqn:E.
  - destruct (Ascii.eqb a "/") eqn:Ea; [reflexivity|]. cbn [ends_with_slash]. exact Ea.
  - cbn [ends_with_slash] in *. exact IH.
Qed.

Lemma rstrip_char_suffix (s : string) :
  ∃ n : nat, s = rstrip_char "/" s +:+ str_mul "/" n.
Proof.
  induction s as [|a s [n IH]]; [exists O; reflexivity|].
  cbn [rstrip_char]. destruct (rstrip_char "/" s) as [|b r] eqn:E.
  - destruct (Ascii.eqb_spec a "/") as [->|Ha].
    + exists (S n). rewrite IH at 1. reflexivity.
    + exists n. rewrite IH at 1. reflexivity.
  - exists n. rewrite IH at 1. reflexivity.
Qed.

Lemma coerce_fail_mode_ok (builtins_repr : string → string)
    (fail_mode : string + FailMode) (mode : FailMode) :
  coerce_fail_mode builtins_repr fail_mode = Ok mode → fail_mode_read fail_mode mode.
Proof.
  unfold fail_mode_read, coerce_fail_mode, FailMode_of_value.
  destruct fail_mode as [s|m].
  - destruct (String.eqb_spec s "open") as [->|_].
    { intros H. injection H as <-. auto. }
    destruct (String.eqb_spec s "closed") as [->|_]; [|discriminate].
    intros H. injection H as <-. auto.
  - intros H. injection H as <-. auto.
Qed.

Lemma coerce_fail_mode_err (builtins_repr : string → string)
    (fail_mode : string + FailMode) (e : py_exn) :
  coerce_fail_mode builtins_repr fail_mode = Err e →
  ∃ s, fail_mode = inl s ∧ s ≠ "open" ∧ s ≠ "closed" ∧
       e = Exception "ValueError" (builtins_repr s +:+ " is not a valid FailMode").
Proof.
  unfold coerce_fail_mode, FailMode_of_value.
  destruct fail_mode as [s|m]; [|discriminate].
  destruct (String.eqb_spec s "open") as [->|Ho]; [discriminate|].
  destruct (String.eqb_spec s "closed") as [->|Hc]; [discriminate|].
  intros H. injection H as <-. eauto.
Qed.

(** X16: the adapter constructors strip every trailing slash of the
    endpoint and nothing else, turn a missing or empty Shrike API key into
    the empty str, read "open" and "closed" as the two fail modes and keep a
    FailMode as it is; they raise ValueError for any other str; the
    Anthropic constructor raises ImportError when the anthropic package is
    missing and otherwise does the same as the OpenAI one. *)
Theorem adapter_init_spec (builtins_repr : string → string)
    (wrapped : provider) (http : transport)
    (shrike_api_key : option string) (shrike_endpoint : string)
    (fail_mode : string + FailMode) :
  let init := ShrikeAsyncOpenAI.__init__ builtins_repr wrapped http shrike_api_key
                shrike_endpoint fail_mode in
  (∀ self,
     init = Ok self →
     fail_mode_read fail_mode (_fail_mode self) ∧
     ends_with_slash (_shrike_endpoint self) = false ∧
     (∃ n : nat, shrike_endpoint = _shrike_endpoint self +:+ str_mul "/" n) ∧
     _shrike_api_key self = (if has_text shrike_api_key then default "" shrike_api_key else "") ∧
     _http self = http ∧ _provider self = wrapped) ∧
  (∀ e,
     init = Err e →
     ∃ s, fail_mode = inl s ∧ s ≠ "open" ∧ s ≠ "closed" ∧
          e = Exception "ValueError" (builtins_repr s +:+ " is not a valid FailMode")) ∧
  (∀ mode, fail_mode_read fail_mode mode → ∃ self, init = Ok self ∧ _fail_mode self = mode) ∧
  ShrikeAnthropic.__init__ builtins_repr true wrapped http shrike_api_key shrike_endpoint
    fail_mode = init ∧
  ShrikeAsyncAnthropic.__init__ builtins_repr true wrapped http shrike_api_key shrike_endpoint
    fail_mode = init ∧
  (∃ msg, ShrikeAnthropic.__init__ builtins_repr false wrapped http shrike_api_key
            shrike_endpoint fail_mode
          = Err (Exception "ImportError" msg) ∧
          ShrikeAsyncAnthropic.__init__ builtins_repr false wrapped http shrike_api_key
            shrike_endpoint fail_mode
          = Err (Exception "ImportError" msg)).
Proof.
  intros init. unfold init.
  unfold ShrikeAsyncAnthropic.__init__, ShrikeAsyncOpenAI.__init__, ShrikeAnthropic.__init__,
    init_client.
  split.
  { intros self. destruct (coerce_fail_mode builtins_repr fail_mode) as [mode|e] eqn:Hm;
      [|discriminate].
    cbn [result_bind]. intros H. injection H as <-. cbn.
    split; [exact (coerce_fail_mode_ok _ _ _ Hm)|].
    split; [apply rstrip_char_no_slash|].
    split; [apply rstrip_char_suffix|].
    split; [|split; reflexivity].
    destruct shrike_api_key as [[|a k]|]; reflexivity. }
  split.
  { intros e. destruct (coerce_fail_mode builtins_repr fail_mode) as [mode|e'] eqn:Hm;
      [discriminate|].
    cbn [result_bind]. intros H. injection H as <-. exact (coerce_fail_mode_err _ _ _ Hm). }
  split.
  { intros mode [->|[[-> ->]|[-> ->]]]; eexists; split; reflexivity. }
  split; [reflexivity|]. split; [reflexivity|]. eexists. split; reflexivity.
Qed.

Lemma adapter_init_spec_witness :
  (∃ self,
     ShrikeAsyncOpenAI.__init__ demo_repr demo_provider
       (λ _ _, PostRaises (TimeoutException "timed out"))
       None (DEFAULT_ENDPOINT +:+ "//") (inl "closed") = Ok self ∧
     _fail_mode self = CLOSED ∧ _shrike_endpoint self = DEFAULT_ENDPOINT ∧
     ends_with_slash (_shrike_endpoint self) = false) ∧
  (∃ s, (inl "OPEN" : string + FailMode) = inl s ∧ s ≠ "open" ∧ s ≠ "closed" ∧
        Exception "ValueError" "'OPEN' is not a valid FailMode"
        = Exception "ValueError" (demo_repr s +:+ " is not a valid FailMode")).
Proof.
  split.
  - eexists. split; [vm_compute; reflexivity|].
    split; [reflexivity|]. split; [vm_compute; reflexivity|].
    refine (proj1 (proj2 (proj1 (adapter_init_spec demo_repr demo_provider
              (λ _ _, PostRaises (TimeoutException "timed out")) None
              (DEFAULT_ENDPOINT +:+ "//") (inl "closed")) _ _))).
    vm_compute. reflexivity.
  - apply (proj1 (proj2 (adapter_init_spec demo_repr demo_provider
              (λ _ _, PostRaises (TimeoutException "timed out")) None DEFAULT_ENDPOINT
              (inl "OPEN")))).
    vm_compute. reflexivity.
Defined.

(** ** The size ceiling and the violations of the adapters *)

Lemma rstrip_empty_all_space (s : string) : rstrip s = "" → all_space s = true.
Proof.
  induction s as [|c s IH]; [reflexivity|].
  cbn [rstrip all_space]. destruct (rstrip s) as [|a r].
  - destruct (isspace c); [intros _; exact (IH eq_refl)|intros H; discriminate H].
  - intros H. discriminate H.
Qed.

Lemma lstrip_all_space_inv (s : string) : all_space (lstrip s) = true → all_space s = true.
Proof.
  induction s as [|c s IH]; [reflexivity|].
  cbn [lstrip]. destruct (isspace c) eqn:Hc.
  - intros H. cbn [all_space]. rewrite Hc. exact (IH H).
  - intros H. exact H.
Qed.

Lemma strip_empty_all_space (s : string) : strip s = "" → all_space s = true.
Proof.
  unfold strip. intros H. apply lstrip_all_space_inv, rstrip_empty_all_space, H.
Qed.

Section AdapterGaps.

Variable builtins_str : pyval → string.
Variables (model : string) (max_tokens : Z) (stream : bool) (kwargs : gmap string pyval).

Abbreviation eps3 := (entry_points builtins_str model max_tokens stream kwargs).

(** X17: the adapters apply no size limit: a non-blank user text longer
    than MAX_CONTENT_SIZE is POSTed whole to the scan backend by every entry
    point, while ScanClient.scan makes no POST for the same text. *)
Theorem adapter_scan_has_no_size_guard (ep : entry_point) (self : Client)
    (messages : list (gmap string pyval)) (text : string) :
  ep ∈ eps3 →
  ep_extract ep messages = Ok text → strip text ≠ "" →
  len text > Scanner.MAX_CONTENT_SIZE →
  posts (snd (ep_scan ep self messages)) = [EvPost (scan_url self) (scan_body text)] ∧
  ∀ client : Scanner.ScanClient, posts (snd (Scanner.scan client text None)) = [].
Proof.
  intros Hin Hex Hb Hsize. split.
  - rewrite (ep_scan_nonblank _ _ _ _ _ _ _ _ _ Hin Hex Hb).
    destruct (remote_scan_outcome self text) as (r & d & -> & Hd & _).
    destruct Hd as [->|[m ->]]; reflexivity.
  - intros client.
    destruct (check_content_size_over text None) as (v & Hv & Hsafe & _).
    { cbn [context_len]. lia. }
    unfold Scanner.scan. rewrite Hv, (dict_nonempty v "safe" (PBool false) Hsafe).
    reflexivity.
Qed.

Lemma ep_call_blocked (ep : entry_point) (self : Client)
    (messages : list (gmap string pyval)) (v : gmap string pyval) (t : list event) :
  ep ∈ eps3 →
  ep_scan ep self messages = (Ok v, t) → blocked v = true →
  v !! "violations" = None →
  ∃ message,
    ep_call ep self messages
    = (Err (ShrikeBlockedError message (default PNone (v !! "threat_type"))
              (default PNone (v !! "confidence")) (PList [])), t) ∧
    message = (if openai_entry ep
               then PStr ("Request blocked: "
                          +:+ builtins_str (default (PStr "Security threat detected")
                                              (v !! "reason")))
               else default (PStr "Request blocked by Shrike") (v !! "reason")).
Proof.
  intros Hin Hscan Hb Hviol. unfold entry_points in Hin.
  repeat (apply elem_of_cons in Hin as [->|Hin];
          [cbn [ep_call ep_scan] in *;
           cbv beta delta [ShrikeAnthropic.create ShrikeAnthropic.stream
                           ShrikeAsyncAnthropic.create ShrikeAsyncAnthropic.stream
                           ShrikeAsyncOpenAI.create];
           rewrite Hscan; unfold bind; rewrite Hb, ?Hviol;
           unfold ShrikeBlockedError_init, raise; cbn [default from_option id truthy];
           rewrite app_nil_r; eexists; split; reflexivity|]).
  apply elem_of_nil in Hin. destruct Hin.
Qed.

(** X18: a ShrikeBlockedError raised by an entry point comes from a
    sanitized unsafe verdict of the backend: its threat_type and confidence
    are those of the verdict; its message is the verdict's reason at the
    four Anthropic entry points and "Request blocked: " followed by the str
    of the reason at the entry point of ShrikeAsyncOpenAI; its violations
    are always the empty list. *)
Theorem blocked_error_content (ep : entry_point) (self : Client)
    (messages : list (gmap string pyval))
    (message threat_type confidence violations : pyval) (t : list event) :
  ep ∈ eps3 →
  ep_call ep self messages
  = (Err (ShrikeBlockedError message threat_type confidence violations), t) →
  violations = PList [] ∧
  ∃ raw verdict,
    sanitize_scan_response raw = Ok verdict ∧ raw_safe raw = false ∧
    ep_scan ep self messages = (Ok verdict, t) ∧
    verdict !! "threat_type" = Some threat_type ∧
    verdict !! "confidence" = Some confidence ∧
    ∃ reason, verdict !! "reason" = Some reason ∧
              message = (if openai_entry ep
                         then PStr ("Request blocked: " +:+ builtins_str reason)
                         else reason).
Proof.
  intros Hin Hcall.
  destruct (ep_call_eq _ _ _ _ _ ep messages Hin) as (call & msg & viol & Heq).
  destruct (ep_scan ep self messages) as [[v|e] t'] eqn:Hscan.
  2:{ rewrite Heq, Hscan in Hcall. cbn [bind] in Hcall.
      destruct (ep_scan_outcome _ _ _ _ _ ep self messages Hin)
        as [(e' & _ & Hs)|[(text & _ & _ & Hs)|(text & _ & _ & Hs)]];
        rewrite Hs in Hscan.
      - apply pair_equal_spec in Hscan as [Hscan _]. injection Hscan as <-.
        apply pair_equal_spec in Hcall as [Hcall _]. discriminate Hcall.
      - discriminate Hscan.
      - destruct (remote_scan_outcome self text) as (r & d & Hr & _ & Herr).
        rewrite Hr in Hscan. apply pair_equal_spec in Hscan as [-> _].
        destruct Herr as (_ & m & ->).
        apply pair_equal_spec in Hcall as [Hcall _]. discriminate Hcall. }
  destruct (blocked v) eqn:Hb.
  2:{ rewrite Heq, Hscan in Hcall. unfold bind in Hcall.
      rewrite Hb, call_provider_eq in Hcall.
      apply pair_equal_spec in Hcall as [Hcall _]. unfold provider_outcome in Hcall.
      destruct (_provider self call); discriminate Hcall. }
  destruct (ep_scan_blocked _ _ _ _ _ _ _ _ _ _ Hin Hscan Hb) as (raw & Hraw & Hs & _).
  pose proof (sanitize_dom raw v Hraw) as Hdom. rewrite Hs in Hdom.
  assert (Hviol : v !! "violations" = None).
  { apply not_elem_of_dom. rewrite Hdom. unfold allowed_keys.
    rewrite !elem_of_union, !elem_of_singleton.
    intros [[[[[H|H]|H]|H]|H]|H]; discriminate H. }
  destruct (ep_call_blocked ep self messages v t' Hin Hscan Hb Hviol) as (m & Hres & Hm).
  rewrite Hres in Hcall. apply pair_equal_spec in Hcall as [Hcall ->].
  injection Hcall as -> Htt Hc <-.
  split; [reflexivity|]. exists raw, v.
  destruct (sanitize_unsafe raw v Hs Hraw) as (tt & sv & c & g & _ & _ & _ & _ & Hv).
  assert (Htt' : v !! "threat_type" = Some (PStr tt))
    by (rewrite Hv, dict_of_lookup; reflexivity).
  assert (Hc' : v !! "confidence" = Some (PStr c))
    by (rewrite Hv, dict_of_lookup; reflexivity).
  assert (Hr' : v !! "reason" = Some (default (PStr g) (raw !! "reason")))
    by (rewrite Hv, dict_of_lookup; reflexivity).
  rewrite Htt' in Htt. rewrite Hc' in Hc. cbn [default from_option id] in Htt, Hc.
  subst threat_type confidence.
  repeat (split; [assumption || reflexivity|]).
  exists (default (PStr g) (raw !! "reason")). split; [exact Hr'|].
  rewrite Hr' in Hm. cbn [default from_option id] in Hm. exact Hm.
Qed.

End AdapterGaps.

Lemma adapter_scan_has_no_size_guard_witness :
  posts (snd (ep_scan demo_create (demo_client OPEN (PostRaises (TimeoutException "timed out")))
                [ user_message (PStr oversized) ]))
  = [EvPost (scan_url (demo_client OPEN (PostRaises (TimeoutException "timed out"))))
       (scan_body oversized)] ∧
  ∀ client : Scanner.ScanClient, posts (snd (Scanner.scan client oversized None)) = [].
Proof.
  apply (adapter_scan_has_no_size_guard demo_str "claude-3-opus-20240229" 1024 false ∅
           demo_create).
  - exact demo_create_listed.
  - rewrite anthropic_extract_eq. reflexivity.
  - intros H%strip_empty_all_space.
    assert (Hf : all_space oversized = false) by (vm_compute; reflexivity).
    rewrite Hf in H. discriminate H.
  - rewrite len_oversized. reflexivity.
Defined.

Lemma blocked_error_content_witness :
  (PList [] = PList [] ∧
   ∃ raw verdict,
     sanitize_scan_response raw = Ok verdict ∧ raw_safe raw = false ∧
     ep_scan demo_create
       (demo_client CLOSED
          (backend_returns (<["violations" := PList [ PStr "rule-7" ]]> sqli_response)))
       [ user_message (PStr "' OR 1=1 --") ]
     = (Ok verdict, [EvPost (DEFAULT_ENDPOINT +:+ "/scan") (scan_body "' OR 1=1 --")]) ∧
     verdict !! "threat_type" = Some (PStr "sql_injection") ∧
     verdict !! "confidence" = Some (PStr "high") ∧
     ∃ reason, verdict !! "reason" = Some reason ∧
               PStr "This query contains potentially dangerous SQL patterns." = reason) ∧
  (PList [] = PList [] ∧
   ∃ raw verdict,
     sanitize_scan_response raw = Ok verdict ∧ raw_safe raw = false ∧
     ep_scan (demo_openai_create openai_kwargs)
       (demo_client OPEN
          (backend_returns (<["violations" := PList [ PStr "rule-7" ]]> sqli_response)))
       [ user_message (PStr "' OR 1=1 --") ]
     = (Ok verdict, [EvPost (DEFAULT_ENDPOINT +:+ "/scan") (scan_body "' OR 1=1 --")]) ∧
     verdict !! "threat_type" = Some (PStr "sql_injection") ∧
     verdict !! "confidence" = Some (PStr "high") ∧
     ∃ reason, verdict !! "reason" = Some reason ∧
               PStr "Request blocked: This query contains potentially dangerous SQL patterns."
               = PStr ("Request blocked: " +:+ demo_str reason)).
Proof.
  split.
  - apply (blocked_error_content demo_str "claude-3-opus-20240229" 1024 false ∅ demo_create).
    + exact demo_create_listed.
    + vm_compute. reflexivity.
  - apply (blocked_error_content demo_str "claude-3-opus-20240229" 1024 false openai_kwargs
             (demo_openai_create openai_kwargs)).
    + apply demo_openai_create_listed.
    + vm_compute. reflexivity.
Defined.

Lemma specialized_scan_policy_witness :
  specialized_policy (demo_client CLOSED (PostRaises (TimeoutException "timed out")))
    (ShrikeAsyncOpenAI.scan_sql (λ code, "HTTP " +:+ pretty code)
       (demo_client CLOSED (PostRaises (TimeoutException "timed out")))
       "SELECT 1" None false) ∧
  specialized_policy (demo_client OPEN (PostReturns {| status_code := 500; json := Ok PNone |}))
    (ShrikeAsyncOpenAI.scan_file (λ code, "HTTP " +:+ pretty code)
       (demo_client OPEN (PostReturns {| status_code := 500; json := Ok PNone |}))
       "/tmp/config.json" (Some "{}")).
Proof.
  split.
  - apply (proj1 (specialized_scan_policy (λ code, "HTTP " +:+ pretty code)
                    (demo_client CLOSED (PostRaises (TimeoutException "timed out"))))).
  - apply (proj2 (specialized_scan_policy (λ code, "HTTP " +:+ pretty code)
                    (demo_client OPEN (PostReturns {| status_code := 500; json := Ok PNone |})))).
Defined.

(** ** The two scan_sql *)

Lemma handled_trace (self : Client) (payload : gmap string pyval)
    (handler : py_exn → M exn (gmap string pyval)) :
  (∀ e, snd (handler e) = []) →
  snd (try_except (ShrikeAsyncOpenAI.specialized_round_trip self payload) handler)
  = [EvPost (specialized_url (_shrike_endpoint self)) (PDict payload)].
Proof.
  intros Hh. destruct (specialized_round_trip_eq self payload) as [r ->].
  unfold try_except. destruct r as [v|e]; [reflexivity|].
  specialize (Hh e). destruct (handler e) as [r' t']. cbn [snd] in *. subst t'.
  reflexivity.
Qed.

(** X19: for a query within the size limit, ScanClient.scan_sql and
    ShrikeAsyncOpenAI.scan_sql each make one POST to their specialized
    endpoint, and the two payloads are equal except for
    context.allow_destructive, which the first spells "True" or "False" and
    the second "true" or "false". *)
Theorem scan_sql_flag_spelling (status_error_str : Z → string)
    (client : Scanner.ScanClient) (self : Client)
    (query : string) (database : option string) (allow_destructive : bool) :
  len query ≤ Scanner.MAX_CONTENT_SIZE →
  ∃ p1 p2 c1 c2,
    snd (Scanner.scan_sql client query database allow_destructive)
    = [EvPost (specialized_url (Scanner._endpoint client)) (PDict p1)] ∧
    snd (ShrikeAsyncOpenAI.scan_sql status_error_str self query database allow_destructive)
    = [EvPost (specialized_url (_shrike_endpoint self)) (PDict p2)] ∧
    p1 !! "context" = Some (PDict c1) ∧ p2 !! "context" = Some (PDict c2) ∧
    delete "context" p1 = delete "context" p2 ∧
    delete "allow_destructive" c1 = delete "allow_destructive" c2 ∧
    c1 !! "allow_destructive" = Some (PStr (if allow_destructive then "True" else "False")) ∧
    c2 !! "allow_destructive" = Some (PStr (if allow_destructive then "true" else "false")).
Proof.
  intros Hsize. do 4 eexists.
  split.
  { unfold Scanner.scan_sql, Scanner._check_content_size.
    destruct (Z.gtb_spec (len query + 0) Scanner.MAX_CONTENT_SIZE); [lia|].
    rewrite specialized_request_eq. reflexivity. }
  split.
  { unfold ShrikeAsyncOpenAI.scan_sql. apply handled_trace.
    intros e. destruct (_fail_mode self), e; reflexivity. }
  split; [rewrite dict_of_lookup; reflexivity|].
  split; [rewrite dict_of_lookup; reflexivity|].
  unfold dict_of. cbn [foldl fst snd].
  split; [rewrite !delete_insert_eq; reflexivity|].
  split; [rewrite !delete_insert_eq; reflexivity|].
  rewrite !lookup_insert_eq. destruct allow_destructive; split; reflexivity.
Qed.

Lemma scan_sql_flag_spelling_witness :
  ∃ p1 p2 c1 c2,
    snd (Scanner.scan_sql (demo_scan_client (PostRaises (TimeoutException "timed out")))
           "DROP TABLE users" None true)
    = [EvPost (specialized_url DEFAULT_ENDPOINT) (PDict p1)] ∧
    snd (ShrikeAsyncOpenAI.scan_sql (λ code, "HTTP " +:+ pretty code)
           (demo_client OPEN (PostRaises (TimeoutException "timed out")))
           "DROP TABLE users" None true)
    = [EvPost (specialized_url DEFAULT_ENDPOINT) (PDict p2)] ∧
    p1 !! "context" = Some (PDict c1) ∧ p2 !! "context" = Some (PDict c2) ∧
    delete "context" p1 = delete "context" p2 ∧
    delete "allow_destructive" c1 = delete "allow_destructive" c2 ∧
    c1 !! "allow_destructive" = Some (PStr "True") ∧
    c2 !! "allow_destructive" = Some (PStr "true").
Proof.
  apply (scan_sql_flag_spelling (λ code, "HTTP " +:+ pretty code)
           (demo_scan_client (PostRaises (TimeoutException "timed out")))
           (demo_client OPEN (PostRaises (TimeoutException "timed out")))
           "DROP TABLE users" None true).
  vm_compute. discriminate.
Defined.
